(** * BASED DAO skill: governance scripts

    A shallow embedding of the two governance scripts of the repository,
    [scripts/vote.js] and [scripts/check-proposals.js], and the properties
    of their decision logic.

    Conventions of the embedding.
    - A JavaScript string is a [string] holding its UTF-8 bytes.
    - A [bigint] and an integer-valued JavaScript number are both a [Z];
      the conversion [Number(bigint)] is written out with its rounding to
      a 53-bit significand.
    - The chain client (ethers provider, wallet and contracts) is an
      environment record: every remote call is a field that gives the
      value the call resolves to, or the message of the error it rejects
      with.
    - [console.log], [console.error] and the transactions that are sent
      are recorded, in order, in a trace; [process.exit] and a thrown
      error end the computation. *)

From Stdlib Require Import ZArith NArith Ascii String List Bool Lia.
From stdpp Require Import base option list gmap strings.

Open Scope string_scope.
Open Scope list_scope.
Open Scope Z_scope.

(** ** Values *)

(** The value a promise settles with. *)
Inductive Result (A : Type) : Type :=
| Ok (a : A)
| Throw (message : string).
Arguments Ok {A} a.
Arguments Throw {A} message.

(** One argument of a [console.log] call, or one segment of a template
    literal.  Numbers are kept as numbers: how JavaScript prints them is
    not part of the decision logic. *)
#[local] Unset Elimination Schemes.
Inductive Piece : Type :=
| Str (s : string)
| Num (z : Z)                (* a number or a bigint, printed *)
| Ether (wei : Z)            (* ethers.formatEther(wei) *)
| Quot (a b : Z)             (* the number a / b, printed *)
| Undefined
| Template (segments : list Piece).   (* a template literal *)
#[local] Set Elimination Schemes.

(** A transaction sent to the governor contract. *)
Inductive Call : Type :=
| castVote (proposalId : string) (support : Z) (gasLimit : Z)
| castVoteWithReason (proposalId : string) (support : Z) (reason : string)
    (gasLimit : Z).

(** What a run does to the outside, in order.  [Send c]: the script calls
    the contract method; what the call resolves to is the answer of the
    environment. *)
Inductive Event : Type :=
| Log (args : list Piece)      (* console.log(...args) *)
| Error (args : list Piece)    (* console.error(...args) *)
| Send (c : Call).

(** ** The effect monad: a trace, and how the computation ended *)

Inductive Outcome (A : Type) : Type :=
| Return (a : A)
| Exited (code : Z)            (* process.exit(code) *)
| Threw (message : string)     (* an exception on its way up *)
| Diverged.                    (* a loop that never ends *)
Arguments Return {A} a.
Arguments Exited {A} code.
Arguments Threw {A} message.
Arguments Diverged {A}.

Definition M (A : Type) : Type := (list Event * Outcome A)%type.

Definition ret {A} (a : A) : M A := ([], Return a).

Definition bind {A B} (m : M A) (k : A -> M B) : M B :=
  match m with
  | (t, Return a) => let (t', o) := k a in (t ++ t', o)
  | (t, Exited c) => (t, Exited c)
  | (t, Threw e) => (t, Threw e)
  | (t, Diverged) => (t, Diverged)
  end.

Notation "'let*' x ':=' m 'in' k" := (bind m (fun x => k))
  (at level 10, x pattern, m at level 100, k at level 200).
Notation "m ';;' k" := (bind m (fun _ => k))
  (at level 100, k at level 200, right associativity).

Definition emit (e : Event) : M unit := ([e], Return tt).
Definition console_log (args : list Piece) : M unit := emit (Log args).
Definition console_error (args : list Piece) : M unit := emit (Error args).
Definition process_exit {A} (code : Z) : M A := ([], Exited code).
Definition throw {A} (message : string) : M A := ([], Threw message).
Definition diverge {A} : M A := ([], Diverged).

(** [await p]: the value of a fulfilled promise, the exception of a
    rejected one. *)
Definition await {A} (p : Result A) : M A :=
  match p with
  | Ok a => ret a
  | Throw e => throw e
  end.

(** [try { body } catch (error) { handler(error.message) }].
    [process.exit] is not an exception: it is not caught. *)
Definition try_catch {A} (body : M A) (handler : string -> M A) : M A :=
  match body with
  | (t, Threw e) => let (t', o) := handler e in (t ++ t', o)
  | r => r
  end.

(** [Promise.all([p, q])]: both calls are issued; the result is the pair
    of values, or the first rejection. *)
Definition Promise_all2 {A B} (p : Result A) (q : Result B) : Result (A * B) :=
  match p, q with
  | Ok a, Ok b => Ok (a, b)
  | Throw e, _ => Throw e
  | Ok _, Throw e => Throw e
  end.

(** [p.catch(() => d)] *)
Definition catch_default {A} (p : Result A) (d : A) : Result A :=
  match p with
  | Ok a => Ok a
  | Throw _ => Ok d
  end.

(** [main().catch(console.error)]: the process as the shell sees it, its
    trace and its exit code.  An error that escapes [main] is printed (the
    trace keeps its message) and the process still ends with code 0.
    [None]: the process never ends. *)
Definition run (m : M unit) : list Event * option Z :=
  match m with
  | (t, Return _) => (t, Some 0)
  | (t, Exited c) => (t, Some c)
  | (t, Threw e) => (t ++ [Error [Str e]], Some 0)
  | (t, Diverged) => (t, None)
  end.

(** ** JavaScript helpers *)

Definition nl : string := String "010" EmptyString.
Definition dquote : string := String "034" EmptyString.

(** [!s] for a possibly undefined string: undefined and the empty string
    are falsy. *)
Definition falsy (s : option string) : bool :=
  match s with
  | None => true
  | Some s => String.eqb s ""
  end.

(** [s === undefined] *)
Definition is_undefined {A} (s : option A) : bool :=
  match s with
  | None => true
  | Some _ => false
  end.

(** [a || b] for strings *)
Definition or_else (a : option string) (b : string) : string :=
  match a with
  | None => b
  | Some s => if String.eqb s "" then b else s
  end.

(** [hay.includes(needle)] *)
Fixpoint includes (hay needle : string) : bool :=
  String.prefix needle hay ||
  match hay with
  | EmptyString => false
  | String _ rest => includes rest needle
  end.

(** [s.toLowerCase()] on the ASCII letters (an address is ASCII). *)
Definition lower_ascii (c : ascii) : ascii :=
  let n := N_of_ascii c in
  if ((65 <=? n) && (n <=? 90))%N then ascii_of_N (n + 32) else c.

Fixpoint toLowerCase (s : string) : string :=
  match s with
  | EmptyString => EmptyString
  | String c r => String (lower_ascii c) (toLowerCase r)
  end.

(** [Number(z)] for a bigint [z] with |z| < 2^1024: the nearest double,
    ties to even.  Every integer of magnitude below 2^53 is kept. *)
Definition Number (z : Z) : Z :=
  let m := Z.abs z in
  if m <? 2 ^ 53 then z
  else
    let e := Z.log2 m - 52 in
    let q := m / 2 ^ e in
    let r := m mod 2 ^ e in
    let h := 2 ^ (e - 1) in
    let q' := if (h <? r) || ((r =? h) && Z.odd q) then q + 1 else q in
    Z.sgn z * (q' * 2 ^ e).

(** [a - b] on integer-valued doubles: the exact difference, rounded. *)
Definition number_sub (a b : Z) : Z := Number (a - b).

(** [Math.floor(a / b)] on integer-valued doubles with [0 < b < 2^53]
    and |a| < 2^1024: the quotient is the double nearest to a/b, ties to
    even, a multiple of 2^-k with 53 significant bits; then its floor. *)
Definition floor_div (a b : Z) : Z :=
  let m := Z.abs a in
  if m <? b then (if a <? 0 then -1 else 0)
  else
    let k := 52 - Z.log2 (m / b) in
    let n := m * 2 ^ Z.max k 0 in
    let d := b * 2 ^ Z.max (- k) 0 in
    let q := n / d in
    let r := n mod d in
    let q' := if (d <? 2 * r) || ((2 * r =? d) && Z.odd q) then q + 1 else q in
    if 0 <=? k then (Z.sgn a * q') / 2 ^ k else Z.sgn a * q' * 2 ^ (- k).

(** ** [parseInt]

    The result of [parseInt(string)] (no radix): [NaN], or an integer
    with its sign kept apart, since [parseInt("-0")] is the number -0.
    The magnitude is the mathematical value of the digits; a value above
    2^53 is then rounded to a double, which moves no value to 0, 1 or 2. *)
Inductive number : Type :=
| NaN
| Int (negative : bool) (magnitude : N).

Definition number_value (x : number) : option Z :=
  match x with
  | NaN => None
  | Int false m => Some (Z.of_N m)
  | Int true m => Some (- Z.of_N m)
  end.

(** StrWhiteSpaceChar, one byte: TAB, LF, VT, FF, CR, SP. *)
Definition ws1 (a : ascii) : bool :=
  let n := N_of_ascii a in
  (((9 <=? n) && (n <=? 13)) || (n =? 32))%N.

(** StrWhiteSpaceChar, two bytes of UTF-8: U+00A0. *)
Definition ws2 (a b : ascii) : bool :=
  ((N_of_ascii a =? 194) && (N_of_ascii b =? 160))%N.

(** StrWhiteSpaceChar, three bytes of UTF-8: U+1680, U+2000..U+200A,
    U+2028, U+2029, U+202F, U+205F, U+3000, U+FEFF. *)
Definition ws3 (a b c : ascii) : bool :=
  let x := N_of_ascii a in
  let y := N_of_ascii b in
  let z := N_of_ascii c in
  (((x =? 225) && (y =? 154) && (z =? 128))
   || ((x =? 226) && (y =? 128)
       && (((128 <=? z) && (z <=? 138)) || (z =? 168) || (z =? 169)
           || (z =? 175)))
   || ((x =? 226) && (y =? 129) && (z =? 159))
   || ((x =? 227) && (y =? 128) && (z =? 128))
   || ((x =? 239) && (y =? 187) && (z =? 191)))%N.

(** Step 2 of parseInt: leading white space is removed. *)
Fixpoint trimStart (s : string) : string :=
  match s with
  | EmptyString => s
  | String a r1 =>
    if ws1 a then trimStart r1
    else
      match r1 with
      | EmptyString => s
      | String b r2 =>
        if ws2 a b then trimStart r2
        else
          match r2 with
          | EmptyString => s
          | String c r3 => if ws3 a b c then trimStart r3 else s
          end
      end
  end.

(** The value of a digit in the given radix (10 or 16). *)
Definition digit_value (radix : N) (a : ascii) : option N :=
  let n := N_of_ascii a in
  let v :=
    if ((48 <=? n) && (n <=? 57))%N then Some (n - 48)%N
    else if ((97 <=? n) && (n <=? 102))%N then Some (n - 87)%N
    else if ((65 <=? n) && (n <=? 70))%N then Some (n - 55)%N
    else None in
  match v with
  | Some d => if (d <? radix)%N then Some d else None
  | None => None
  end.

(** The longest prefix of digits, read in the radix; [acc] is the value
    of the digits read so far, [None] when there is none yet. *)
Fixpoint digits (radix : N) (acc : option N) (s : string) : option N :=
  match s with
  | EmptyString => acc
  | String a r =>
    match digit_value radix a with
    | Some d => digits radix (Some (default 0%N acc * radix + d)%N) r
    | None => acc
    end
  end.

Definition parseInt (inputString : string) : number :=
  let s := trimStart inputString in
  let '(sign, s) :=
    match s with
    | String "-" r => (true, r)
    | String "+" r => (false, r)
    | _ => (false, s)
    end in
  let '(R, s) :=
    match s with
    | String "0" (String "x" r) => (16%N, r)
    | String "0" (String "X" r) => (16%N, r)
    | _ => (10%N, s)
    end in
  match digits R None s with
  | None => NaN
  | Some mathInt => Int sign mathInt
  end.

(** [[0, 1, 2].includes(x)]: SameValueZero, under which -0 is 0 and NaN
    is only NaN. *)
Definition includes_012 (x : number) : bool :=
  match x with
  | NaN => false
  | Int _ 0%N => true
  | Int false m => ((m =? 1) || (m =? 2))%N
  | Int true _ => false
  end.

(** The property key of a number used as an index, [obj[x]]: both zeros
    have the key "0", and only the keys 0, 1, 2, ... matter here. *)
Definition key_of (x : number) : option Z :=
  match x with
  | Int _ 0%N => Some 0
  | Int false m => Some (Z.of_N m)
  | _ => None
  end.

(** The uint8 argument ethers encodes for a number: BigInt(-0) is 0n. *)
Definition uint_arg (x : number) : Z := default 0 (number_value x).

(** ** The governor contract's data *)

Module Governor.

(** What [proposals(uint256)] returns (GOVERNOR_ABI). *)
Record Proposal : Type := {
  proposer : Z;
  eta : Z;
  startBlock : Z;
  endBlock : Z;
  forVotes : Z;
  againstVotes : Z;
  abstainVotes : Z;
  canceled : bool;
  executed : bool
}.

(** What [tx.wait()] resolves to, as far as the scripts read it. *)
Record Receipt : Type := {
  blockNumber : Z;
  gasUsed : Z;
  gasPrice : Z
}.

Record TransactionResponse : Type := {
  hash : string;
  wait : Result Receipt
}.

End Governor.

(** ** scripts/vote.js *)

Module Vote.

Import Governor.

Definition STATES : gmap Z string :=
  list_to_map
    [(0, "Pending"); (1, "Active"); (2, "Canceled"); (3, "Defeated");
     (4, "Succeeded"); (5, "Queued"); (6, "Expired"); (7, "Executed")].

Definition SUPPORT : gmap Z string :=
  list_to_map [(0, "Against"); (1, "For"); (2, "Abstain")].

Definition ZeroAddress : string :=
  "0x0000000000000000000000000000000000000000".

(** The process and the chain client, as one run of the script sees
    them. *)
Record Env : Type := {
  argv : list string;                               (* process.argv *)
  PRIVATE_KEY : option string;                      (* process.env.PRIVATE_KEY *)
  Wallet : string -> Result string;                 (* new ethers.Wallet(key).address *)
  tokenContract_balanceOf : string -> Result Z;
  tokenContract_delegates : string -> Result string;
  governorContract_state : string -> Result Z;
  governorContract_proposals : string -> Result Proposal;
  governorContract_hasVoted : string -> string -> Result bool;
  provider_getBlockNumber : Result Z;
  governorContract_send : Call -> Result TransactionResponse
}.

(** vote.js:113 *)
Definition stateName (stateNum : Z) : string :=
  or_else (STATES !! stateNum) "Unknown".

(** vote.js:142-151, the transaction of [tx = await ...] *)
Definition vote_call (proposalId : string) (supportNum : number)
    (reason : string) : Call :=
  if negb (String.eqb reason "") then
    castVoteWithReason proposalId (uint_arg supportNum) reason 300000
  else
    castVote proposalId (uint_arg supportNum) 250000.

(** vote.js:135 *)
Definition blocksLeft (proposal : Proposal) (currentBlock : Z) : Z :=
  number_sub (Number (endBlock proposal)) currentBlock.

(** vote.js:136, [Math.floor((blocksLeft * 2) / 3600)]; the product by 2
    is exact on doubles. *)
Definition hoursLeft (blocksLeft : Z) : Z := floor_div (blocksLeft * 2) 3600.

(** vote.js:85-167, the body of [try] *)
Definition main_try (e : Env) (address proposalId : string)
    (supportNum : number) (reason : string) : M unit :=
  (* Check voting power *)
  let* balance := await (tokenContract_balanceOf e address) in
  console_log [Str "Your NFTs:"; Num balance];;
  if balance =? 0 then
    console_error [Str "❌ You have no BASED DAO NFTs. Cannot vote."];;
    process_exit 1
  else
  (* Check delegation *)
  let* delegate := await (tokenContract_delegates e address) in
  (if String.eqb delegate ZeroAddress then
     console_log [Str "⚠️  Warning: Your voting power is not delegated."];;
     console_log [Str "   You may need to delegate to yourself to vote."];;
     console_log [Str "   Check: https://nouns.build/dao/base/0x10a5676ec8ae3d6b1f36a6f1a1526136ba7938bf"]
   else if negb (String.eqb (toLowerCase delegate) (toLowerCase address)) then
     console_log [Str "⚠️  Warning: Your votes are delegated to:"; Str delegate];;
     console_log [Str "   Only the delegate can vote with your voting power."]
   else ret tt);;
  (* Check proposal state *)
  let* (state, proposal) :=
    await (Promise_all2 (governorContract_state e proposalId)
                        (governorContract_proposals e proposalId)) in
  let stateNum := Number state in
  let stateName := stateName stateNum in
  console_log [Str (nl +:+ "📊 Proposal Status:")];;
  console_log [Str "State:"; Str stateName];;
  console_log [Str "For:"; Ether (forVotes proposal); Str "votes"];;
  console_log [Str "Against:"; Ether (againstVotes proposal); Str "votes"];;
  console_log [Str "Abstain:"; Ether (abstainVotes proposal); Str "votes"];;
  if negb (stateNum =? 1) then
    console_error
      [Template [Str (nl +:+ "❌ Cannot vote. Proposal is "); Str stateName;
                 Str ", not Active."]];;
    process_exit 1
  else
  (* Check if already voted *)
  let* hasVoted := await (governorContract_hasVoted e proposalId address) in
  if (hasVoted : bool) then
    console_error [Str (nl +:+ "❌ You have already voted on this proposal.")];;
    process_exit 1
  else
  (* Calculate blocks left *)
  let* currentBlock := await (provider_getBlockNumber e) in
  let blocksLeft := blocksLeft proposal currentBlock in
  let hoursLeft := hoursLeft blocksLeft in
  console_log
    [Template [Str (nl +:+ "Voting ends in: ~"); Num hoursLeft;
               Str " hours ("; Num blocksLeft; Str " blocks)"]];;
  (* Cast vote *)
  console_log [Str (nl +:+ "📤 Submitting vote...")];;
  let call := vote_call proposalId supportNum reason in
  emit (Send call);;
  let* tx := await (governorContract_send e call) in
  console_log [Str "Transaction:"; Str (hash tx)];;
  console_log [Str "Waiting for confirmation..."];;
  let* receipt := await (wait tx) in
  console_log [Str "✅ Vote cast!"];;
  console_log [Str "Block:"; Num (blockNumber receipt)];;
  console_log [Str "Gas used:"; Num (gasUsed receipt)];;
  let gasCost := gasUsed receipt * gasPrice receipt in
  console_log [Str "Gas cost:"; Ether gasCost; Str "ETH"];;
  console_log [Str (nl +:+ "🎉 Your vote has been recorded!")];;
  console_log
    [Template [Str "View proposal: https://nouns.build/dao/base/0x10a5676ec8ae3d6b1f36a6f1a1526136ba7938bf/vote/";
               Str proposalId]].

(** vote.js:168-181, the [catch] block *)
Definition main_catch (message : string) : M unit :=
  console_error [Str "❌ Error:"; Str message];;
  (* Parse common errors *)
  (if includes message "User already voted" then
     console_error [Str "   → You have already voted on this proposal"]
   else if includes message "Proposal not active" then
     console_error [Str "   → Proposal is not currently active"]
   else if includes message "insufficient funds" then
     console_error [Str "   → Insufficient ETH for gas"]
   else ret tt);;
  process_exit 1.

(** vote.js:45-182 *)
Definition main (e : Env) : M unit :=
  (* Parse arguments *)
  let proposalId := argv e !! 2%nat in
  let support := argv e !! 3%nat in
  let reason := or_else (argv e !! 4%nat) "" in
  if falsy proposalId || is_undefined support then
    console_error [Str "❌ Usage: node vote.js <proposal_id> <support> [reason]"];;
    console_error [Str "   Support: 0 = Against, 1 = For, 2 = Abstain"];;
    console_error [Str ("   Example: node vote.js 5 1 " +:+ dquote
                        +:+ "I support this proposal" +:+ dquote)];;
    process_exit 1
  else
  let proposalId := default "" proposalId in
  let support := default "" support in
  let supportNum := parseInt support in
  if negb (includes_012 supportNum) then
    console_error [Str "❌ Invalid support value. Use 0 (Against), 1 (For), or 2 (Abstain)"];;
    process_exit 1
  else
  (* Get private key *)
  let privateKey := PRIVATE_KEY e in
  if falsy privateKey then
    console_error [Str "❌ PRIVATE_KEY environment variable not set"];;
    console_error [Str "   Usage: PRIVATE_KEY=0x... node vote.js 5 1"];;
    process_exit 1
  else
  (* Setup *)
  let* address := await (Wallet e (default "" privateKey)) in
  console_log [Str ("🗳️  BASED DAO Vote" +:+ nl)];;
  console_log [Str "Voter:"; Str address];;
  console_log [Str "Proposal ID:"; Str proposalId];;
  console_log [Str "Vote:";
               from_option Str Undefined
                 (k ← key_of supportNum; SUPPORT !! k)];;
  (if negb (String.eqb reason "") then console_log [Str "Reason:"; Str reason]
   else ret tt);;
  console_log [];;
  try_catch (main_try e address proposalId supportNum reason) main_catch.

End Vote.

(** ** scripts/check-proposals.js *)

Module CheckProposals.

Import Governor.

Definition STATES : gmap Z string :=
  list_to_map
    [(0, "Pending"); (1, "Active"); (2, "Canceled"); (3, "Defeated");
     (4, "Succeeded"); (5, "Queued"); (6, "Expired"); (7, "Executed")].

(** The process and the chain client, as one run of the script sees
    them.  [provider_getBlockNumber k] is what the k-th call of
    [provider.getBlockNumber()] resolves to (k = 0, 1, ...): the block
    number moves while the script runs. *)
Record Env : Type := {
  argv : list string;                               (* process.argv *)
  contract_votingDelay : Result Z;
  contract_votingPeriod : Result Z;
  contract_proposalThreshold : Result Z;
  contract_proposalCount : Result Z;
  contract_proposals : Z -> Result Proposal;
  contract_state : Z -> Result Z;
  provider_getBlockNumber : nat -> Result Z
}.

(** The object pushed on the [proposals] array
    (check-proposals.js:81-92). *)
Record Entry : Type := {
  id : Z;
  state : string;
  stateNum : Z;
  forVotes : Z;
  againstVotes : Z;
  abstainVotes : Z;
  startBlock : Z;
  endBlock : Z;
  executed : bool;
  canceled : bool
}.

(** check-proposals.js:76 *)
Definition stateName (stateNum : Z) : string :=
  or_else (STATES !! stateNum) "Unknown".

(** check-proposals.js:69-96, the body of the loop over the indices:
    it takes and gives back the [proposals] array. *)
Definition fetch_one (e : Env) (showAll : bool) (i : Z)
    (proposals : list Entry) : M (list Entry) :=
  try_catch
    (let* (proposal, state) :=
       await (Promise_all2 (contract_proposals e i) (contract_state e i)) in
     let stateNum := Number state in
     let stateName := stateName stateNum in
     (* Skip non-active if not --all *)
     if negb showAll && negb (stateNum =? 1) then ret proposals
     else
       ret (proposals ++
            [{| id := i;
                state := stateName;
                stateNum := stateNum;
                forVotes := Governor.forVotes proposal;
                againstVotes := Governor.againstVotes proposal;
                abstainVotes := Governor.abstainVotes proposal;
                startBlock := Governor.startBlock proposal;
                endBlock := Governor.endBlock proposal;
                executed := Governor.executed proposal;
                canceled := Governor.canceled proposal |}]))
    (fun _ =>
       (* Proposal might not exist *)
       ret proposals).

(** [for (let i = first; ...; i++)], for the [n] indices that remain. *)
Fixpoint fetch_loop (e : Env) (showAll : bool) (i : Z) (n : nat)
    (proposals : list Entry) : M (list Entry) :=
  match n with
  | O => ret proposals
  | S n =>
    let* proposals := fetch_one e showAll i proposals in
    fetch_loop e showAll (i + 1) n proposals
  end.

(** check-proposals.js:115-117 *)
Definition blocksLeft (prop : Entry) (currentBlock : Z) : Z :=
  number_sub (Number (endBlock prop)) currentBlock.

(** check-proposals.js:116-117, [Math.floor(secondsLeft / 3600)] with
    [secondsLeft = blocksLeft * 2]; the product by 2 is exact on
    doubles. *)
Definition hoursLeft (blocksLeft : Z) : Z :=
  let secondsLeft := blocksLeft * 2 in
  floor_div secondsLeft 3600.

(** check-proposals.js:106-122, the body of the display loop; [k] counts
    the calls of [provider.getBlockNumber()] made so far. *)
Definition display_one (e : Env) (k : nat) (prop : Entry) : M unit :=
  console_log [Template [Str "Proposal #"; Num (id prop)]];;
  console_log [Template [Str "State: "; Str (state prop)]];;
  console_log [Template [Str "For: "; Ether (forVotes prop); Str " votes"]];;
  console_log [Template [Str "Against: "; Ether (againstVotes prop); Str " votes"]];;
  console_log [Template [Str "Abstain: "; Ether (abstainVotes prop); Str " votes"]];;
  (* Get current block *)
  let* currentBlock := await (provider_getBlockNumber e k) in
  (if stateNum prop =? 1 then (* Active *)
     let blocksLeft := blocksLeft prop currentBlock in
     let hoursLeft := hoursLeft blocksLeft in
     console_log
       [Template [Str "Time Left: ~"; Num hoursLeft; Str " hours (";
                  Num blocksLeft; Str " blocks)"]]
   else ret tt);;
  console_log
    [Template [Str "URL: https://nouns.build/dao/base/0x10a5676ec8ae3d6b1f36a6f1a1526136ba7938bf/vote/";
               Num (id prop)]];;
  console_log [Str ("---" +:+ nl)].

(** [for (const prop of proposals)] *)
Fixpoint display_loop (e : Env) (k : nat) (proposals : list Entry) : M unit :=
  match proposals with
  | [] => ret tt
  | prop :: rest => display_one e k prop;; display_loop e (S k) rest
  end.

(** [proposals.filter(p => p.stateNum === n).length] *)
Definition count_state (n : Z) (proposals : list Entry) : Z :=
  Z.of_nat (length (filter (fun p => stateNum p = n) proposals)).

(** check-proposals.js:42-134, the body of [try] *)
Definition main_try (e : Env) (showAll : bool) : M unit :=
  (* Get governance params *)
  let* votingDelay := await (catch_default (contract_votingDelay e) 0) in
  let* votingPeriod := await (catch_default (contract_votingPeriod e) 0) in
  let* proposalThreshold :=
    await (catch_default (contract_proposalThreshold e) 0) in
  (if 0 <? votingDelay then
     console_log [Str "📊 Governance Parameters:"];;
     console_log [Template [Str "Voting Delay: "; Quot (Number votingDelay) 86400;
                            Str " days"]];;
     console_log [Template [Str "Voting Period: "; Quot (Number votingPeriod) 86400;
                            Str " days"]];;
     console_log [Template [Str "Proposal Threshold: "; Num proposalThreshold;
                            Str (" votes" +:+ nl)]]
   else ret tt);;
  (* Get proposal count *)
  let* count := await (contract_proposalCount e) in
  console_log [Template [Str "Total Proposals: "; Num count; Str nl]];;
  if count =? 0 then
    console_log [Str "No proposals yet."]
  else
  (* Check proposals (start from 1, Nouns governor is 1-indexed) *)
  let* proposals :=
    (* from 2^53 on, [i++] leaves [i] as it is and [i <= Number(count)]
       stays true *)
    if 2 ^ 53 <=? Number count then diverge
    else fetch_loop e showAll 1 (Z.to_nat (Number count)) [] in
  if (length proposals =? 0)%nat then
    console_log
      [Str (if showAll then "No proposals found."
            else "No active proposals. Use --all to see all proposals.")]
  else
  (* Display proposals *)
  display_loop e 0 proposals;;
  (* Summary *)
  let active := count_state 1 proposals in
  let succeeded := count_state 4 proposals in
  let executed := count_state 7 proposals in
  console_log [Template [Str (nl +:+ "📈 Summary:")]];;
  console_log [Template [Str "Active: "; Num active]];;
  console_log [Template [Str "Succeeded: "; Num succeeded]];;
  console_log [Template [Str "Executed: "; Num executed]].

(** check-proposals.js:135-138, the [catch] block *)
Definition main_catch (message : string) : M unit :=
  console_error [Str "❌ Error:"; Str message];;
  process_exit 1.

(** check-proposals.js:34-139 *)
Definition main (e : Env) : M unit :=
  let showAll := bool_decide ("--all" ∈ argv e) in
  console_log [Str ("🏛️  BASED DAO Proposals" +:+ nl)];;
  try_catch (main_try e showAll) main_catch.

End CheckProposals.

(** ** The auction evaluator

    [scripts/check-auction.js] and [scripts/place-bid.js] are named by
    SKILL.md and are not part of the sources at hand. *)

Module AuctionEvaluator.

(** Modelled from the spec: the auction snapshot of section 3; the script
    that reads it is missing. *)
Record AuctionSnapshot : Type := {
  tokenId : Z;
  currentBid : Z;
  currentBidder : string;
  startTime : Z;
  endTime : Z;
  reservePrice : Z;
  incrementPct : Z;
  extensionWindow : Z;
  extensionDuration : Z
}.

(** Modelled from the spec: the phases of section 3; the evaluator's code
    is missing. *)
Inductive AuctionPhase : Type := NotStarted | Active | EndedUnsettled.

(** Modelled from the spec: the output of the evaluator, section 4.1;
    the evaluator's code is missing. *)
Record Evaluation : Type := {
  phase : AuctionPhase;
  minNextBid : Z;
  secondsRemaining : Z;
  willExtend : bool
}.

(** Modelled from the spec: [minNextBid] of section 4.1, the reserve
    price while no bid is placed, otherwise the current bid plus the
    increment, in integer arithmetic and rounded up; the evaluator's code
    is missing. *)
Definition min_next_bid (s : AuctionSnapshot) : Z :=
  if currentBid s =? 0 then reservePrice s
  else currentBid s + (currentBid s * incrementPct s + 99) / 100.

(** Modelled from the spec: the phase of section 3; the evaluator's code
    is missing. *)
Definition phase_at (s : AuctionSnapshot) (now : Z) : AuctionPhase :=
  if now <? startTime s then NotStarted
  else if endTime s <? now then EndedUnsettled
  else Active.

(** Modelled from the spec: the evaluator of section 4.1; [None] is the
    failure [InvalidSnapshot]; the evaluator's code is missing. *)
Definition evaluate (s : AuctionSnapshot) (now : Z) : option Evaluation :=
  if (endTime s <? startTime s) || (currentBid s <? 0) || (reservePrice s <? 0)
  then None
  else
    let remaining := Z.max 0 (endTime s - now) in
    Some {| phase := phase_at s now;
            minNextBid := min_next_bid s;
            secondsRemaining := remaining;
            willExtend :=
              match phase_at s now with
              | Active => remaining <=? extensionWindow s
              | _ => false
              end |}.

End AuctionEvaluator.

(** ** What is observed of a run *)

(** The transactions sent, in order. *)
Definition sent_call (ev : Event) : option Call :=
  match ev with
  | Send c => Some c
  | _ => None
  end.

Definition sent (t : list Event) : list Call := omap sent_call t.

(** The lines written with [console.error], in order. *)
Definition error_line (ev : Event) : option (list Piece) :=
  match ev with
  | Error a => Some a
  | _ => None
  end.

Definition errors (t : list Event) : list (list Piece) := omap error_line t.

(** The number printed by a line [`${label}${n}`]. *)
Definition labelled (label : string) (ev : Event) : option Z :=
  match ev with
  | Log [Template [Str s; Num n]] => if String.eqb s label then Some n else None
  | _ => None
  end.

(** The ids of the proposals displayed by check-proposals.js. *)
Definition displayed (t : list Event) : list Z := omap (labelled "Proposal #") t.

(** The pairs (hoursLeft, blocksLeft) printed by the lines
    [`Time Left: ~${hoursLeft} hours (${blocksLeft} blocks)`] and
    [`\nVoting ends in: ~${hoursLeft} hours (${blocksLeft} blocks)`], the
    only lines of this shape. *)
Definition time_left_line (ev : Event) : option (Z * Z) :=
  match ev with
  | Log [Template [Str _; Num h; Str _; Num b; Str _]] => Some (h, b)
  | _ => None
  end.

Definition time_left (t : list Event) : list (Z * Z) := omap time_left_line t.

(** The failures of the vote command, by the line that reports them. *)
Definition InvalidSupportValue : Event :=
  Error [Str "❌ Invalid support value. Use 0 (Against), 1 (For), or 2 (Abstain)"].

Definition NoVotingPower : Event :=
  Error [Str "❌ You have no BASED DAO NFTs. Cannot vote."].

Definition ProposalNotActive (stateName : string) : Event :=
  Error [Template [Str (nl +:+ "❌ Cannot vote. Proposal is "); Str stateName;
                   Str ", not Active."]].

Definition AlreadyVoted : Event :=
  Error [Str (nl +:+ "❌ You have already voted on this proposal.")].

(** What one iteration of the loop of check-proposals.js pushes on the
    array, and the indices the loop visits. *)
Definition fetched (e : CheckProposals.Env) (showAll : bool) (i : Z) :
    list CheckProposals.Entry :=
  match CheckProposals.fetch_one e showAll i [] with
  | (_, Return l) => l
  | _ => []
  end.

Definition indices (first : Z) (n : nat) : list Z :=
  map (fun k => first + Z.of_nat k) (seq 0 n).

(** What the classifier gives for the proposal of index [i]: the label
    of each entry the iteration pushes, with the blocks left that the
    display prints for it when it is the [k]-th entry displayed. *)
Definition classification (e : CheckProposals.Env) (showAll : bool) (i : Z)
    (k : nat) : list (string * list Z) :=
  map (fun x => (CheckProposals.state x,
                 map snd (time_left (CheckProposals.display_one e k x).1)))
      (fetched e showAll i).

(** A run that ends on the given line with exit code 1, no transaction
    sent. *)
Definition rejected_with (line : Event) (r : list Event * option Z) : Prop :=
  r.2 = Some 1 /\ last r.1 = Some line /\ sent r.1 = [].

(** ** Sample runs *)

Module Samples.

Definition proposal_100 : Governor.Proposal :=
  {| Governor.proposer := 1; Governor.eta := 0;
     Governor.startBlock := 10; Governor.endBlock := 100;
     Governor.forVotes := 3; Governor.againstVotes := 1;
     Governor.abstainVotes := 0;
     Governor.canceled := false; Governor.executed := false |}.

Definition receipt_96 : Governor.Receipt :=
  {| Governor.blockNumber := 96; Governor.gasUsed := 90000;
     Governor.gasPrice := 1000000 |}.

Definition key_1 : string :=
  "0x0000000000000000000000000000000000000000000000000000000000000001".
Definition address_1 : string := "0x7E5F4552091A69125d5DfCb7b8C2659029395Bdf".
Definition address_2 : string := "0x2B5AD5c4795c026514f8317c7a215E218DcCD6cF".

(** [node vote.js 5 <support>] by the holder of [address_1], on a chain
    that answers every call. *)
Definition voter (support : string) (balance : Z) (delegate : string)
    (state : Z) (hasVoted : bool) (currentBlock : Z) : Vote.Env :=
  {| Vote.argv := ["node"; "vote.js"; "5"; support];
     Vote.PRIVATE_KEY := Some key_1;
     Vote.Wallet := fun _ => Ok address_1;
     Vote.tokenContract_balanceOf := fun _ => Ok balance;
     Vote.tokenContract_delegates := fun _ => Ok delegate;
     Vote.governorContract_state := fun _ => Ok state;
     Vote.governorContract_proposals := fun _ => Ok proposal_100;
     Vote.governorContract_hasVoted := fun _ _ => Ok hasVoted;
     Vote.provider_getBlockNumber := Ok currentBlock;
     Vote.governorContract_send :=
       fun _ => Ok {| Governor.hash := "0xf00d";
                      Governor.wait := Ok receipt_96 |} |}.

(** [node check-proposals.js --all] on a governor with three proposals:
    the first is Active, the fetch of the second fails, the state of the
    third has the code 8; the chain is at block 105. *)
Definition governor_3 : CheckProposals.Env :=
  {| CheckProposals.argv := ["node"; "check-proposals.js"; "--all"];
     CheckProposals.contract_votingDelay := Ok 86400;
     CheckProposals.contract_votingPeriod := Ok 345600;
     CheckProposals.contract_proposalThreshold := Ok 4;
     CheckProposals.contract_proposalCount := Ok 3;
     CheckProposals.contract_proposals :=
       fun i => if i =? 2 then Throw "execution reverted" else Ok proposal_100;
     CheckProposals.contract_state :=
       fun i => if i =? 1 then Ok 1 else Ok 8;
     CheckProposals.provider_getBlockNumber := fun _ => Ok 105 |}.

(** An entry of the [proposals] array for [proposal_100], Active. *)
Definition entry_100 : CheckProposals.Entry :=
  {| CheckProposals.id := 1;
     CheckProposals.state := "Active";
     CheckProposals.stateNum := 1;
     CheckProposals.forVotes := 3;
     CheckProposals.againstVotes := 1;
     CheckProposals.abstainVotes := 0;
     CheckProposals.startBlock := 10;
     CheckProposals.endBlock := 100;
     CheckProposals.executed := false;
     CheckProposals.canceled := false |}.

End Samples.

(** ** More of what is observed of a run *)

(** The proposal and the support code a transaction carries. *)
Definition call_proposal (c : Call) : string :=
  match c with
  | castVote proposalId _ _ => proposalId
  | castVoteWithReason proposalId _ _ _ => proposalId
  end.

Definition call_support (c : Call) : Z :=
  match c with
  | castVote _ support _ => support
  | castVoteWithReason _ support _ _ => support
  end.

(** The lines of [console.log] that open a warning of vote.js. *)
Definition warning_line (ev : Event) : option Event :=
  match ev with
  | Log (Str s :: _) =>
    if String.prefix "⚠️  Warning:" s then Some ev else None
  | _ => None
  end.

Definition warnings (t : list Event) : list Event := omap warning_line t.

(** ** More sample runs *)

Module MoreSamples.

(** As [Samples.voter "1" 2 Samples.address_1 1 false 90], with the
    answers of the wallet and of the transaction left open. *)
Definition voter_with (wallet : Result string)
    (send : Result Governor.TransactionResponse) : Vote.Env :=
  {| Vote.argv := ["node"; "vote.js"; "5"; "1"];
     Vote.PRIVATE_KEY := Some Samples.key_1;
     Vote.Wallet := fun _ => wallet;
     Vote.tokenContract_balanceOf := fun _ => Ok 2;
     Vote.tokenContract_delegates := fun _ => Ok Samples.address_1;
     Vote.governorContract_state := fun _ => Ok 1;
     Vote.governorContract_proposals := fun _ => Ok Samples.proposal_100;
     Vote.governorContract_hasVoted := fun _ _ => Ok false;
     Vote.provider_getBlockNumber := Ok 90;
     Vote.governorContract_send := fun _ => send |}.

(** As [Samples.governor_3], with the command line, the voting delay, the
    proposal count and the block numbers left open. *)
Definition governor_with (argv : list string) (votingDelay count : Result Z)
    (blocks : nat -> Result Z) : CheckProposals.Env :=
  {| CheckProposals.argv := argv;
     CheckProposals.contract_votingDelay := votingDelay;
     CheckProposals.contract_votingPeriod := Ok 345600;
     CheckProposals.contract_proposalThreshold := Ok 4;
     CheckProposals.contract_proposalCount := count;
     CheckProposals.contract_proposals :=
       fun i => if i =? 2 then Throw "execution reverted"
                else Ok Samples.proposal_100;
     CheckProposals.contract_state :=
       fun i => if i =? 1 then Ok 1 else Ok 8;
     CheckProposals.provider_getBlockNumber := blocks |}.

(** A proposal whose voting ends at block 10000. *)
Definition proposal_10000 : Governor.Proposal :=
  {| Governor.proposer := 1; Governor.eta := 0;
     Governor.startBlock := 10; Governor.endBlock := 10000;
     Governor.forVotes := 3; Governor.againstVotes := 1;
     Governor.abstainVotes := 0;
     Governor.canceled := false; Governor.executed := false |}.

(** [node check-proposals.js --all] on a governor whose [count]
    proposals all have the snapshot [proposal_10000] and the phase code
    [state]; the block numbers are left open. *)
Definition governor_same (count state : Z) (blocks : nat -> Result Z) :
    CheckProposals.Env :=
  {| CheckProposals.argv := ["node"; "check-proposals.js"; "--all"];
     CheckProposals.contract_votingDelay := Ok 86400;
     CheckProposals.contract_votingPeriod := Ok 345600;
     CheckProposals.contract_proposalThreshold := Ok 4;
     CheckProposals.contract_proposalCount := Ok count;
     CheckProposals.contract_proposals := fun _ => Ok proposal_10000;
     CheckProposals.contract_state := fun _ => Ok state;
     CheckProposals.provider_getBlockNumber := blocks |}.

End MoreSamples.

(** ** The steps of [parseInt], named *)

(** Step 3: the sign. *)
Definition strip_sign (s : string) : bool * string :=
  match s with
  | String "-" r => (true, r)
  | String "+" r => (false, r)
  | _ => (false, s)
  end.

(** Step 5: the prefix of a hexadecimal number. *)
Definition strip_prefix (s : string) : N * string :=
  match s with
  | String "0" (String "x" r) => (16%N, r)
  | String "0" (String "X" r) => (16%N, r)
  | _ => (10%N, s)
  end.

(** A byte that opens no white space. *)
Definition plain (a : ascii) : Prop :=
  ws1 a = false /\ (forall b, ws2 a b = false) /\ (forall b c, ws3 a b c = false).

(** ** One environment, another answer *)

(** The same run of vote.js with another support argument. *)
Definition with_support (e : Vote.Env) (support : string) : Vote.Env :=
  {| Vote.argv := <[3%nat := support]> (Vote.argv e);
     Vote.PRIVATE_KEY := Vote.PRIVATE_KEY e;
     Vote.Wallet := Vote.Wallet e;
     Vote.tokenContract_balanceOf := Vote.tokenContract_balanceOf e;
     Vote.tokenContract_delegates := Vote.tokenContract_delegates e;
     Vote.governorContract_state := Vote.governorContract_state e;
     Vote.governorContract_proposals := Vote.governorContract_proposals e;
     Vote.governorContract_hasVoted := Vote.governorContract_hasVoted e;
     Vote.provider_getBlockNumber := Vote.provider_getBlockNumber e;
     Vote.governorContract_send := Vote.governorContract_send e |}.

(** The same run of check-proposals.js with other answers to the reads
    of the governance parameters. *)
Definition with_params (e : CheckProposals.Env)
    (votingDelay votingPeriod proposalThreshold : Result Z) :
    CheckProposals.Env :=
  {| CheckProposals.argv := CheckProposals.argv e;
     CheckProposals.contract_votingDelay := votingDelay;
     CheckProposals.contract_votingPeriod := votingPeriod;
     CheckProposals.contract_proposalThreshold := proposalThreshold;
     CheckProposals.contract_proposalCount := CheckProposals.contract_proposalCount e;
     CheckProposals.contract_proposals := CheckProposals.contract_proposals e;
     CheckProposals.contract_state := CheckProposals.contract_state e;
     CheckProposals.provider_getBlockNumber :=
       CheckProposals.provider_getBlockNumber e |}.

(** What a failing read of a governance parameter counts as. *)
Definition or_zero (p : Result Z) : Z :=
  match p with
  | Ok a => a
  | Throw _ => 0
  end.

(** Whether check-proposals.js lists the proposal of index [i]: its
    fetch succeeds and, without --all, its state is 1. *)
Definition listed (e : CheckProposals.Env) (showAll : bool) (i : Z) : bool :=
  match CheckProposals.contract_proposals e i, CheckProposals.contract_state e i with
  | Ok _, Ok code => showAll || (code =? 1)
  | _, _ => false
  end.

(** The time left that check-proposals.js shows for the proposal
    displayed at position [k], with the block number the [k]-th read
    gives: nothing unless the state is 1. *)
Definition time_left_at (currentBlock : nat -> Z) (k : nat)
    (prop : CheckProposals.Entry) : list (Z * Z) :=
  if CheckProposals.stateNum prop =? 1 then
    [(CheckProposals.hoursLeft
        (CheckProposals.blocksLeft prop (currentBlock k)),
      CheckProposals.blocksLeft prop (currentBlock k))]
  else [].

(** * Properties *)

(** ** [parseInt] on some arguments *)

Example parseInt_1 : parseInt "1" = Int false 1.
Proof. reflexivity. Qed.
Example parseInt_1_9 : parseInt "1.9" = Int false 1.
Proof. reflexivity. Qed.
Example parseInt_2x : parseInt "2x" = Int false 2.
Proof. reflexivity. Qed.
Example parseInt_hex : parseInt " 0x2" = Int false 2.
Proof. reflexivity. Qed.
Example parseInt_neg0 : parseInt "-0" = Int true 0.
Proof. reflexivity. Qed.
Example parseInt_abc : parseInt "abc" = NaN.
Proof. reflexivity. Qed.
Example parseInt_empty : parseInt "" = NaN.
Proof. reflexivity. Qed.
Example parseInt_10 : parseInt "10" = Int false 10.
Proof. reflexivity. Qed.

(** ** Numbers *)

Lemma Number_safe (z : Z) : Z.abs z < 2 ^ 53 -> Number z = z.
Proof.
  intros H. unfold Number.
  destruct (Z.ltb_spec (Z.abs z) (2 ^ 53)); [reflexivity | lia].
Qed.

(** Rounding never brings a large integer into the 53-bit range. *)
Lemma Number_large (z : Z) : 2 ^ 53 <= Z.abs z -> 2 ^ 53 <= Z.abs (Number z).
Proof.
  intros H. unfold Number.
  destruct (Z.ltb_spec (Z.abs z) (2 ^ 53)) as [Hlt | _]; [lia |].
  set (m := Z.abs z) in *.
  assert (Hm : 0 < m) by lia.
  assert (Hlog : 53 <= Z.log2 m) by (apply Z.log2_le_pow2; lia).
  destruct (Z.log2_spec m Hm) as [Hlo _].
  set (e := Z.log2 m - 52) in *.
  assert (He : 1 <= e) by lia.
  assert (Hpow : 2 ^ Z.log2 m = 2 ^ 52 * 2 ^ e).
  { rewrite <- Z.pow_add_r by lia. f_equal. lia. }
  assert (H2e : 2 <= 2 ^ e).
  { change 2 with (2 ^ 1) at 1. apply Z.pow_le_mono_r; lia. }
  assert (Hq : 2 ^ 52 <= m / 2 ^ e).
  { apply Z.div_le_lower_bound; lia. }
  set (q := m / 2 ^ e) in *.
  set (q' := if (_ || _)%bool then q + 1 else q).
  assert (Hq' : q <= q') by (subst q'; destruct (_ || _)%bool; lia).
  assert (Hbig : 2 ^ 53 <= q' * 2 ^ e).
  { change (2 ^ 53) with (2 ^ 52 * 2). nia. }
  rewrite Z.abs_mul.
  assert (Hs : Z.abs (Z.sgn z) = 1) by lia.
  rewrite Hs. lia.
Qed.

Lemma Number_small_inv (z : Z) : Z.abs (Number z) < 2 ^ 53 -> Number z = z.
Proof.
  intros H. apply Number_safe.
  destruct (Z.lt_ge_cases (Z.abs z) (2 ^ 53)) as [|Hge]; [assumption |].
  apply Number_large in Hge. lia.
Qed.

Lemma Number_eqb_1 (z : Z) : (Number z =? 1) = (z =? 1).
Proof.
  destruct (Z.eqb_spec (Number z) 1) as [H1 | H1].
  - rewrite <- (Number_small_inv z), H1 by (rewrite H1; reflexivity).
    reflexivity.
  - destruct (Z.eqb_spec z 1) as [-> | ]; [| reflexivity].
    exfalso. apply H1. reflexivity.
Qed.

(** [Math.floor] of a quotient below 2^53 is the floor of the exact one. *)
Lemma floor_div_exact (a : Z) :
  Z.abs a < 2 ^ 53 -> floor_div a 3600 = a / 3600.
Proof.
  intros Ha. unfold floor_div.
  change (2 ^ 53) with 9007199254740992 in Ha.
  destruct (Z.ltb_spec (Z.abs a) 3600) as [Hsmall | Hbig].
  - destruct (Z.ltb_spec a 0) as [Hneg | Hpos].
    + apply Z.div_unique with (r := a + 3600); lia.
    + symmetry. apply Z.div_small. lia.
  - assert (Hsgn : a = Z.sgn a * Z.abs a) by lia.
    assert (Hs1 : Z.sgn a = 1 \/ Z.sgn a = -1) by lia.
    remember (Z.abs a) as m eqn:Heqm. remember (Z.sgn a) as sg eqn:Heqsg.
    clear Heqm Heqsg. subst a.
    assert (HQ : 1 <= m / 3600 < 2 ^ 42).
    { split.
      - apply Z.div_le_lower_bound; lia.
      - apply Z.div_lt_upper_bound; [lia |].
        change (2 ^ 42) with 4398046511104. lia. }
    assert (HE : 0 <= Z.log2 (m / 3600) < 42).
    { split; [apply Z.log2_nonneg |].
      apply Z.log2_lt_pow2; lia. }
    remember (52 - Z.log2 (m / 3600)) as k eqn:Heqk.
    assert (Hk : 11 <= k) by lia. clear Heqk HE.
    rewrite (Z.max_l k 0), (Z.max_r (- k) 0) by lia.
    destruct (Z.leb_spec 0 k) as [_ |]; [| lia].
    assert (HP : 2048 <= 2 ^ k).
    { change 2048 with (2 ^ 11). apply Z.pow_le_mono_r; lia. }
    remember (2 ^ k) as P eqn:HeqP. clear HeqP Hk k.
    change (2 ^ 0) with 1. rewrite Z.mul_1_r.
    pose proof (Z.div_mod m 3600 ltac:(lia)) as Hm.
    pose proof (Z.mod_pos_bound m 3600 ltac:(lia)) as HR.
    remember (m / 3600) as Q0 eqn:HeqQ0. remember (m mod 3600) as R eqn:HeqR.
    pose proof (Z.div_mod (m * P) 3600 ltac:(lia)) as Hn.
    pose proof (Z.mod_pos_bound (m * P) 3600 ltac:(lia)) as Hr.
    remember (m * P / 3600) as q eqn:Heqq.
    remember ((m * P) mod 3600) as r eqn:Heqr.
    assert (Hs : Q0 * P <= q <= Q0 * P + P - 1) by nia.
    remember (if (3600 <? 2 * r) || ((2 * r =? 3600) && Z.odd q)
              then q + 1 else q) as q' eqn:Heqq'.
    assert (Hq' : Q0 * P <= q' <= Q0 * P + P - 1
                  /\ (0 < R -> Q0 * P < q')
                  /\ (R = 0 -> q' = Q0 * P)).
    { subst q'.
      assert (Hzero : R = 0 -> q = Q0 * P /\ r = 0) by (intros; nia).
      assert (Htop : q = Q0 * P + P - 1 -> 2 * r < 3600) by (intros; nia).
      assert (Hbot : q = Q0 * P -> 0 < R -> 3600 < 2 * r) by (intros; nia).
      destruct (Z.ltb_spec 3600 (2 * r)) as [Hup | Hdown]; cbn [orb].
      - lia.
      - destruct ((2 * r =? 3600) && Z.odd q) eqn:Htie.
        + apply andb_true_iff in Htie as [Htie _]. apply Z.eqb_eq in Htie. lia.
        + lia. }
    clear Heqq' Heqq Heqr Hn Hr Hs q r.
    destruct Hq' as (Hb & Hlow & Hzero).
    destruct Hs1 as [-> | ->].
    + rewrite !Z.mul_1_l. rewrite <- HeqQ0.
      symmetry. apply Z.div_unique with (r := q' - Q0 * P); lia.
    + destruct (Z.eq_dec R 0) as [HR0 | HRpos].
      * transitivity (- Q0).
        -- rewrite (Hzero HR0).
           symmetry. apply Z.div_unique with (r := 0); lia.
        -- apply Z.div_unique with (r := 0); lia.
      * transitivity (- (Q0 + 1)).
        -- symmetry. apply Z.div_unique with (r := (Q0 + 1) * P - q'); nia.
        -- apply Z.div_unique with (r := 3600 - R); lia.
Qed.

(** Below 2^52 blocks, the hours are the floor of the exact quotient. *)
Lemma hoursLeft_exact (blocksLeft : Z) :
  Z.abs blocksLeft < 2 ^ 52 ->
  Vote.hoursLeft blocksLeft = blocksLeft * 2 / 3600
  /\ CheckProposals.hoursLeft blocksLeft = blocksLeft * 2 / 3600.
Proof.
  intros H. unfold Vote.hoursLeft, CheckProposals.hoursLeft. cbv zeta.
  rewrite floor_div_exact; [split; reflexivity |].
  change (2 ^ 52) with 4503599627370496 in H.
  change (2 ^ 53) with 9007199254740992. lia.
Qed.

(** Above, the quotient of the doubles is rounded before the floor is
    taken. *)
Example hoursLeft_large :
  Number 2305843009213696000 = 2305843009213696000
  /\ CheckProposals.hoursLeft 2305843009213696000 = 1281023894007609
  /\ 2305843009213696000 * 2 / 3600 = 1281023894007608.
Proof. split_and!; reflexivity. Qed.

(** ** The table of phases *)

Lemma Vote_STATES_outside (n : Z) : ~ (0 <= n <= 7) -> Vote.STATES !! n = None.
Proof.
  intros H. unfold Vote.STATES. cbn [list_to_map foldr uncurry fst snd].
  rewrite !lookup_insert_ne by lia. apply lookup_empty.
Qed.

Lemma CheckProposals_STATES_outside (n : Z) :
  ~ (0 <= n <= 7) -> CheckProposals.STATES !! n = None.
Proof.
  intros H. unfold CheckProposals.STATES. cbn [list_to_map foldr uncurry fst snd].
  rewrite !lookup_insert_ne by lia. apply lookup_empty.
Qed.

Lemma stateName_agree (n : Z) : Vote.stateName n = CheckProposals.stateName n.
Proof. reflexivity. Qed.

(** ** The monad *)

Lemma bind_ret_l {A B} (a : A) (k : A -> M B) : bind (ret a) k = k a.
Proof. unfold bind, ret. destruct (k a). reflexivity. Qed.

(** ** check-proposals.js: the loop over the indices *)

Lemma indices_S (i : Z) (n : nat) : indices i (S n) = i :: indices (i + 1) n.
Proof.
  unfold indices. cbn [seq map]. rewrite <- seq_shift, map_map.
  rewrite Z.add_0_r. f_equal. apply map_ext. intros k. lia.
Qed.

Lemma elem_of_indices (i first : Z) (n : nat) :
  i ∈ indices first n <-> first <= i < first + Z.of_nat n.
Proof.
  unfold indices. rewrite list_elem_of_fmap. split.
  - intros (k & -> & Hk). apply elem_of_seq in Hk. lia.
  - intros H. exists (Z.to_nat (i - first)). split; [lia |].
    apply elem_of_seq. lia.
Qed.

Section Listing.

Import CheckProposals.

Variable e : Env.
Variable showAll : bool.

Lemma fetch_one_fetched (i : Z) (acc : list Entry) :
  fetch_one e showAll i acc = ret (acc ++ fetched e showAll i).
Proof.
  unfold fetched, fetch_one.
  destruct (contract_proposals e i) as [p | m], (contract_state e i) as [c | m'];
    cbn; try (rewrite app_nil_r; reflexivity).
  destruct (negb showAll && negb (Number c =? 1)); cbn;
    [rewrite app_nil_r |]; reflexivity.
Qed.

Lemma fetched_throw (i : Z) (m : string) :
  contract_proposals e i = Throw m \/ contract_state e i = Throw m ->
  fetched e showAll i = [].
Proof.
  unfold fetched, fetch_one. intros [H | H]; rewrite H.
  - reflexivity.
  - destruct (contract_proposals e i); reflexivity.
Qed.

Lemma fetched_ok (i : Z) (p : Governor.Proposal) (code : Z) :
  contract_proposals e i = Ok p -> contract_state e i = Ok code ->
  fetched e showAll i =
    if negb showAll && negb (code =? 1) then []
    else [{| id := i;
             state := stateName (Number code);
             stateNum := Number code;
             forVotes := Governor.forVotes p;
             againstVotes := Governor.againstVotes p;
             abstainVotes := Governor.abstainVotes p;
             startBlock := Governor.startBlock p;
             endBlock := Governor.endBlock p;
             executed := Governor.executed p;
             canceled := Governor.canceled p |}].
Proof.
  intros Hp Hs. unfold fetched, fetch_one. rewrite Hp, Hs. cbn.
  rewrite Number_eqb_1.
  destruct (negb showAll && negb (code =? 1)); reflexivity.
Qed.

Lemma fetched_id (i : Z) (x : Entry) : x ∈ fetched e showAll i -> id x = i.
Proof.
  unfold fetched, fetch_one.
  destruct (contract_proposals e i) as [p | m], (contract_state e i) as [c | m'];
    cbn; try (intros H; inversion H; fail).
  destruct (negb showAll && negb (Number c =? 1)); cbn; intros H.
  - inversion H.
  - apply list_elem_of_singleton in H. subst x. reflexivity.
Qed.

Lemma fetch_loop_fetched (n : nat) (i : Z) (acc : list Entry) :
  fetch_loop e showAll i n acc
  = ret (acc ++ concat (map (fetched e showAll) (indices i n))).
Proof.
  revert i acc. induction n as [| n IH]; intros i acc.
  - cbn. rewrite app_nil_r. reflexivity.
  - cbn [fetch_loop]. rewrite fetch_one_fetched, bind_ret_l, IH.
    rewrite indices_S. cbn [map concat]. rewrite <- app_assoc. reflexivity.
Qed.

End Listing.

(** ** Observing a sequence *)

Lemma bind_returns {A B} (m : M A) (k : A -> M B) (a : A) :
  m.2 = Return a -> bind m k = (m.1 ++ (k a).1, (k a).2).
Proof. destruct m as [t o]. cbn. intros ->. destruct (k a). reflexivity. Qed.

(** ** check-proposals.js: the display loop *)

Section Display.

Import CheckProposals.

Variable e : Env.
Hypothesis blocks : forall k, exists cur, provider_getBlockNumber e k = Ok cur.

Lemma display_one_ok (k : nat) (prop : Entry) (cur : Z) :
  provider_getBlockNumber e k = Ok cur ->
  let r := display_one e k prop in
  r.2 = Return tt
  /\ errors r.1 = []
  /\ displayed r.1 = [id prop]
  /\ time_left r.1 =
       (if stateNum prop =? 1
        then [(hoursLeft (blocksLeft prop cur), blocksLeft prop cur)] else [])
  /\ omap (labelled "Active: ") r.1 = []
  /\ omap (labelled "Succeeded: ") r.1 = []
  /\ omap (labelled "Executed: ") r.1 = [].
Proof.
  intros H. unfold display_one. rewrite H.
  destruct (stateNum prop =? 1); cbn; repeat split; reflexivity.
Qed.

Lemma display_loop_ok (proposals : list Entry) (k : nat) :
  let r := display_loop e k proposals in
  r.2 = Return tt
  /\ errors r.1 = []
  /\ displayed r.1 = map id proposals
  /\ omap (labelled "Active: ") r.1 = []
  /\ omap (labelled "Succeeded: ") r.1 = []
  /\ omap (labelled "Executed: ") r.1 = [].
Proof.
  revert k. induction proposals as [| prop rest IH]; intros k.
  - cbn. repeat split; reflexivity.
  - destruct (blocks k) as [cur Hcur].
    destruct (display_one_ok k prop cur Hcur) as (H2 & He & Hd & _ & Ha & Hs & Hx).
    destruct (IH (S k)) as (I2 & Ie & Id & Ia & Is & Ix).
    cbn [display_loop]. cbv zeta.
    rewrite (bind_returns _ _ tt H2). cbn [fst snd].
    unfold errors, displayed in *. rewrite !omap_app.
    rewrite He, Hd, Ha, Hs, Hx, Ie, Id, Ia, Is, Ix.
    repeat split; try reflexivity. assumption.
Qed.

End Display.

(** ** check-proposals.js: the whole command *)

Section ListingCommand.

Import CheckProposals.

Lemma await_catch_default {A B} (p : Result A) (d : A) (k : A -> M B) :
  bind (await (catch_default p d)) k
  = k (match p with Ok a => a | Throw _ => d end).
Proof. destruct p; cbn; apply bind_ret_l. Qed.

Lemma main_listing (e : Env) (count : Z) (proposals : list Entry) :
  contract_proposalCount e = Ok count -> 0 < count < 2 ^ 53 ->
  fetch_loop e (bool_decide ("--all" ∈ argv e)) 1 (Z.to_nat (Number count)) []
    = ret proposals ->
  (forall k, exists cur, provider_getBlockNumber e k = Ok cur) ->
  let r := run (main e) in
  r.2 = Some 0
  /\ errors r.1 = []
  /\ displayed r.1 = map id proposals
  /\ (proposals <> [] ->
      omap (labelled "Active: ") r.1 = [count_state 1 proposals]
      /\ omap (labelled "Succeeded: ") r.1 = [count_state 4 proposals]
      /\ omap (labelled "Executed: ") r.1 = [count_state 7 proposals]).
Proof.
  intros Hcount Hrange Hloop Hblocks.
  destruct (display_loop_ok e Hblocks proposals 0%nat)
    as (D2 & De & Dd & Da & Ds & Dx).
  unfold main, main_try. rewrite !await_catch_default, Hcount.
  set (votingDelay := match contract_votingDelay e with Ok a => a | _ => 0 end).
  destruct (0 <? votingDelay);
    cbn -[fetch_loop display_loop Z.pow Z.eqb Z.leb Number].
  all: rewrite Number_safe in * by lia.
  all: destruct (Z.eqb_spec count 0) as [| _]; [lia |].
  all: destruct (Z.leb_spec (2 ^ 53) count) as [| _]; [lia |].
  all: rewrite Hloop.
  all: cbn -[display_loop].
  all: destruct proposals as [| prop rest].
  all: cbn -[display_loop].
  all: try (split_and!; try reflexivity; intros Hne; exfalso; apply Hne;
            reflexivity).
  all: rewrite (bind_returns _ _ tt D2); cbn -[display_loop].
  all: unfold errors, displayed in *.
  all: rewrite ?app_nil_r, ?omap_app, ?De, ?Dd, ?Da, ?Ds, ?Dx.
  all: cbn -[count_state]; rewrite ?app_nil_r.
  all: split_and?; try reflexivity; intros; split_and?; reflexivity.
Qed.

End ListingCommand.

(** ** vote.js *)

Ltac await_ok H :=
  rewrite H; cbn [await Promise_all2]; rewrite bind_ret_l; cbv beta.

Ltac run_checks :=
  cbn -[Z.eqb Number String.eqb toLowerCase Vote.stateName Vote.blocksLeft
        Vote.hoursLeft Vote.vote_call append includes].

Ltac split_includes :=
  repeat
    match goal with
    | |- context [if includes ?m ?s then _ else _] => destruct (includes m s)
    end.

Section VoteCommand.

Import Vote.

Variable e : Env.
Variables proposalId support : string.
Hypothesis Hid : argv e !! 2%nat = Some proposalId.
Hypothesis Hne : proposalId <> "".
Hypothesis Hsup : argv e !! 3%nat = Some support.

Let reason : string := or_else (argv e !! 4%nat) "".
Let supportNum : number := parseInt support.

Lemma main_with_args :
  main e =
  if negb (includes_012 supportNum) then
    console_error [Str "❌ Invalid support value. Use 0 (Against), 1 (For), or 2 (Abstain)"];;
    process_exit 1
  else
  let privateKey := PRIVATE_KEY e in
  if falsy privateKey then
    console_error [Str "❌ PRIVATE_KEY environment variable not set"];;
    console_error [Str "   Usage: PRIVATE_KEY=0x... node vote.js 5 1"];;
    process_exit 1
  else
  let* address := await (Wallet e (default "" privateKey)) in
  console_log [Str ("🗳️  BASED DAO Vote" +:+ nl)];;
  console_log [Str "Voter:"; Str address];;
  console_log [Str "Proposal ID:"; Str proposalId];;
  console_log [Str "Vote:";
               from_option Str Undefined
                 (k ← key_of supportNum; SUPPORT !! k)];;
  (if negb (String.eqb reason "") then console_log [Str "Reason:"; Str reason]
   else ret tt);;
  console_log [];;
  try_catch (main_try e address proposalId supportNum reason) main_catch.
Proof.
  unfold main. rewrite Hid, Hsup.
  apply String.eqb_neq in Hne. cbn [falsy is_undefined default]. rewrite Hne.
  reflexivity.
Qed.

Lemma rejected_invalid_support :
  includes_012 supportNum = false ->
  rejected_with InvalidSupportValue (run (main e)).
Proof.
  intros H. rewrite main_with_args, H. cbn. split_and!; reflexivity.
Qed.

Lemma rejected_no_key :
  includes_012 supportNum = true -> falsy (PRIVATE_KEY e) = true ->
  run (main e) =
    ([Error [Str "❌ PRIVATE_KEY environment variable not set"];
      Error [Str "   Usage: PRIVATE_KEY=0x... node vote.js 5 1"]], Some 1).
Proof. intros H K. rewrite main_with_args, H. cbn. rewrite K. reflexivity. Qed.

Variables key address : string.
Hypothesis Hacc : includes_012 supportNum = true.
Hypothesis Hkey : PRIVATE_KEY e = Some key.
Hypothesis Hkne : key <> "".
Hypothesis Hwallet : Wallet e key = Ok address.

(** What is printed before the checks that read the chain. *)
Let prelude : list Event :=
  [Log [Str ("🗳️  BASED DAO Vote" +:+ nl)];
   Log [Str "Voter:"; Str address];
   Log [Str "Proposal ID:"; Str proposalId];
   Log [Str "Vote:";
        from_option Str Undefined (k ← key_of supportNum; SUPPORT !! k)]]
  ++ (if negb (String.eqb reason "") then [Log [Str "Reason:"; Str reason]]
      else [])
  ++ [Log []].

Let checks : M unit :=
  try_catch (main_try e address proposalId supportNum reason) main_catch.

Lemma main_with_wallet : main e = (prelude ++ checks.1, checks.2).
Proof.
  rewrite main_with_args, Hacc, Hkey.
  apply String.eqb_neq in Hkne. cbn [negb falsy]. rewrite Hkne.
  cbn [default from_option id]. rewrite Hwallet. subst prelude checks.
  cbn [await]. rewrite bind_ret_l.
  destruct (try_catch _ main_catch) as [t o].
  destruct (negb (String.eqb reason "")); reflexivity.
Qed.

Lemma sent_prelude (t : list Event) : sent (prelude ++ t) = sent t.
Proof.
  subst prelude. unfold sent. rewrite !omap_app.
  destruct (negb (String.eqb reason "")); reflexivity.
Qed.

Lemma last_prelude (t : list Event) (ev : Event) :
  last t = Some ev -> last (prelude ++ t) = Some ev.
Proof.
  intros H. rewrite last_app, H. reflexivity.
Qed.

Lemma checks_rejected (t : list Event) (line : Event) :
  checks = (t, Exited 1) -> last t = Some line -> sent t = [] ->
  rejected_with line (run (main e)).
Proof.
  intros Hc Hl Hs. rewrite main_with_wallet, Hc.
  unfold rejected_with, run. cbn [fst snd].
  split_and!; [reflexivity | apply last_prelude, Hl | rewrite sent_prelude; exact Hs].
Qed.

(** The checks, one after the other. *)

Lemma checks_no_power :
  tokenContract_balanceOf e address = Ok 0 ->
  checks = ([Log [Str "Your NFTs:"; Num 0]; NoVotingPower], Exited 1).
Proof.
  intros Hb. subst checks. unfold main_try. await_ok Hb. reflexivity.
Qed.

Lemma vote_no_power :
  tokenContract_balanceOf e address = Ok 0 ->
  rejected_with NoVotingPower (run (main e)).
Proof.
  intros Hb. eapply checks_rejected.
  - apply checks_no_power, Hb.
  - reflexivity.
  - reflexivity.
Qed.

Variables (balance : Z) (delegate : string) (state : Z) (proposal : Governor.Proposal).
Hypothesis Hbalance : tokenContract_balanceOf e address = Ok balance.
Hypothesis Hpower : balance <> 0.
Hypothesis Hdelegate : tokenContract_delegates e address = Ok delegate.
Hypothesis Hstate : governorContract_state e proposalId = Ok state.
Hypothesis Hproposal : governorContract_proposals e proposalId = Ok proposal.

(** The advisory on delegation. *)
Let advisory : list Event :=
  if String.eqb delegate ZeroAddress then
    [Log [Str "⚠️  Warning: Your voting power is not delegated."];
     Log [Str "   You may need to delegate to yourself to vote."];
     Log [Str "   Check: https://nouns.build/dao/base/0x10a5676ec8ae3d6b1f36a6f1a1526136ba7938bf"]]
  else if negb (String.eqb (toLowerCase delegate) (toLowerCase address)) then
    [Log [Str "⚠️  Warning: Your votes are delegated to:"; Str delegate];
     Log [Str "   Only the delegate can vote with your voting power."]]
  else [].

(** What is printed up to the check of the phase. *)
Let status : list Event :=
  [Log [Str "Your NFTs:"; Num balance]] ++ advisory ++
  [Log [Str (nl +:+ "📊 Proposal Status:")];
   Log [Str "State:"; Str (stateName (Number state))];
   Log [Str "For:"; Ether (Governor.forVotes proposal); Str "votes"];
   Log [Str "Against:"; Ether (Governor.againstVotes proposal); Str "votes"];
   Log [Str "Abstain:"; Ether (Governor.abstainVotes proposal); Str "votes"]].

Lemma sent_status (t : list Event) : sent (status ++ t) = sent t.
Proof.
  subst status advisory. unfold sent. rewrite !omap_app.
  destruct (String.eqb delegate ZeroAddress);
    [| destruct (negb (String.eqb (toLowerCase delegate) (toLowerCase address)))];
    reflexivity.
Qed.

Lemma checks_not_active :
  state <> 1 ->
  checks = (status ++ [ProposalNotActive (stateName (Number state))], Exited 1).
Proof.
  intros Hs. subst checks status advisory. unfold main_try.
  await_ok Hbalance. apply Z.eqb_neq in Hpower. rewrite Hpower.
  await_ok Hdelegate.
  assert (Hn : (Number state =? 1) = false)
    by (rewrite Number_eqb_1; apply Z.eqb_neq, Hs).
  destruct (String.eqb delegate ZeroAddress);
    [| destruct (negb (String.eqb (toLowerCase delegate) (toLowerCase address)))];
    run_checks; rewrite Hstate, Hproposal; run_checks; rewrite Hn; reflexivity.
Qed.

Lemma vote_not_active :
  state <> 1 ->
  rejected_with (ProposalNotActive (stateName (Number state))) (run (main e)).
Proof.
  intros Hs. eapply checks_rejected.
  - apply checks_not_active, Hs.
  - apply last_snoc.
  - rewrite sent_status. reflexivity.
Qed.

Hypothesis Hactive : state = 1.

Lemma checks_already_voted :
  governorContract_hasVoted e proposalId address = Ok true ->
  checks = (status ++ [AlreadyVoted], Exited 1).
Proof.
  intros Hv. subst checks status advisory. unfold main_try.
  await_ok Hbalance. apply Z.eqb_neq in Hpower. rewrite Hpower.
  await_ok Hdelegate.
  assert (Hn : (Number state =? 1) = true)
    by (rewrite Number_eqb_1, Hactive; reflexivity).
  destruct (String.eqb delegate ZeroAddress);
    [| destruct (negb (String.eqb (toLowerCase delegate) (toLowerCase address)))];
    run_checks; rewrite Hstate, Hproposal; run_checks; rewrite Hn; run_checks;
    rewrite Hv; reflexivity.
Qed.

Lemma vote_already_voted :
  governorContract_hasVoted e proposalId address = Ok true ->
  rejected_with AlreadyVoted (run (main e)).
Proof.
  intros Hv. eapply checks_rejected.
  - apply checks_already_voted, Hv.
  - apply last_snoc.
  - rewrite sent_status. reflexivity.
Qed.

Variable currentBlock : Z.
Hypothesis Hvoted : governorContract_hasVoted e proposalId address = Ok false.
Hypothesis Hblock : provider_getBlockNumber e = Ok currentBlock.

(** From the submission on: the transaction, its confirmation and, when
    either fails, the [catch] block. *)
Let submission : M unit :=
  try_catch
    (let call := vote_call proposalId supportNum reason in
     emit (Send call);;
     let* tx := await (governorContract_send e call) in
     console_log [Str "Transaction:"; Str (Governor.hash tx)];;
     console_log [Str "Waiting for confirmation..."];;
     let* receipt := await (Governor.wait tx) in
     console_log [Str "✅ Vote cast!"];;
     console_log [Str "Block:"; Num (Governor.blockNumber receipt)];;
     console_log [Str "Gas used:"; Num (Governor.gasUsed receipt)];;
     let gasCost := Governor.gasUsed receipt * Governor.gasPrice receipt in
     console_log [Str "Gas cost:"; Ether gasCost; Str "ETH"];;
     console_log [Str (nl +:+ "🎉 Your vote has been recorded!")];;
     console_log
       [Template [Str "View proposal: https://nouns.build/dao/base/0x10a5676ec8ae3d6b1f36a6f1a1526136ba7938bf/vote/";
                  Str proposalId]])
    main_catch.

Lemma checks_submit :
  checks =
    (status ++
     [Log [Template [Str (nl +:+ "Voting ends in: ~");
                     Num (hoursLeft (blocksLeft proposal currentBlock));
                     Str " hours (";
                     Num (blocksLeft proposal currentBlock); Str " blocks)"]];
      Log [Str (nl +:+ "📤 Submitting vote...")]] ++ submission.1,
     submission.2).
Proof.
  subst checks status advisory submission. unfold main_try.
  await_ok Hbalance. apply Z.eqb_neq in Hpower. rewrite Hpower.
  await_ok Hdelegate.
  assert (Hn : (Number state =? 1) = true)
    by (rewrite Number_eqb_1, Hactive; reflexivity).
  destruct (String.eqb delegate ZeroAddress);
    [| destruct (negb (String.eqb (toLowerCase delegate) (toLowerCase address)))];
    run_checks; rewrite Hstate, Hproposal; run_checks; rewrite Hn; run_checks;
    rewrite Hvoted; run_checks; rewrite Hblock; run_checks.
  all: destruct (governorContract_send e _) as [tx | m]; run_checks.
  all: try destruct (Governor.wait tx) as [receipt | m]; run_checks.
  all: try reflexivity.
  all: split_includes; reflexivity.
Qed.

Lemma sent_submission :
  sent submission.1 = [vote_call proposalId supportNum reason].
Proof.
  subst submission. run_checks.
  destruct (governorContract_send e _) as [tx | m]; run_checks.
  1: destruct (Governor.wait tx) as [receipt | m]; run_checks.
  all: try reflexivity.
  all: split_includes; reflexivity.
Qed.

Lemma vote_submitted :
  sent (run (main e)).1 = [vote_call proposalId supportNum reason].
Proof.
  rewrite main_with_wallet, checks_submit.
  assert (Hrun : forall t (o : Outcome unit), sent (run (t, o)).1 = sent t).
  { intros t [| | |]; cbn [run fst]; try reflexivity.
    unfold sent. rewrite omap_app, app_nil_r. reflexivity. }
  cbn [fst snd]. rewrite Hrun, sent_prelude, sent_status.
  rewrite <- sent_submission. reflexivity.
Qed.

Lemma vote_advisory_logged (ev : Event) :
  ev ∈ advisory -> ev ∈ (run (main e)).1 /\ exists line, ev = Log line.
Proof.
  intros Hev. split.
  - rewrite main_with_wallet, checks_submit. cbn [fst snd].
    assert (Hrun : forall t (o : Outcome unit), ev ∈ t -> ev ∈ (run (t, o)).1).
    { intros t [| | |] Ht; cbn [run fst]; try assumption.
      apply elem_of_app. left. assumption. }
    apply Hrun. subst status. rewrite !elem_of_app. tauto.
  - subst advisory.
    destruct (String.eqb delegate ZeroAddress);
      [| destruct (negb (String.eqb (toLowerCase delegate) (toLowerCase address)))].
    all: repeat (apply elem_of_cons in Hev as [-> | Hev]; [eexists; reflexivity |]).
    all: inversion Hev.
Qed.

Lemma vote_confirmed (tx : Governor.TransactionResponse) (receipt : Governor.Receipt) :
  governorContract_send e (vote_call proposalId supportNum reason) = Ok tx ->
  Governor.wait tx = Ok receipt ->
  (run (main e)).2 = Some 0 /\ errors (run (main e)).1 = [].
Proof.
  intros Hsend Hwait.
  rewrite main_with_wallet, checks_submit. subst submission.
  cbv zeta. rewrite Hsend. run_checks. rewrite Hwait. run_checks.
  split; [reflexivity |].
  subst prelude status advisory.
  destruct (negb (String.eqb reason ""));
    (destruct (String.eqb delegate ZeroAddress);
     [| destruct (negb (String.eqb (toLowerCase delegate) (toLowerCase address)))]);
    reflexivity.
Qed.

End VoteCommand.

(** Every path of [main] once the support value is accepted. *)
Lemma vote_paths (e : Vote.Env) (proposalId support : string) :
  Vote.argv e !! 2%nat = Some proposalId -> proposalId <> "" ->
  Vote.argv e !! 3%nat = Some support ->
  includes_012 (parseInt support) = true ->
  let r := run (Vote.main e) in
  (sent r.1 <> [] ->
   exists key address balance proposal currentBlock,
     Vote.PRIVATE_KEY e = Some key /\ key <> ""
     /\ Vote.Wallet e key = Ok address
     /\ Vote.tokenContract_balanceOf e address = Ok balance /\ balance <> 0
     /\ Vote.governorContract_state e proposalId = Ok 1
     /\ Vote.governorContract_proposals e proposalId = Ok proposal
     /\ Vote.governorContract_hasVoted e proposalId address = Ok false
     /\ Vote.provider_getBlockNumber e = Ok currentBlock)
  /\ ~ rejected_with InvalidSupportValue r
  /\ (time_left r.1 <> [] ->
      exists proposal currentBlock,
        Vote.governorContract_state e proposalId = Ok 1
        /\ Vote.governorContract_proposals e proposalId = Ok proposal
        /\ Vote.provider_getBlockNumber e = Ok currentBlock
        /\ time_left r.1 =
             [(Vote.hoursLeft (Vote.blocksLeft proposal currentBlock),
               Vote.blocksLeft proposal currentBlock)]).
Proof.
  intros Hid Hne Hsup Hacc.
  rewrite (main_with_args e proposalId support Hid Hne Hsup), Hacc.
  cbn [negb]. cbv zeta.
  destruct (Vote.PRIVATE_KEY e) as [key |] eqn:Hkey; cbn [falsy].
  2: { cbn. split_and!; [intros H; exfalso; apply H; reflexivity
                        | intros (_ & Hl & _); discriminate Hl
                        | intros H; exfalso; apply H; reflexivity]. }
  destruct (String.eqb_spec key "") as [-> | Hkne].
  { cbn. split_and!; [intros H; exfalso; apply H; reflexivity
                     | intros (_ & Hl & _); discriminate Hl
                     | intros H; exfalso; apply H; reflexivity]. }
  cbn [default from_option id].
  destruct (Vote.Wallet e key) as [address | m] eqn:Hwallet.
  2: { cbn. split_and!; [intros H; exfalso; apply H; reflexivity
                        | intros (Hc & _ & _); discriminate Hc
                        | intros H; exfalso; apply H; reflexivity]. }
  cbn [await]. rewrite bind_ret_l. unfold Vote.main_try.
  set (reason := or_else (Vote.argv e !! 4%nat) "").
  destruct (Vote.tokenContract_balanceOf e address) as [balance | m] eqn:Hb.
  2: { destruct (negb (String.eqb reason "")); run_checks; split_includes;
       (split_and!; [intros H; exfalso; apply H; reflexivity
                    | intros (_ & Hl & _); discriminate Hl
                    | intros H; exfalso; apply H; reflexivity]). }
  cbn [await]. rewrite bind_ret_l.
  destruct (Z.eqb_spec balance 0) as [-> | Hpower].
  { destruct (negb (String.eqb reason "")); run_checks;
      (split_and!; [intros H; exfalso; apply H; reflexivity
                   | intros (_ & Hl & _); discriminate Hl
                   | intros H; exfalso; apply H; reflexivity]). }
  destruct (Vote.tokenContract_delegates e address) as [delegate | m] eqn:Hd.
  2: { destruct (negb (String.eqb reason "")); run_checks; split_includes;
       (split_and!; [intros H; exfalso; apply H; reflexivity
                    | intros (_ & Hl & _); discriminate Hl
                    | intros H; exfalso; apply H; reflexivity]). }
  cbn [await]. rewrite bind_ret_l.
  destruct (Vote.governorContract_state e proposalId) as [state | m] eqn:Hs;
    [destruct (Vote.governorContract_proposals e proposalId)
       as [proposal | m] eqn:Hp |].
  2, 3: destruct (negb (String.eqb reason ""));
    (destruct (String.eqb delegate Vote.ZeroAddress);
     [| destruct (negb (String.eqb (toLowerCase delegate) (toLowerCase address)))]);
    run_checks; try destruct (Vote.governorContract_proposals e proposalId);
    run_checks; split_includes;
    (split_and!; [intros H; exfalso; apply H; reflexivity
                 | intros (_ & Hl & _); discriminate Hl
                 | intros H; exfalso; apply H; reflexivity]).
  cbn [Promise_all2 await].
  destruct (state =? 1) eqn:Hs1.
  2: { destruct (negb (String.eqb reason ""));
       (destruct (String.eqb delegate Vote.ZeroAddress);
        [| destruct (negb (String.eqb (toLowerCase delegate) (toLowerCase address)))]);
       run_checks; rewrite Number_eqb_1, Hs1; run_checks;
       (split_and!; [intros H; exfalso; apply H; reflexivity
                    | intros (_ & Hl & _); discriminate Hl
                    | intros H; exfalso; apply H; reflexivity]). }
  destruct (Vote.governorContract_hasVoted e proposalId address)
    as [[|] | m] eqn:Hv.
  1, 3: destruct (negb (String.eqb reason ""));
    (destruct (String.eqb delegate Vote.ZeroAddress);
     [| destruct (negb (String.eqb (toLowerCase delegate) (toLowerCase address)))]);
    run_checks; rewrite Number_eqb_1, Hs1; run_checks; split_includes;
    (split_and!; [intros H; exfalso; apply H; reflexivity
                 | intros (_ & Hl & _); discriminate Hl
                 | intros H; exfalso; apply H; reflexivity]).
  destruct (Vote.provider_getBlockNumber e) as [currentBlock | m] eqn:Hblock.
  2: { destruct (negb (String.eqb reason ""));
       (destruct (String.eqb delegate Vote.ZeroAddress);
        [| destruct (negb (String.eqb (toLowerCase delegate) (toLowerCase address)))]);
       run_checks; rewrite Number_eqb_1, Hs1; run_checks; split_includes;
       (split_and!; [intros H; exfalso; apply H; reflexivity
                    | intros (_ & Hl & _); discriminate Hl
                    | intros H; exfalso; apply H; reflexivity]). }
  apply Z.eqb_eq in Hs1 as Hs1'. rewrite Hs1' in Hs.
  destruct (negb (String.eqb reason ""));
    (destruct (String.eqb delegate Vote.ZeroAddress);
     [| destruct (negb (String.eqb (toLowerCase delegate) (toLowerCase address)))]);
    run_checks; rewrite Number_eqb_1, Hs1; run_checks;
    (destruct (Vote.governorContract_send e _) as [tx | m]; run_checks;
     [destruct (Governor.wait tx) as [receipt | m]; run_checks |]);
    split_includes;
    (split_and!;
     [intros _; exists key, address, balance, proposal, currentBlock;
      split_and!; first [assumption | reflexivity | congruence]
     | intros (Hc & Hl & _); first [discriminate Hl | discriminate Hc]
     | intros _; exists proposal, currentBlock; split_and!;
       first [assumption | reflexivity | congruence]]).
Qed.

(** ** The order of the checks of vote.js *)

(** C1: the vote command checks, in this order, the support value, the
    balance, the phase and the has-voted flag; the first check that fails
    gives the error ([InvalidSupportValue], [NoVotingPower],
    [ProposalNotActive], [AlreadyVoted]) whatever the later ones would
    say, and a vote is sent only when all four pass. *)
Theorem vote_rules_in_order (e : Vote.Env) (proposalId support : string) :
  Vote.argv e !! 2%nat = Some proposalId -> proposalId <> "" ->
  Vote.argv e !! 3%nat = Some support ->
  let supportNum := parseInt support in
  let reason := or_else (Vote.argv e !! 4%nat) "" in
  let r := run (Vote.main e) in
  (includes_012 supportNum = false -> rejected_with InvalidSupportValue r)
  /\ (includes_012 supportNum = true ->
      forall key address,
        Vote.PRIVATE_KEY e = Some key -> key <> "" ->
        Vote.Wallet e key = Ok address ->
        (Vote.tokenContract_balanceOf e address = Ok 0 ->
         rejected_with NoVotingPower r)
        /\ (forall balance delegate state proposal,
              Vote.tokenContract_balanceOf e address = Ok balance ->
              balance <> 0 ->
              Vote.tokenContract_delegates e address = Ok delegate ->
              Vote.governorContract_state e proposalId = Ok state ->
              Vote.governorContract_proposals e proposalId = Ok proposal ->
              (state <> 1 ->
               rejected_with
                 (ProposalNotActive (Vote.stateName (Number state))) r)
              /\ (state = 1 ->
                  (Vote.governorContract_hasVoted e proposalId address = Ok true ->
                   rejected_with AlreadyVoted r)
                  /\ (Vote.governorContract_hasVoted e proposalId address = Ok false ->
                      forall currentBlock,
                        Vote.provider_getBlockNumber e = Ok currentBlock ->
                        sent r.1 = [Vote.vote_call proposalId supportNum reason]))))
  /\ (sent r.1 <> [] ->
      includes_012 supportNum = true
      /\ exists key address balance,
           Vote.PRIVATE_KEY e = Some key
           /\ Vote.Wallet e key = Ok address
           /\ Vote.tokenContract_balanceOf e address = Ok balance
           /\ balance <> 0
           /\ Vote.governorContract_state e proposalId = Ok 1
           /\ Vote.governorContract_hasVoted e proposalId address = Ok false).
Proof.
  intros Hid Hne Hsup supportNum reason r. split_and!.
  - intros Hrej. eapply rejected_invalid_support; eassumption.
  - intros Hacc key address Hkey Hkne Hwallet. split.
    + intros Hb. eapply vote_no_power; eassumption.
    + intros balance delegate state proposal Hb Hpower Hd Hs Hp. split.
      * intros Hstate. eapply vote_not_active; eassumption.
      * intros Hstate. split.
        -- intros Hv. eapply vote_already_voted; eassumption.
        -- intros Hv currentBlock Hblock. eapply vote_submitted; eassumption.
  - intros Hsent.
    destruct (includes_012 supportNum) eqn:Hacc.
    + split; [reflexivity |].
      destruct (vote_paths e proposalId support Hid Hne Hsup Hacc)
        as (Hpath & _ & _).
      destruct (Hpath Hsent)
        as (key & address & balance & proposal & currentBlock & H).
      exists key, address, balance. tauto.
    + exfalso. apply Hsent.
      apply (rejected_invalid_support e proposalId support Hid Hne Hsup Hacc).
Qed.


Lemma vote_rules_in_order_witness :
  rejected_with InvalidSupportValue
    (run (Vote.main (Samples.voter "3" 0 Samples.address_1 7 true 90)))
  /\ rejected_with NoVotingPower
       (run (Vote.main (Samples.voter "1" 0 Samples.address_1 7 true 90)))
  /\ rejected_with (ProposalNotActive "Executed")
       (run (Vote.main (Samples.voter "1" 2 Samples.address_1 7 true 90)))
  /\ rejected_with AlreadyVoted
       (run (Vote.main (Samples.voter "1" 2 Samples.address_1 1 true 90)))
  /\ sent (run (Vote.main (Samples.voter "1" 2 Samples.address_1 1 false 90))).1
     = [castVote "5" 1 250000].
Proof.
  split_and!.
  - apply (vote_rules_in_order
             (Samples.voter "3" 0 Samples.address_1 7 true 90) "5" "3");
      [reflexivity | discriminate | reflexivity | reflexivity].
  - destruct (vote_rules_in_order
                (Samples.voter "1" 0 Samples.address_1 7 true 90) "5" "1"
                eq_refl ltac:(discriminate) eq_refl) as (_ & H & _).
    destruct (H eq_refl _ Samples.address_1 eq_refl ltac:(discriminate) eq_refl)
      as (H0 & _).
    apply H0. reflexivity.
  - destruct (vote_rules_in_order
                (Samples.voter "1" 2 Samples.address_1 7 true 90) "5" "1"
                eq_refl ltac:(discriminate) eq_refl) as (_ & H & _).
    destruct (H eq_refl _ Samples.address_1 eq_refl ltac:(discriminate) eq_refl)
      as (_ & H0).
    destruct (H0 2 Samples.address_1 7 Samples.proposal_100
                eq_refl ltac:(lia) eq_refl eq_refl eq_refl) as (H1 & _).
    apply H1. lia.
  - destruct (vote_rules_in_order
                (Samples.voter "1" 2 Samples.address_1 1 true 90) "5" "1"
                eq_refl ltac:(discriminate) eq_refl) as (_ & H & _).
    destruct (H eq_refl _ Samples.address_1 eq_refl ltac:(discriminate) eq_refl)
      as (_ & H0).
    destruct (H0 2 Samples.address_1 1 Samples.proposal_100
                eq_refl ltac:(lia) eq_refl eq_refl eq_refl) as (_ & H1).
    destruct (H1 eq_refl) as (H2 & _). apply H2. reflexivity.
  - destruct (vote_rules_in_order
                (Samples.voter "1" 2 Samples.address_1 1 false 90) "5" "1"
                eq_refl ltac:(discriminate) eq_refl) as (_ & H & _).
    destruct (H eq_refl _ Samples.address_1 eq_refl ltac:(discriminate) eq_refl)
      as (_ & H0).
    destruct (H0 2 Samples.address_1 1 Samples.proposal_100
                eq_refl ltac:(lia) eq_refl eq_refl eq_refl) as (_ & H1).
    destruct (H1 eq_refl) as (_ & H2). apply (H2 eq_refl 90 eq_refl).
Defined.

(** ** A voter without tokens *)

(** C4, as stated, at a support value that is not 0, 1 or 2: with the
    support "5" and a balance of 0 the command fails on the support
    value, not with [NoVotingPower]. *)
Lemma zero_balance_invalid_support :
  let r := run (Vote.main (Samples.voter "5" 0 Samples.address_1 1 false 90)) in
  rejected_with InvalidSupportValue r /\ ~ rejected_with NoVotingPower r.
Proof.
  split.
  - split_and!; reflexivity.
  - intros (_ & H & _). vm_compute in H. discriminate H.
Qed.

(** C4, amended: a voter whose balance is 0 never gets a vote sent,
    whatever the phase and the has-voted flag; the command ends with
    [NoVotingPower] when the support value is 0, 1 or 2 and with
    [InvalidSupportValue] otherwise. *)
Theorem zero_balance_never_votes (e : Vote.Env)
    (proposalId support key address : string) :
  Vote.argv e !! 2%nat = Some proposalId -> proposalId <> "" ->
  Vote.argv e !! 3%nat = Some support ->
  Vote.PRIVATE_KEY e = Some key -> key <> "" ->
  Vote.Wallet e key = Ok address ->
  Vote.tokenContract_balanceOf e address = Ok 0 ->
  let r := run (Vote.main e) in
  sent r.1 = [] /\ r.2 = Some 1
  /\ (includes_012 (parseInt support) = true -> rejected_with NoVotingPower r)
  /\ (includes_012 (parseInt support) = false ->
      rejected_with InvalidSupportValue r).
Proof.
  intros Hid Hne Hsup Hkey Hkne Hwallet Hb r.
  assert (Hno : includes_012 (parseInt support) = true ->
                rejected_with NoVotingPower r)
    by (intros Hacc; eapply vote_no_power; eassumption).
  assert (Hinv : includes_012 (parseInt support) = false ->
                 rejected_with InvalidSupportValue r)
    by (intros Hrej; eapply rejected_invalid_support; eassumption).
  destruct (includes_012 (parseInt support)).
  - destruct (Hno eq_refl) as (Hc & _ & Hs). tauto.
  - destruct (Hinv eq_refl) as (Hc & _ & Hs). tauto.
Qed.

Lemma zero_balance_never_votes_witness :
  let r := run (Vote.main (Samples.voter "1" 0 Samples.address_2 1 false 90)) in
  sent r.1 = [] /\ r.2 = Some 1
  /\ (includes_012 (parseInt "1") = true -> rejected_with NoVotingPower r)
  /\ (includes_012 (parseInt "1") = false ->
      rejected_with InvalidSupportValue r).
Proof.
  apply (zero_balance_never_votes
           (Samples.voter "1" 0 Samples.address_2 1 false 90)
           "5" "1" Samples.key_1 Samples.address_1);
    [reflexivity | discriminate | reflexivity | reflexivity | discriminate
    | reflexivity | reflexivity].
Defined.

(** ** Delegation *)

(** C5: whoever the delegate of the voter is (the zero address, another
    address, the voter), when the four checks pass the vote is sent; a
    delegate that is not the voter only adds a warning written with
    [console.log], and when the transaction is confirmed the command
    ends with code 0 and no error line. *)
Theorem delegation_is_advisory (e : Vote.Env)
    (proposalId support key address delegate : string) (balance : Z)
    (proposal : Governor.Proposal) (currentBlock : Z) :
  Vote.argv e !! 2%nat = Some proposalId -> proposalId <> "" ->
  Vote.argv e !! 3%nat = Some support ->
  includes_012 (parseInt support) = true ->
  Vote.PRIVATE_KEY e = Some key -> key <> "" ->
  Vote.Wallet e key = Ok address ->
  Vote.tokenContract_balanceOf e address = Ok balance -> balance <> 0 ->
  Vote.tokenContract_delegates e address = Ok delegate ->
  Vote.governorContract_state e proposalId = Ok 1 ->
  Vote.governorContract_proposals e proposalId = Ok proposal ->
  Vote.governorContract_hasVoted e proposalId address = Ok false ->
  Vote.provider_getBlockNumber e = Ok currentBlock ->
  let reason := or_else (Vote.argv e !! 4%nat) "" in
  let call := Vote.vote_call proposalId (parseInt support) reason in
  let r := run (Vote.main e) in
  sent r.1 = [call]
  /\ (delegate = Vote.ZeroAddress ->
      Log [Str "⚠️  Warning: Your voting power is not delegated."] ∈ r.1)
  /\ (delegate <> Vote.ZeroAddress ->
      toLowerCase delegate <> toLowerCase address ->
      Log [Str "⚠️  Warning: Your votes are delegated to:"; Str delegate] ∈ r.1)
  /\ (forall tx receipt,
        Vote.governorContract_send e call = Ok tx ->
        Governor.wait tx = Ok receipt ->
        r.2 = Some 0 /\ errors r.1 = []).
Proof.
  intros Hid Hne Hsup Hacc Hkey Hkne Hwallet Hb Hpower Hd Hs Hp Hv Hblock
    reason call r.
  split_and!.
  - eapply vote_submitted; eauto.
  - intros Hzero.
    eapply (vote_advisory_logged e proposalId support Hid Hne Hsup key address
              Hacc Hkey Hkne Hwallet balance delegate 1 proposal
              Hb Hpower Hd Hs Hp eq_refl currentBlock Hv Hblock).
    apply String.eqb_eq in Hzero. rewrite Hzero. apply elem_of_cons; left; reflexivity.
  - intros Hzero Hother.
    eapply (vote_advisory_logged e proposalId support Hid Hne Hsup key address
              Hacc Hkey Hkne Hwallet balance delegate 1 proposal
              Hb Hpower Hd Hs Hp eq_refl currentBlock Hv Hblock).
    apply String.eqb_neq in Hzero, Hother. rewrite Hzero, Hother.
    apply elem_of_cons; left; reflexivity.
  - intros tx receipt Hsend Hwait.
    eapply (vote_confirmed e proposalId support Hid Hne Hsup key address
              Hacc Hkey Hkne Hwallet balance delegate 1 proposal
              Hb Hpower Hd Hs Hp eq_refl currentBlock Hv Hblock); eassumption.
Qed.

Lemma delegation_is_advisory_witness :
  let r := run (Vote.main (Samples.voter "1" 2 Samples.address_2 1 false 90)) in
  sent r.1 = [castVote "5" 1 250000]
  /\ Log [Str "⚠️  Warning: Your votes are delegated to:"; Str Samples.address_2]
     ∈ r.1
  /\ r.2 = Some 0 /\ errors r.1 = [].
Proof.
  destruct (delegation_is_advisory
              (Samples.voter "1" 2 Samples.address_2 1 false 90)
              "5" "1" Samples.key_1 Samples.address_1 Samples.address_2 2
              Samples.proposal_100 90
              eq_refl ltac:(discriminate) eq_refl eq_refl eq_refl
              ltac:(discriminate) eq_refl eq_refl ltac:(lia) eq_refl eq_refl
              eq_refl eq_refl eq_refl)
    as (Hsent & _ & Hwarn & Hok).
  split_and!.
  - exact Hsent.
  - apply Hwarn; discriminate.
  - apply (Hok _ Samples.receipt_96 eq_refl eq_refl).
  - apply (Hok _ Samples.receipt_96 eq_refl eq_refl).
Defined.

(** ** The support argument *)

Lemma includes_012_value (x : number) :
  includes_012 x = true <->
  number_value x = Some 0 \/ number_value x = Some 1 \/ number_value x = Some 2.
Proof.
  destruct x as [| [|] [| p]]; cbn [includes_012 number_value].
  - split; [discriminate | intros [H | [H | H]]; discriminate H].
  - split; [left; reflexivity | reflexivity].
  - split; [discriminate | intros [H | [H | H]]; injection H; lia].
  - split; [left; reflexivity | reflexivity].
  - rewrite orb_true_iff, !N.eqb_eq. split.
    + intros [-> | ->]; [right; left | right; right]; reflexivity.
    + intros [H | [H | H]]; injection H; lia.
Qed.

(** C9: the support argument passes the check exactly when [parseInt]
    of the raw string is 0, 1 or 2; so "1.9" and "2x" pass, and the vote
    is sent with 1 and with 2. *)
Theorem support_accepted_iff_parseInt (e : Vote.Env)
    (proposalId support : string) :
  Vote.argv e !! 2%nat = Some proposalId -> proposalId <> "" ->
  Vote.argv e !! 3%nat = Some support ->
  let x := number_value (parseInt support) in
  (~ rejected_with InvalidSupportValue (run (Vote.main e))
   <-> x = Some 0 \/ x = Some 1 \/ x = Some 2)
  /\ parseInt "1.9" = Int false 1
  /\ parseInt "2x" = Int false 2
  /\ sent (run (Vote.main (Samples.voter "1.9" 2 Samples.address_1 1 false 90))).1
     = [castVote "5" 1 250000]
  /\ sent (run (Vote.main (Samples.voter "2x" 2 Samples.address_1 1 false 90))).1
     = [castVote "5" 2 250000].
Proof.
  intros Hid Hne Hsup x. split_and!; try reflexivity.
  subst x. rewrite <- includes_012_value.
  destruct (includes_012 (parseInt support)) eqn:Hacc.
  - split; [reflexivity |]. intros _.
    apply (vote_paths e proposalId support Hid Hne Hsup Hacc).
  - split; [| discriminate]. intros Hnot. exfalso. apply Hnot.
    apply (rejected_invalid_support e proposalId support Hid Hne Hsup Hacc).
Qed.

Lemma support_accepted_iff_parseInt_witness :
  ~ rejected_with InvalidSupportValue
      (run (Vote.main (Samples.voter "1.9" 2 Samples.address_1 1 false 90))).
Proof.
  apply (support_accepted_iff_parseInt
           (Samples.voter "1.9" 2 Samples.address_1 1 false 90) "5" "1.9"
           eq_refl ltac:(discriminate) eq_refl).
  right. left. reflexivity.
Defined.

(** ** A code that is not in the table *)

Lemma Number_outside (code : Z) :
  ~ (0 <= code <= 7) -> ~ (0 <= Number code <= 7) /\ code <> 1.
Proof.
  intros H. split; [| lia]. intros Hn.
  assert (Heq : Number code = code)
    by (apply Number_small_inv; change (2 ^ 53) with 9007199254740992; lia).
  lia.
Qed.

(** C3, as stated, at the code 8: check-proposals.js --all lists the
    proposal under the label Unknown and ends with code 0 and no error. *)
Lemma unknown_phase_is_listed :
  let r := run (CheckProposals.main Samples.governor_3) in
  CheckProposals.contract_state Samples.governor_3 3 = Ok 8
  /\ r.2 = Some 0
  /\ errors r.1 = []
  /\ displayed r.1 = [1; 3]
  /\ Log [Template [Str "State: "; Str "Unknown"]] ∈ r.1.
Proof.
  vm_compute. split_and!; try reflexivity.
  repeat (apply elem_of_cons; first [left; reflexivity | right]).
Qed.

(** C3, amended: a code outside 0..7 gets the label Unknown, and the
    scripts go on with it: check-proposals.js pushes the proposal under
    that label with --all and skips it without, vote.js rejects the vote
    as for any phase that is not Active. *)
Theorem unknown_phase_defaults (code : Z) :
  ~ (0 <= code <= 7) ->
  CheckProposals.stateName (Number code) = "Unknown"
  /\ Vote.stateName (Number code) = "Unknown"
  /\ (forall e i p acc,
        CheckProposals.contract_proposals e i = Ok p ->
        CheckProposals.contract_state e i = Ok code ->
        CheckProposals.fetch_one e false i acc = ret acc
        /\ exists x,
             CheckProposals.fetch_one e true i acc = ret (acc ++ [x])
             /\ CheckProposals.id x = i
             /\ CheckProposals.state x = "Unknown")
  /\ (forall e proposalId support key address balance delegate proposal,
        Vote.argv e !! 2%nat = Some proposalId -> proposalId <> "" ->
        Vote.argv e !! 3%nat = Some support ->
        includes_012 (parseInt support) = true ->
        Vote.PRIVATE_KEY e = Some key -> key <> "" ->
        Vote.Wallet e key = Ok address ->
        Vote.tokenContract_balanceOf e address = Ok balance -> balance <> 0 ->
        Vote.tokenContract_delegates e address = Ok delegate ->
        Vote.governorContract_state e proposalId = Ok code ->
        Vote.governorContract_proposals e proposalId = Ok proposal ->
        rejected_with (ProposalNotActive "Unknown") (run (Vote.main e))).
Proof.
  intros Hout. destruct (Number_outside code Hout) as [Hn H1].
  assert (Hc : CheckProposals.stateName (Number code) = "Unknown").
  { unfold CheckProposals.stateName.
    rewrite CheckProposals_STATES_outside by exact Hn. reflexivity. }
  assert (Hv : Vote.stateName (Number code) = "Unknown").
  { unfold Vote.stateName. rewrite Vote_STATES_outside by exact Hn. reflexivity. }
  split_and!; try assumption.
  - intros e i p acc Hp Hs. rewrite !fetch_one_fetched.
    rewrite !(fetched_ok e _ i p code Hp Hs).
    apply Z.eqb_neq in H1. rewrite H1. cbn [negb andb]. split.
    + rewrite app_nil_r. reflexivity.
    + eexists. split_and!; [reflexivity | reflexivity | exact Hc].
  - intros e proposalId support key address balance delegate proposal
      Hid Hne Hsup Hacc Hkey Hkne Hwallet Hb Hpower Hd Hs Hp.
    rewrite <- Hv. eapply vote_not_active; eassumption.
Qed.

Lemma unknown_phase_defaults_witness :
  CheckProposals.stateName (Number 8) = "Unknown"
  /\ rejected_with (ProposalNotActive "Unknown")
       (run (Vote.main (Samples.voter "1" 2 Samples.address_1 8 false 90))).
Proof.
  destruct (unknown_phase_defaults 8 ltac:(lia)) as (Hc & _ & _ & Hvote).
  split; [exact Hc |].
  apply (Hvote (Samples.voter "1" 2 Samples.address_1 8 false 90)
           "5" "1" Samples.key_1 Samples.address_1 2 Samples.address_1
           Samples.proposal_100);
    first [reflexivity | discriminate | lia].
Defined.

(** ** The blocks left *)

Lemma blocksLeft_exact (endBlock currentBlock : Z) :
  0 <= endBlock < 2 ^ 53 -> 0 <= currentBlock < 2 ^ 53 ->
  number_sub (Number endBlock) currentBlock = endBlock - currentBlock.
Proof.
  intros He Hc. unfold number_sub.
  rewrite (Number_safe endBlock) by lia. apply Number_safe. lia.
Qed.

(** C2, as stated, one block after the end of the voting: the proposal
    is still reported Active, its end block is 100 and the chain is at
    block 105; both scripts print -5 blocks, not 0. *)
Lemma blocks_left_negative :
  CheckProposals.stateNum Samples.entry_100 = 1
  /\ CheckProposals.blocksLeft Samples.entry_100 105 = -5
  /\ CheckProposals.blocksLeft Samples.entry_100 105
     <> Z.max 0 (CheckProposals.endBlock Samples.entry_100 - 105)
  /\ time_left (run (CheckProposals.main Samples.governor_3)).1 = [(-1, -5)]
  /\ time_left
       (run (Vote.main (Samples.voter "1" 2 Samples.address_1 1 false 105))).1
     = [(-1, -5)].
Proof. vm_compute. split_and!; try reflexivity. discriminate. Qed.

(** C2, amended: the blocks left are printed only for a proposal whose
    code is 1 (Active), and they are the difference endBlock -
    currentBlock, which is negative once the chain has passed the end
    block; block numbers are below 2^53. *)
Theorem blocks_left_is_difference :
  (forall (e : CheckProposals.Env) (k : nat) (prop : CheckProposals.Entry)
          (currentBlock : Z),
     CheckProposals.provider_getBlockNumber e k = Ok currentBlock ->
     0 <= CheckProposals.endBlock prop < 2 ^ 53 ->
     0 <= currentBlock < 2 ^ 53 ->
     let blocksLeft := CheckProposals.endBlock prop - currentBlock in
     time_left (CheckProposals.display_one e k prop).1
     = if CheckProposals.stateNum prop =? 1
       then [(CheckProposals.hoursLeft blocksLeft, blocksLeft)] else [])
  /\ (forall (e : Vote.Env) (proposalId support : string),
        Vote.argv e !! 2%nat = Some proposalId -> proposalId <> "" ->
        Vote.argv e !! 3%nat = Some support ->
        let r := run (Vote.main e) in
        time_left r.1 = []
        \/ exists proposal currentBlock,
             Vote.governorContract_state e proposalId = Ok 1
             /\ Vote.governorContract_proposals e proposalId = Ok proposal
             /\ Vote.provider_getBlockNumber e = Ok currentBlock
             /\ time_left r.1 =
                  [(Vote.hoursLeft (Vote.blocksLeft proposal currentBlock),
                    Vote.blocksLeft proposal currentBlock)]
             /\ (0 <= Governor.endBlock proposal < 2 ^ 53 ->
                 0 <= currentBlock < 2 ^ 53 ->
                 Vote.blocksLeft proposal currentBlock
                 = Governor.endBlock proposal - currentBlock)).
Proof.
  split.
  - intros e k prop currentBlock Hblock He Hc blocksLeft.
    destruct (display_one_ok e k prop currentBlock Hblock)
      as (_ & _ & _ & Ht & _).
    rewrite Ht. unfold CheckProposals.blocksLeft.
    rewrite blocksLeft_exact by assumption. reflexivity.
  - intros e proposalId support Hid Hne Hsup r.
    destruct (includes_012 (parseInt support)) eqn:Hacc.
    + destruct (vote_paths e proposalId support Hid Hne Hsup Hacc)
        as (_ & _ & Hpath).
      destruct (time_left r.1) as [| pair rest] eqn:Ht; [left; reflexivity |].
      right. destruct Hpath as (proposal & currentBlock & Hs & Hp & Hb & Heq).
      { fold r. rewrite Ht. discriminate. }
      exists proposal, currentBlock. fold r in Heq. rewrite Ht in Heq.
      split_and!; try assumption.
      intros He Hc. apply blocksLeft_exact; assumption.
    + left. subst r. rewrite (main_with_args e proposalId support Hid Hne Hsup), Hacc.
      reflexivity.
Qed.

Lemma blocks_left_is_difference_witness :
  time_left (CheckProposals.display_one Samples.governor_3 0 Samples.entry_100).1
  = [(CheckProposals.hoursLeft (100 - 105), 100 - 105)].
Proof.
  destruct blocks_left_is_difference as (H & _).
  apply (H Samples.governor_3 0%nat Samples.entry_100 105 eq_refl);
    split; reflexivity || discriminate.
Defined.

(** ** The classifier keeps no state *)

(** C7: what the classifier gives for a proposal, its label and its
    blocks left, depends on the snapshot, the code and the block number
    only: not on the script's array, nor on the index, the environment
    or the number of calls made before; and an iteration leaves the
    entries already in the array as they are. *)
Theorem classifier_is_pure (e1 e2 : CheckProposals.Env) (showAll : bool)
    (i1 i2 : Z) (k1 k2 : nat) (p : Governor.Proposal) (code currentBlock : Z) :
  CheckProposals.contract_proposals e1 i1 = Ok p ->
  CheckProposals.contract_state e1 i1 = Ok code ->
  CheckProposals.provider_getBlockNumber e1 k1 = Ok currentBlock ->
  CheckProposals.contract_proposals e2 i2 = Ok p ->
  CheckProposals.contract_state e2 i2 = Ok code ->
  CheckProposals.provider_getBlockNumber e2 k2 = Ok currentBlock ->
  classification e1 showAll i1 k1 = classification e2 showAll i2 k2
  /\ (forall acc1 acc2,
        exists pushed1 pushed2,
          CheckProposals.fetch_one e1 showAll i1 acc1 = ret (acc1 ++ pushed1)
          /\ CheckProposals.fetch_one e2 showAll i2 acc2 = ret (acc2 ++ pushed2)
          /\ map CheckProposals.state pushed1 = map CheckProposals.state pushed2
          /\ map CheckProposals.stateNum pushed1
             = map CheckProposals.stateNum pushed2)
  /\ Vote.stateName (Number code) = CheckProposals.stateName (Number code).
Proof.
  intros Hp1 Hs1 Hb1 Hp2 Hs2 Hb2.
  pose proof (fetched_ok e1 showAll i1 p code Hp1 Hs1) as Hf1.
  pose proof (fetched_ok e2 showAll i2 p code Hp2 Hs2) as Hf2.
  split_and!.
  - unfold classification. rewrite Hf1, Hf2.
    destruct (negb showAll && negb (code =? 1)); [reflexivity |].
    cbn [map]. f_equal. f_equal. f_equal.
    match goal with
    | |- time_left (CheckProposals.display_one _ _ ?x).1
         = time_left (CheckProposals.display_one _ _ ?y).1 =>
      destruct (display_one_ok e1 k1 x currentBlock Hb1) as (_ & _ & _ & -> & _);
      destruct (display_one_ok e2 k2 y currentBlock Hb2) as (_ & _ & _ & -> & _)
    end.
    reflexivity.
  - intros acc1 acc2. exists (fetched e1 showAll i1), (fetched e2 showAll i2).
    rewrite !fetch_one_fetched, Hf1, Hf2.
    destruct (negb showAll && negb (code =? 1)); split_and!; reflexivity.
  - apply stateName_agree.
Qed.

Lemma classifier_is_pure_witness :
  classification Samples.governor_3 true 1 0
  = classification Samples.governor_3 true 1 4.
Proof.
  apply (classifier_is_pure Samples.governor_3 Samples.governor_3 true 1 1
           0%nat 4%nat Samples.proposal_100 1 105);
    reflexivity.
Defined.

(** ** A proposal that cannot be fetched *)

(** C10: when the fetch of a proposal throws, the iteration pushes
    nothing, prints nothing and the loop goes on with the next index;
    the proposal is neither displayed nor counted in the summary, the
    other proposals are, and with the block number at hand the command
    ends with code 0 and no error line. *)
Theorem failed_fetch_is_skipped (e : CheckProposals.Env) (count : Z) :
  CheckProposals.contract_proposalCount e = Ok count ->
  0 < count < 2 ^ 53 ->
  let showAll := bool_decide ("--all" ∈ CheckProposals.argv e) in
  exists proposals,
    CheckProposals.fetch_loop e showAll 1 (Z.to_nat (Number count)) []
      = ret proposals
    /\ (forall i m,
          CheckProposals.contract_proposals e i = Throw m
          \/ CheckProposals.contract_state e i = Throw m ->
          (i ∉ map CheckProposals.id proposals)
          /\ (forall acc, CheckProposals.fetch_one e showAll i acc = ret acc)
          /\ (forall n acc,
                CheckProposals.fetch_loop e showAll i (S n) acc
                = CheckProposals.fetch_loop e showAll (i + 1) n acc))
    /\ (forall i p code,
          1 <= i <= count ->
          CheckProposals.contract_proposals e i = Ok p ->
          CheckProposals.contract_state e i = Ok code ->
          showAll = true \/ code = 1 ->
          i ∈ map CheckProposals.id proposals)
    /\ ((forall k, exists cur, CheckProposals.provider_getBlockNumber e k = Ok cur) ->
        let r := run (CheckProposals.main e) in
        r.2 = Some 0
        /\ errors r.1 = []
        /\ displayed r.1 = map CheckProposals.id proposals
        /\ (proposals <> [] ->
            omap (labelled "Active: ") r.1
              = [CheckProposals.count_state 1 proposals]
            /\ omap (labelled "Succeeded: ") r.1
               = [CheckProposals.count_state 4 proposals]
            /\ omap (labelled "Executed: ") r.1
               = [CheckProposals.count_state 7 proposals])).
Proof.
  intros Hcount Hrange showAll.
  assert (Hnum : Number count = count)
    by (apply Number_safe; lia).
  exists (concat (map (fetched e showAll) (indices 1 (Z.to_nat (Number count))))).
  assert (Hloop : CheckProposals.fetch_loop e showAll 1 (Z.to_nat (Number count)) []
                  = ret (concat (map (fetched e showAll)
                                     (indices 1 (Z.to_nat (Number count))))))
    by apply fetch_loop_fetched.
  split_and!.
  - exact Hloop.
  - intros i m Hthrow.
    pose proof (fetched_throw e showAll i m Hthrow) as Hnone.
    split_and!.
    + intros Hin. apply list_elem_of_fmap in Hin as (x & -> & Hx).
      apply list_elem_of_In, in_concat in Hx as (l & Hl & Hx).
      apply list_elem_of_In in Hx.
      apply list_elem_of_In, list_elem_of_fmap in Hl as (j & -> & Hj).
      pose proof (fetched_id e showAll j x Hx) as Hid. rewrite Hid in Hnone.
      rewrite Hnone in Hx. inversion Hx.
    + intros acc. rewrite fetch_one_fetched, Hnone, app_nil_r. reflexivity.
    + intros n acc. cbn [CheckProposals.fetch_loop].
      rewrite fetch_one_fetched, Hnone, app_nil_r. apply bind_ret_l.
  - intros i p code Hi Hp Hs Hshown.
    apply list_elem_of_fmap.
    pose proof (fetched_ok e showAll i p code Hp Hs) as Hf.
    assert (Hskip : negb showAll && negb (code =? 1) = false).
    { destruct Hshown as [-> | ->]; [reflexivity | apply andb_false_r]. }
    rewrite Hskip in Hf.
    destruct (fetched e showAll i) as [| x rest] eqn:Hx; [discriminate Hf |].
    exists x. split.
    + symmetry. apply (fetched_id e showAll i x). rewrite Hx.
      apply elem_of_cons. left. reflexivity.
    + apply list_elem_of_In, in_concat. exists (x :: rest). split.
      * apply list_elem_of_In, list_elem_of_fmap. exists i.
        split; [symmetry; exact Hx | apply elem_of_indices; lia].
      * left. reflexivity.
  - intros Hblocks. apply (main_listing e count _ Hcount Hrange Hloop Hblocks).
Qed.

Lemma failed_fetch_is_skipped_witness :
  exists proposals,
    CheckProposals.fetch_loop Samples.governor_3 true 1 3 [] = ret proposals
    /\ (2 ∉ map CheckProposals.id proposals)
    /\ 3 ∈ map CheckProposals.id proposals
    /\ (run (CheckProposals.main Samples.governor_3)).2 = Some 0
    /\ displayed (run (CheckProposals.main Samples.governor_3)).1
       = map CheckProposals.id proposals.
Proof.
  destruct (failed_fetch_is_skipped Samples.governor_3 3 eq_refl)
    as (proposals & Hloop & Hskip & Hkept & Hrun).
  { split; reflexivity. }
  exists proposals. split_and!.
  - exact Hloop.
  - apply (Hskip 2 "execution reverted"). left. reflexivity.
  - apply (Hkept 3 Samples.proposal_100 8); [lia | reflexivity | reflexivity |].
    left. reflexivity.
  - apply Hrun. intros k. exists 105. reflexivity.
  - apply Hrun. intros k. exists 105. reflexivity.
Defined.

(** ** The minimum next bid *)

(** C8: the minimum next bid is the reserve price while no bid is
    placed, whatever the increment; otherwise it is the current bid plus
    the least integer that is not below currentBid * incrementPct / 100. *)
Theorem min_next_bid_rounds_up (s : AuctionEvaluator.AuctionSnapshot) :
  let bid := AuctionEvaluator.currentBid s in
  let pct := AuctionEvaluator.incrementPct s in
  (bid = 0 ->
   AuctionEvaluator.min_next_bid s = AuctionEvaluator.reservePrice s)
  /\ (bid <> 0 ->
      exists increment,
        AuctionEvaluator.min_next_bid s = bid + increment
        /\ bid * pct <= 100 * increment
        /\ 100 * (increment - 1) < bid * pct)
  /\ (forall now out,
        AuctionEvaluator.evaluate s now = Some out ->
        AuctionEvaluator.minNextBid out = AuctionEvaluator.min_next_bid s).
Proof.
  intros bid pct. unfold AuctionEvaluator.min_next_bid. fold bid pct.
  split_and!.
  - intros ->. reflexivity.
  - intros Hbid. apply Z.eqb_neq in Hbid. rewrite Hbid.
    exists ((bid * pct + 99) / 100). split; [reflexivity |].
    pose proof (Z.div_mod (bid * pct + 99) 100 ltac:(lia)) as Hdiv.
    pose proof (Z.mod_pos_bound (bid * pct + 99) 100 ltac:(lia)) as Hmod.
    lia.
  - intros now out. unfold AuctionEvaluator.evaluate.
    destruct (_ || _ || _); [discriminate |].
    intros [= <-]. reflexivity.
Qed.

Example min_next_bid_1000 :
  AuctionEvaluator.min_next_bid
    {| AuctionEvaluator.tokenId := 7;
       AuctionEvaluator.currentBid := 1000;
       AuctionEvaluator.currentBidder := Samples.address_1;
       AuctionEvaluator.startTime := 0;
       AuctionEvaluator.endTime := 86400;
       AuctionEvaluator.reservePrice := 8 * 10 ^ 14;
       AuctionEvaluator.incrementPct := 10;
       AuctionEvaluator.extensionWindow := 900;
       AuctionEvaluator.extensionDuration := 600 |}
  = 1100.
Proof. reflexivity. Qed.

Lemma min_next_bid_rounds_up_witness :
  AuctionEvaluator.min_next_bid
    {| AuctionEvaluator.tokenId := 7;
       AuctionEvaluator.currentBid := 0;
       AuctionEvaluator.currentBidder := Vote.ZeroAddress;
       AuctionEvaluator.startTime := 0;
       AuctionEvaluator.endTime := 86400;
       AuctionEvaluator.reservePrice := 8 * 10 ^ 14;
       AuctionEvaluator.incrementPct := 10;
       AuctionEvaluator.extensionWindow := 900;
       AuctionEvaluator.extensionDuration := 600 |}
  = 8 * 10 ^ 14
  /\ exists increment,
       AuctionEvaluator.min_next_bid
         {| AuctionEvaluator.tokenId := 7;
            AuctionEvaluator.currentBid := 1001;
            AuctionEvaluator.currentBidder := Samples.address_1;
            AuctionEvaluator.startTime := 0;
            AuctionEvaluator.endTime := 86400;
            AuctionEvaluator.reservePrice := 8 * 10 ^ 14;
            AuctionEvaluator.incrementPct := 10;
            AuctionEvaluator.extensionWindow := 900;
            AuctionEvaluator.extensionDuration := 600 |}
       = 1001 + increment
       /\ 1001 * 10 <= 100 * increment
       /\ 100 * (increment - 1) < 1001 * 10.
Proof.
  split.
  - apply min_next_bid_rounds_up. reflexivity.
  - apply (min_next_bid_rounds_up
             {| AuctionEvaluator.tokenId := 7;
                AuctionEvaluator.currentBid := 1001;
                AuctionEvaluator.currentBidder := Samples.address_1;
                AuctionEvaluator.startTime := 0;
                AuctionEvaluator.endTime := 86400;
                AuctionEvaluator.reservePrice := 8 * 10 ^ 14;
                AuctionEvaluator.incrementPct := 10;
                AuctionEvaluator.extensionWindow := 900;
                AuctionEvaluator.extensionDuration := 600 |}).
    discriminate.
Defined.

(** * Further properties *)

(** ** vote.js: what is decided before the chain is asked *)

(** X1: a missing or empty proposal id, a missing support argument, a
    support value that is not 0, 1 or 2 and a missing or empty
    PRIVATE_KEY are all settled without the wallet and without the
    chain: two runs with the same command line and the same PRIVATE_KEY
    are then the same run.  The first two print the usage. *)
Theorem vote_preflight_offline (e e' : Vote.Env) :
  Vote.argv e = Vote.argv e' -> Vote.PRIVATE_KEY e = Vote.PRIVATE_KEY e' ->
  (Vote.main e = Vote.main e'
   \/ exists proposalId support key,
        Vote.argv e !! 2%nat = Some proposalId /\ proposalId <> ""
        /\ Vote.argv e !! 3%nat = Some support
        /\ includes_012 (parseInt support) = true
        /\ Vote.PRIVATE_KEY e = Some key /\ key <> "")
  /\ (falsy (Vote.argv e !! 2%nat) || is_undefined (Vote.argv e !! 3%nat) = true ->
      run (Vote.main e)
      = ([Error [Str "❌ Usage: node vote.js <proposal_id> <support> [reason]"];
          Error [Str "   Support: 0 = Against, 1 = For, 2 = Abstain"];
          Error [Str ("   Example: node vote.js 5 1 " +:+ dquote
                      +:+ "I support this proposal" +:+ dquote)]],
         Some 1)).
Proof.
  intros Hargv Hkey. split.
  - unfold Vote.main. rewrite <- Hargv, <- Hkey.
    destruct (Vote.argv e !! 2%nat) as [proposalId |] eqn:Hid;
      [| left; reflexivity].
    cbn [falsy].
    destruct (String.eqb_spec proposalId "") as [-> | Hne];
      [left; reflexivity |].
    destruct (Vote.argv e !! 3%nat) as [support |] eqn:Hsup;
      [| left; reflexivity].
    cbn [is_undefined orb default from_option id]. cbv zeta.
    destruct (includes_012 (parseInt support)) eqn:Hacc;
      [| left; reflexivity].
    cbn [negb].
    destruct (Vote.PRIVATE_KEY e) as [key |] eqn:Hk; [| left; reflexivity].
    cbn [falsy].
    destruct (String.eqb_spec key "") as [-> | Hkne]; [left; reflexivity |].
    right. exists proposalId, support, key. split_and!; (assumption || reflexivity).
  - intros Husage. unfold Vote.main. rewrite Husage. reflexivity.
Qed.

Lemma vote_preflight_offline_witness :
  Vote.main (Samples.voter "7" 2 Samples.address_1 1 false 90)
  = Vote.main (Samples.voter "7" 0 Samples.address_2 4 true 200).
Proof.
  destruct (vote_preflight_offline
              (Samples.voter "7" 2 Samples.address_1 1 false 90)
              (Samples.voter "7" 0 Samples.address_2 4 true 200)
              eq_refl eq_refl) as [[H | H] _].
  - exact H.
  - destruct H as (proposalId & support & key & _ & _ & Hsup & Hacc & _).
    injection Hsup as <-. discriminate Hacc.
Defined.

(** ** vote.js: a private key the wallet does not take *)

Lemma main_wallet_throws (e : Vote.Env)
    (proposalId support key message : string) :
  Vote.argv e !! 2%nat = Some proposalId -> proposalId <> "" ->
  Vote.argv e !! 3%nat = Some support ->
  includes_012 (parseInt support) = true ->
  Vote.PRIVATE_KEY e = Some key -> key <> "" ->
  Vote.Wallet e key = Throw message ->
  Vote.main e = ([], Threw message).
Proof.
  intros Hid Hne Hsup Hacc Hkey Hkne Hwallet.
  rewrite (main_with_args e proposalId support Hid Hne Hsup), Hacc, Hkey.
  apply String.eqb_neq in Hkne. cbn [negb falsy]. rewrite Hkne.
  cbn [default from_option id]. rewrite Hwallet. reflexivity.
Qed.

(** X2: when the wallet cannot be built from PRIVATE_KEY, the error
    leaves [main] (the wallet is built outside [try]): it is printed by
    the final [catch], no usage is shown, nothing is read from the chain
    or sent, and the exit code is 0. *)
Theorem vote_invalid_key_exits_0 (e : Vote.Env)
    (proposalId support key message : string) :
  Vote.argv e !! 2%nat = Some proposalId -> proposalId <> "" ->
  Vote.argv e !! 3%nat = Some support ->
  includes_012 (parseInt support) = true ->
  Vote.PRIVATE_KEY e = Some key -> key <> "" ->
  Vote.Wallet e key = Throw message ->
  run (Vote.main e) = ([Error [Str message]], Some 0).
Proof.
  intros Hid Hne Hsup Hacc Hkey Hkne Hwallet.
  rewrite (main_wallet_throws e proposalId support key message
             Hid Hne Hsup Hacc Hkey Hkne Hwallet).
  reflexivity.
Qed.

Lemma vote_invalid_key_exits_0_witness :
  run (Vote.main (MoreSamples.voter_with (Throw "invalid private key")
                    (Throw "unused")))
  = ([Error [Str "invalid private key"]], Some 0).
Proof.
  apply (vote_invalid_key_exits_0 _ "5" "1" Samples.key_1);
    first [reflexivity | discriminate].
Defined.

(** ** vote.js: how a run ends *)



Lemma exit_code (m : M unit) :
  (run m).2 =
  match m.2 with
  | Return _ => Some 0
  | Exited c => Some c
  | Threw _ => Some 0
  | Diverged => None
  end.
Proof. destruct m as [t [a | c | x |]]; reflexivity. Qed.





Lemma uint_arg_accepted (x : number) :
  includes_012 x = true ->
  number_value x = Some (uint_arg x)
  /\ (uint_arg x = 0 \/ uint_arg x = 1 \/ uint_arg x = 2).
Proof.
  intros H. apply includes_012_value in H. unfold uint_arg.
  destruct H as [-> | [-> | ->]]; cbn; auto.
Qed.

(** A run that sends a transaction has passed every check. *)
Lemma vote_sent_passing (e : Vote.Env) (c : Call) :
  c ∈ sent (run (Vote.main e)).1 ->
  exists proposalId support key address balance delegate proposal currentBlock,
    Vote.argv e !! 2%nat = Some proposalId /\ proposalId <> ""
    /\ Vote.argv e !! 3%nat = Some support
    /\ includes_012 (parseInt support) = true
    /\ Vote.PRIVATE_KEY e = Some key /\ key <> ""
    /\ Vote.Wallet e key = Ok address
    /\ Vote.tokenContract_balanceOf e address = Ok balance /\ balance <> 0
    /\ Vote.tokenContract_delegates e address = Ok delegate
    /\ Vote.governorContract_state e proposalId = Ok 1
    /\ Vote.governorContract_proposals e proposalId = Ok proposal
    /\ Vote.governorContract_hasVoted e proposalId address = Ok false
    /\ Vote.provider_getBlockNumber e = Ok currentBlock
    /\ sent (run (Vote.main e)).1 = [c]
    /\ c = Vote.vote_call proposalId (parseInt support)
             (or_else (Vote.argv e !! 4%nat) "").
Proof.
  intros Hc.
  assert (Hsent : sent (run (Vote.main e)).1 <> [])
    by (intros Hnil; rewrite Hnil in Hc; inversion Hc).
  destruct (Vote.argv e !! 2%nat) as [proposalId |] eqn:Hid.
  2: { exfalso. apply Hsent. unfold Vote.main. rewrite Hid. reflexivity. }
  destruct (String.eqb_spec proposalId "") as [-> | Hne].
  { exfalso. apply Hsent. unfold Vote.main. rewrite Hid. reflexivity. }
  destruct (Vote.argv e !! 3%nat) as [support |] eqn:Hsup.
  2: { exfalso. apply Hsent. unfold Vote.main. rewrite Hid, Hsup.
       apply String.eqb_neq in Hne. cbn [falsy]. rewrite Hne. reflexivity. }
  destruct (includes_012 (parseInt support)) eqn:Hacc.
  2: { exfalso. apply Hsent.
       apply (rejected_invalid_support e proposalId support Hid Hne Hsup Hacc). }
  destruct (vote_paths e proposalId support Hid Hne Hsup Hacc) as (Hpath & _ & _).
  destruct (Hpath Hsent)
    as (key & address & balance & proposal & currentBlock
        & Hkey & Hkne & Hwallet & Hb & Hpower & Hs & Hp & Hv & Hblock).
  assert (Hd : exists delegate, Vote.tokenContract_delegates e address = Ok delegate).
  { destruct (Vote.tokenContract_delegates e address) as [d | m] eqn:Hd;
      [eexists; reflexivity |].
    exfalso. apply Hsent.
    rewrite (main_with_wallet e proposalId support Hid Hne Hsup key address
               Hacc Hkey Hkne Hwallet).
    unfold Vote.main_try. rewrite Hb. cbn [await]. rewrite bind_ret_l.
    apply Z.eqb_neq in Hpower. run_checks. rewrite Hpower, Hd. run_checks.
    destruct (negb (String.eqb _ "")); split_includes; reflexivity. }
  destruct Hd as [delegate Hd].
  pose proof (vote_submitted e proposalId support Hid Hne Hsup key address
                Hacc Hkey Hkne Hwallet balance delegate 1 proposal
                Hb Hpower Hd Hs Hp eq_refl currentBlock Hv Hblock) as Hone.
  rewrite Hone in Hc. apply list_elem_of_singleton in Hc.
  exists proposalId, support, key, address, balance, delegate, proposal,
         currentBlock.
  split_and!; try assumption; try reflexivity.
  rewrite Hone, Hc. reflexivity.
Qed.

(** X3: whatever the command line, the environment and the chain, a run
    of vote.js sends at most one transaction; when it sends one, that is
    the vote on the proposal id of the command line, taken as it is,
    with the parsed support value, which is 0, 1 or 2; it carries the
    reason with the gas limit 300000 when a reason is given and not
    empty, and no reason with the gas limit 250000 otherwise. *)
Theorem vote_sends_at_most_one (e : Vote.Env) (c : Call) :
  c ∈ sent (run (Vote.main e)).1 ->
  sent (run (Vote.main e)).1 = [c]
  /\ Vote.argv e !! 2%nat = Some (call_proposal c)
  /\ (call_support c = 0 \/ call_support c = 1 \/ call_support c = 2)
  /\ (exists support,
        Vote.argv e !! 3%nat = Some support
        /\ number_value (parseInt support) = Some (call_support c))
  /\ match c with
     | castVote _ _ gasLimit =>
       gasLimit = 250000 /\ falsy (Vote.argv e !! 4%nat) = true
     | castVoteWithReason _ _ reason gasLimit =>
       gasLimit = 300000 /\ Vote.argv e !! 4%nat = Some reason /\ reason <> ""
     end.
Proof.
  intros Hc.
  destruct (vote_sent_passing e c Hc)
    as (proposalId & support & key & address & balance & delegate & proposal
        & currentBlock & Hid & Hne & Hsup & Hacc & _ & _ & _ & _ & _ & _ & _
        & _ & _ & _ & Hone & ->).
  split; [exact Hone |]. clear Hone Hc.
  destruct (uint_arg_accepted (parseInt support) Hacc) as [Hval Hrange].
  unfold Vote.vote_call, or_else.
  destruct (Vote.argv e !! 4%nat) as [reason |] eqn:Hreason;
    cbn [falsy]; cbv beta iota.
  - destruct (String.eqb_spec reason "") as [-> | Hrne];
      [rewrite String.eqb_refl | apply String.eqb_neq in Hrne as Hrne';
                                 rewrite ?Hrne'];
      cbn [negb call_proposal call_support String.eqb];
      split_and!; try reflexivity; try assumption; eauto.
  - cbn [negb call_proposal call_support String.eqb].
    split_and!; try reflexivity; try assumption; eauto.
Qed.

Lemma vote_sends_at_most_one_witness :
  sent (run (Vote.main (Samples.voter "2x" 2 Samples.address_1 1 false 90))).1
  = [castVote "5" 2 250000].
Proof.
  apply (vote_sends_at_most_one
           (Samples.voter "2x" 2 Samples.address_1 1 false 90)
           (castVote "5" 2 250000)).
  apply elem_of_cons. left. reflexivity.
Defined.



(** ** vote.js: a run that passes the four checks *)

Section VoteRuns.

Import Vote.

Variable e : Env.
Variables proposalId support key address delegate : string.
Variables (balance : Z) (proposal : Governor.Proposal) (currentBlock : Z).
Hypothesis Hid : argv e !! 2%nat = Some proposalId.
Hypothesis Hne : proposalId <> "".
Hypothesis Hsup : argv e !! 3%nat = Some support.
Hypothesis Hacc : includes_012 (parseInt support) = true.
Hypothesis Hkey : PRIVATE_KEY e = Some key.
Hypothesis Hkne : key <> "".
Hypothesis Hwallet : Wallet e key = Ok address.
Hypothesis Hbalance : tokenContract_balanceOf e address = Ok balance.
Hypothesis Hpower : balance <> 0.
Hypothesis Hdelegate : tokenContract_delegates e address = Ok delegate.
Hypothesis Hstate : governorContract_state e proposalId = Ok 1.
Hypothesis Hproposal : governorContract_proposals e proposalId = Ok proposal.
Hypothesis Hvoted : governorContract_hasVoted e proposalId address = Ok false.
Hypothesis Hblock : provider_getBlockNumber e = Ok currentBlock.

Let reason : string := or_else (argv e !! 4%nat) "".
Let call : Call := vote_call proposalId (parseInt support) reason.

(** What is printed before the delegation check, what that check
    prints, and what is printed from there to the submission. *)
Let opening : list Event :=
  [Log [Str ("🗳️  BASED DAO Vote" +:+ nl)];
   Log [Str "Voter:"; Str address];
   Log [Str "Proposal ID:"; Str proposalId];
   Log [Str "Vote:";
        from_option Str Undefined
          (k ← key_of (parseInt support); SUPPORT !! k)]]
  ++ (if negb (String.eqb reason "") then [Log [Str "Reason:"; Str reason]]
      else [])
  ++ [Log []; Log [Str "Your NFTs:"; Num balance]].

Let advisory : list Event :=
  if String.eqb delegate ZeroAddress then
    [Log [Str "⚠️  Warning: Your voting power is not delegated."];
     Log [Str "   You may need to delegate to yourself to vote."];
     Log [Str "   Check: https://nouns.build/dao/base/0x10a5676ec8ae3d6b1f36a6f1a1526136ba7938bf"]]
  else if negb (String.eqb (toLowerCase delegate) (toLowerCase address)) then
    [Log [Str "⚠️  Warning: Your votes are delegated to:"; Str delegate];
     Log [Str "   Only the delegate can vote with your voting power."]]
  else [].

Let status : list Event :=
  [Log [Str (nl +:+ "📊 Proposal Status:")];
   Log [Str "State:"; Str (stateName (Number 1))];
   Log [Str "For:"; Ether (Governor.forVotes proposal); Str "votes"];
   Log [Str "Against:"; Ether (Governor.againstVotes proposal); Str "votes"];
   Log [Str "Abstain:"; Ether (Governor.abstainVotes proposal); Str "votes"];
   Log [Template [Str (nl +:+ "Voting ends in: ~");
                  Num (hoursLeft (blocksLeft proposal currentBlock));
                  Str " hours (";
                  Num (blocksLeft proposal currentBlock); Str " blocks)"]];
   Log [Str (nl +:+ "📤 Submitting vote...")]].

(** The submission, its confirmation and, when either fails, the [catch]
    block. *)
Let submission : M unit :=
  try_catch
    (emit (Send call);;
     let* tx := await (governorContract_send e call) in
     console_log [Str "Transaction:"; Str (Governor.hash tx)];;
     console_log [Str "Waiting for confirmation..."];;
     let* receipt := await (Governor.wait tx) in
     console_log [Str "✅ Vote cast!"];;
     console_log [Str "Block:"; Num (Governor.blockNumber receipt)];;
     console_log [Str "Gas used:"; Num (Governor.gasUsed receipt)];;
     let gasCost := Governor.gasUsed receipt * Governor.gasPrice receipt in
     console_log [Str "Gas cost:"; Ether gasCost; Str "ETH"];;
     console_log [Str (nl +:+ "🎉 Your vote has been recorded!")];;
     console_log
       [Template [Str "View proposal: https://nouns.build/dao/base/0x10a5676ec8ae3d6b1f36a6f1a1526136ba7938bf/vote/";
                  Str proposalId]])
    main_catch.

Lemma main_passing :
  main e = (opening ++ advisory ++ status ++ submission.1, submission.2).
Proof.
  rewrite (main_with_wallet e proposalId support Hid Hne Hsup key address
             Hacc Hkey Hkne Hwallet).
  rewrite (checks_submit e proposalId support address balance delegate 1
             proposal Hbalance Hpower Hdelegate Hstate Hproposal eq_refl
             currentBlock Hvoted Hblock).
  cbv zeta. fold reason. fold call. fold submission. fold advisory.
  cbn [fst snd]. subst opening status.
  rewrite <- !app_assoc. reflexivity.
Qed.

(** The line of the [catch] block that explains a known error. *)
Let hint (message : string) : list (list Piece) :=
  if includes message "User already voted" then
    [[Str "   → You have already voted on this proposal"]]
  else if includes message "Proposal not active" then
    [[Str "   → Proposal is not currently active"]]
  else if includes message "insufficient funds" then
    [[Str "   → Insufficient ETH for gas"]]
  else [].

Lemma submission_fails (message : string) :
  governorContract_send e call = Throw message
  \/ (exists tx, governorContract_send e call = Ok tx
                 /\ Governor.wait tx = Throw message) ->
  submission.2 = Exited 1
  /\ errors submission.1 = [Str "❌ Error:"; Str message] :: hint message.
Proof.
  subst submission hint. cbv beta.
  intros [Hsend | (tx & Hsend & Hwait)]; rewrite Hsend; run_checks;
    rewrite ?Hwait; run_checks; split_includes; split; reflexivity.
Qed.

Lemma observe_passing {X} (g : Event -> option X) :
  omap g opening = [] -> omap g status = [] ->
  omap g (run (main e)).1 = omap g advisory ++ omap g (run submission).1.
Proof.
  intros Ho Hs. rewrite main_passing.
  assert (Hrun : forall t (m : M unit),
             (run (t ++ m.1, m.2)).1 = t ++ (run m).1).
  { intros t [u [| | |]]; cbn [run fst snd]; rewrite ?app_assoc; reflexivity. }
  rewrite !app_assoc, Hrun, <- !app_assoc, !omap_app, Ho, Hs. reflexivity.
Qed.

Lemma errors_opening : errors opening = [].
Proof. subst opening. destruct (negb (String.eqb reason "")); reflexivity. Qed.

Lemma warnings_opening : warnings opening = [].
Proof. subst opening. destruct (negb (String.eqb reason "")); reflexivity. Qed.

Lemma errors_advisory : errors advisory = [].
Proof.
  subst advisory.
  destruct (String.eqb delegate ZeroAddress);
    [| destruct (negb (String.eqb (toLowerCase delegate) (toLowerCase address)))];
    reflexivity.
Qed.

Lemma vote_passing_submission_fails (message : string) :
  governorContract_send e call = Throw message
  \/ (exists tx, governorContract_send e call = Ok tx
                 /\ Governor.wait tx = Throw message) ->
  let r := run (main e) in
  r.2 = Some 1
  /\ sent r.1 = [call]
  /\ errors r.1 = [Str "❌ Error:"; Str message] :: hint message.
Proof.
  intros Hfail r. subst r.
  destruct (submission_fails message Hfail) as [Hexit Herr].
  split_and!.
  - rewrite exit_code, main_passing. cbn [snd]. rewrite Hexit. reflexivity.
  - eapply vote_submitted; eauto.
  - unfold errors in *.
    rewrite (observe_passing error_line errors_opening eq_refl).
    fold (errors advisory). rewrite errors_advisory.
    destruct submission as [t o]. cbn [snd] in Hexit. subst o.
    exact Herr.
Qed.

Lemma warnings_submission : warnings (run submission).1 = [].
Proof.
  subst submission. run_checks.
  destruct (governorContract_send e call) as [tx | m]; run_checks.
  1: destruct (Governor.wait tx) as [receipt | m]; run_checks.
  all: split_includes; reflexivity.
Qed.

Lemma vote_passing_warnings :
  warnings (run (main e)).1 =
  if String.eqb delegate ZeroAddress then
    [Log [Str "⚠️  Warning: Your voting power is not delegated."]]
  else if negb (String.eqb (toLowerCase delegate) (toLowerCase address)) then
    [Log [Str "⚠️  Warning: Your votes are delegated to:"; Str delegate]]
  else [].
Proof.
  unfold warnings in *.
  rewrite (observe_passing warning_line warnings_opening eq_refl).
  fold (warnings (run submission).1). rewrite warnings_submission, app_nil_r.
  subst advisory.
  destruct (String.eqb delegate ZeroAddress);
    [| destruct (negb (String.eqb (toLowerCase delegate) (toLowerCase address)))];
    reflexivity.
Qed.

End VoteRuns.

(** ** vote.js: a vote that does not go through *)

(** X5: when the four checks pass and the transaction is refused, or its
    confirmation fails, the message of the error is printed as it is
    after "Error:", followed by at most one explanation (already voted,
    before not active, before insufficient funds); the run ends with the
    exit code 1 and the transaction is not sent a second time. *)
Theorem vote_submission_failure (e : Vote.Env)
    (proposalId support key address delegate : string) (balance : Z)
    (proposal : Governor.Proposal) (currentBlock : Z) (message : string) :
  Vote.argv e !! 2%nat = Some proposalId -> proposalId <> "" ->
  Vote.argv e !! 3%nat = Some support ->
  includes_012 (parseInt support) = true ->
  Vote.PRIVATE_KEY e = Some key -> key <> "" ->
  Vote.Wallet e key = Ok address ->
  Vote.tokenContract_balanceOf e address = Ok balance -> balance <> 0 ->
  Vote.tokenContract_delegates e address = Ok delegate ->
  Vote.governorContract_state e proposalId = Ok 1 ->
  Vote.governorContract_proposals e proposalId = Ok proposal ->
  Vote.governorContract_hasVoted e proposalId address = Ok false ->
  Vote.provider_getBlockNumber e = Ok currentBlock ->
  let call := Vote.vote_call proposalId (parseInt support)
                (or_else (Vote.argv e !! 4%nat) "") in
  Vote.governorContract_send e call = Throw message
  \/ (exists tx, Vote.governorContract_send e call = Ok tx
                 /\ Governor.wait tx = Throw message) ->
  let r := run (Vote.main e) in
  r.2 = Some 1
  /\ sent r.1 = [call]
  /\ errors r.1 =
       [Str "❌ Error:"; Str message]
       :: (if includes message "User already voted" then
             [[Str "   → You have already voted on this proposal"]]
           else if includes message "Proposal not active" then
             [[Str "   → Proposal is not currently active"]]
           else if includes message "insufficient funds" then
             [[Str "   → Insufficient ETH for gas"]]
           else []).
Proof.
  intros Hid Hne Hsup Hacc Hkey Hkne Hwallet Hb Hpower Hd Hs Hp Hv Hblock
    call Hfail.
  exact (vote_passing_submission_fails e proposalId support key address
           delegate balance proposal currentBlock Hid Hne Hsup Hacc Hkey Hkne
           Hwallet Hb Hpower Hd Hs Hp Hv Hblock message Hfail).
Qed.

Lemma vote_submission_failure_witness :
  let r := run (Vote.main
                  (MoreSamples.voter_with (Ok Samples.address_1)
                     (Throw "insufficient funds for gas * price + value"))) in
  r.2 = Some 1
  /\ sent r.1 = [castVote "5" 1 250000]
  /\ errors r.1 =
       [[Str "❌ Error:"; Str "insufficient funds for gas * price + value"];
        [Str "   → Insufficient ETH for gas"]].
Proof.
  apply (vote_submission_failure
           (MoreSamples.voter_with (Ok Samples.address_1)
              (Throw "insufficient funds for gas * price + value"))
           "5" "1" Samples.key_1 Samples.address_1 Samples.address_1 2
           Samples.proposal_100 90
           "insufficient funds for gas * price + value");
    first [reflexivity | discriminate | lia | (left; reflexivity)].
Defined.

(** ** vote.js: when the delegation is warned about *)

(** X6: in a run that passes the four checks, no warning is printed
    exactly when the delegate is not the zero address and is the
    voter's address up to the case of its letters; otherwise one warning
    is printed, the one for the zero address or the one that names the
    delegate. *)
Theorem vote_warning_iff (e : Vote.Env)
    (proposalId support key address delegate : string) (balance : Z)
    (proposal : Governor.Proposal) (currentBlock : Z) :
  Vote.argv e !! 2%nat = Some proposalId -> proposalId <> "" ->
  Vote.argv e !! 3%nat = Some support ->
  includes_012 (parseInt support) = true ->
  Vote.PRIVATE_KEY e = Some key -> key <> "" ->
  Vote.Wallet e key = Ok address ->
  Vote.tokenContract_balanceOf e address = Ok balance -> balance <> 0 ->
  Vote.tokenContract_delegates e address = Ok delegate ->
  Vote.governorContract_state e proposalId = Ok 1 ->
  Vote.governorContract_proposals e proposalId = Ok proposal ->
  Vote.governorContract_hasVoted e proposalId address = Ok false ->
  Vote.provider_getBlockNumber e = Ok currentBlock ->
  let w := warnings (run (Vote.main e)).1 in
  (w = [] <->
   delegate <> Vote.ZeroAddress /\ toLowerCase delegate = toLowerCase address)
  /\ (delegate = Vote.ZeroAddress ->
      w = [Log [Str "⚠️  Warning: Your voting power is not delegated."]])
  /\ (delegate <> Vote.ZeroAddress ->
      toLowerCase delegate <> toLowerCase address ->
      w = [Log [Str "⚠️  Warning: Your votes are delegated to:"; Str delegate]]).
Proof.
  intros Hid Hne Hsup Hacc Hkey Hkne Hwallet Hb Hpower Hd Hs Hp Hv Hblock w.
  subst w.
  rewrite (vote_passing_warnings e proposalId support key address delegate
             balance proposal currentBlock Hid Hne Hsup Hacc Hkey Hkne
             Hwallet Hb Hpower Hd Hs Hp Hv Hblock).
  destruct (String.eqb_spec delegate Vote.ZeroAddress) as [Hz | Hz];
    [| destruct (String.eqb_spec (toLowerCase delegate) (toLowerCase address))
         as [Hl | Hl]];
    cbn [negb]; split_and!; try split;
    try (intros; reflexivity); try (intros; discriminate);
    try (intros; tauto); try (intros; contradiction).
Qed.

Lemma vote_warning_iff_witness :
  warnings
    (run (Vote.main
            (Samples.voter "1" 2 (toLowerCase Samples.address_1) 1 false 90))).1
  = [].
Proof.
  apply (vote_warning_iff
           (Samples.voter "1" 2 (toLowerCase Samples.address_1) 1 false 90)
           "5" "1" Samples.key_1 Samples.address_1
           (toLowerCase Samples.address_1) 2 Samples.proposal_100 90);
    first [reflexivity | discriminate | lia | (split; [discriminate | reflexivity])].
Defined.

(** ** [parseInt]: what follows the number *)

Lemma parseInt_steps (s : string) :
  parseInt s =
  let '(sign, s1) := strip_sign (trimStart s) in
  let '(R, s2) := strip_prefix s1 in
  match digits R None s2 with
  | None => NaN
  | Some mathInt => Int sign mathInt
  end.
Proof. reflexivity. Qed.

Lemma append_nil_l (u : string) : "" +:+ u = u.
Proof. reflexivity. Qed.

Lemma append_cons (a : ascii) (r u : string) :
  String a r +:+ u = String a (r +:+ u).
Proof. reflexivity. Qed.

Lemma strip_sign_cons (a : ascii) (r : string) :
  strip_sign (String a r) =
  if Ascii.eqb a "-" then (true, r)
  else if Ascii.eqb a "+" then (false, r)
  else (false, String a r).
Proof. destruct a as [[] [] [] [] [] [] [] []]; reflexivity. Qed.

Lemma strip_prefix_1 (a : ascii) : strip_prefix (String a "") = (10%N, String a "").
Proof. destruct a as [[] [] [] [] [] [] [] []]; reflexivity. Qed.

Lemma strip_prefix_2 (a b : ascii) (r : string) :
  strip_prefix (String a (String b r)) =
  if Ascii.eqb a "0" && (Ascii.eqb b "x" || Ascii.eqb b "X") then (16%N, r)
  else (10%N, String a (String b r)).
Proof.
  destruct a as [[] [] [] [] [] [] [] []]; try reflexivity.
  destruct b as [[] [] [] [] [] [] [] []]; reflexivity.
Qed.

Lemma plain_code (a : ascii) :
  (33 <= N_of_ascii a <= 127)%N -> plain a.
Proof.
  intros H. unfold plain, ws1, ws2, ws3. cbv zeta.
  set (n := N_of_ascii a) in *.
  assert (E1 : (n <=? 13)%N = false) by (apply N.leb_gt; lia).
  assert (E2 : (n =? 32)%N = false) by (apply N.eqb_neq; lia).
  assert (E3 : (n =? 194)%N = false) by (apply N.eqb_neq; lia).
  assert (E4 : (n =? 225)%N = false) by (apply N.eqb_neq; lia).
  assert (E5 : (n =? 226)%N = false) by (apply N.eqb_neq; lia).
  assert (E6 : (n =? 227)%N = false) by (apply N.eqb_neq; lia).
  assert (E7 : (n =? 239)%N = false) by (apply N.eqb_neq; lia).
  rewrite E1, E2, E3, E4, E5, E6, E7, andb_false_r. cbn. auto.
Qed.

Lemma digit_plain (radix : N) (a : ascii) (d : N) :
  digit_value radix a = Some d -> plain a.
Proof.
  unfold digit_value. cbv zeta. intros H. apply plain_code.
  set (n := N_of_ascii a) in *.
  destruct (N.leb_spec 48 n), (N.leb_spec n 57), (N.leb_spec 97 n),
           (N.leb_spec n 102), (N.leb_spec 65 n), (N.leb_spec n 70);
    cbn in H; try discriminate H; try lia.
Qed.

Lemma trimStart_app (u : string) (n : nat) :
  forall s a r,
    (String.length s <= n)%nat ->
    trimStart s = String a r -> plain a ->
    trimStart (s +:+ u) = String a (r +:+ u).
Proof.
  induction n as [| n IH]; intros s a r Hlen Htrim Hplain.
  - destruct s; [discriminate Htrim | simpl in Hlen; lia].
  - destruct s as [| x r1]; [discriminate Htrim |].
    simpl in Hlen.
    change (String x r1 +:+ u) with (String x (r1 +:+ u)).
    cbn [trimStart] in *.
    destruct (ws1 x) eqn:Hx.
    { apply IH; [lia | assumption | assumption]. }
    destruct r1 as [| b r2].
    { injection Htrim as -> <-. destruct Hplain as (_ & H2 & H3).
      change ("" +:+ u) with u. destruct u as [| b u]; [reflexivity |].
      rewrite H2. destruct u as [| c u]; [reflexivity |].
      rewrite H3. reflexivity. }
    simpl in Hlen.
    change (String b r2 +:+ u) with (String b (r2 +:+ u)). cbv beta iota.
    destruct (ws2 x b) eqn:Hxb.
    { apply IH; [lia | assumption | assumption]. }
    destruct r2 as [| c r3].
    { injection Htrim as -> <-. destruct Hplain as (_ & H2 & H3).
      change ("" +:+ u) with u. destruct u as [| c u]; [reflexivity |].
      rewrite H3. reflexivity. }
    simpl in Hlen.
    change (String c r3 +:+ u) with (String c (r3 +:+ u)). cbv beta iota.
    destruct (ws3 x b c) eqn:Hxbc.
    { apply IH; [lia | assumption | assumption]. }
    injection Htrim as -> <-. reflexivity.
Qed.

Lemma digit_value_16_10 (c : ascii) :
  digit_value 16 c = None -> digit_value 10 c = None.
Proof.
  unfold digit_value. cbv zeta.
  destruct (if (_ && _)%bool then _ else _) as [d |]; [| reflexivity].
  destruct (N.ltb_spec d 16); [discriminate |].
  intros _. destruct (N.ltb_spec d 10); [lia | reflexivity].
Qed.

Lemma digits_app (radix : N) (c : ascii) (rest : string) :
  digit_value radix c = None ->
  forall s acc, digits radix acc (s +:+ String c rest) = digits radix acc s.
Proof.
  intros Hc s. induction s as [| a r IH]; intros acc.
  - change ("" +:+ String c rest) with (String c rest). cbn [digits].
    rewrite Hc. reflexivity.
  - change (String a r +:+ String c rest) with (String a (r +:+ String c rest)).
    cbn [digits].
    destruct (digit_value radix a); [apply IH | reflexivity].
Qed.

(** Characters after the number do not count. *)
Lemma parseInt_ignores_tail (s : string) (c : ascii) (rest : string) :
  parseInt s <> NaN ->
  digit_value 16 c = None -> c <> "x"%char -> c <> "X"%char ->
  parseInt (s +:+ String c rest) = parseInt s.
Proof.
  intros Hnum Hc Hx HX. rewrite !parseInt_steps in *.
  destruct (trimStart s) as [| a r] eqn:Htrim; [exfalso; apply Hnum; reflexivity |].
  assert (Hplain : plain a).
  { rewrite strip_sign_cons in Hnum.
    destruct (Ascii.eqb_spec a "-") as [-> | _]; [apply plain_code; cbn; lia |].
    destruct (Ascii.eqb_spec a "+") as [-> | _]; [apply plain_code; cbn; lia |].
    destruct r as [| b r'].
    - rewrite strip_prefix_1 in Hnum. cbn [digits] in Hnum.
      destruct (digit_value 10 a) as [d |] eqn:Hd;
        [eapply digit_plain; exact Hd | exfalso; apply Hnum; reflexivity].
    - rewrite strip_prefix_2 in Hnum.
      destruct (Ascii.eqb_spec a "0") as [-> | _]; [apply plain_code; cbn; lia |].
      cbn [andb digits] in Hnum.
      destruct (digit_value 10 a) as [d |] eqn:Hd;
        [eapply digit_plain; exact Hd | exfalso; apply Hnum; reflexivity]. }
  rewrite (trimStart_app _ (String.length s) s a r (le_n _) Htrim Hplain).
  rewrite !strip_sign_cons.
  assert (Hprefix : forall t,
             strip_prefix (t +:+ String c rest)
             = ((strip_prefix t).1, (strip_prefix t).2 +:+ String c rest)).
  { intros t.
    destruct t as [| a1 [| b1 t']]; rewrite ?append_cons, ?append_nil_l.
    - destruct rest as [| b rest'];
        [rewrite strip_prefix_1 | rewrite strip_prefix_2]; try reflexivity.
      destruct (Ascii.eqb_spec c "0") as [-> | _]; [discriminate Hc | reflexivity].
    - rewrite strip_prefix_1, strip_prefix_2.
      apply Ascii.eqb_neq in Hx, HX. rewrite Hx, HX, andb_false_r. reflexivity.
    - rewrite !strip_prefix_2.
      destruct (Ascii.eqb a1 "0" && (Ascii.eqb b1 "x" || Ascii.eqb b1 "X"));
        reflexivity. }
  assert (Hdigits : forall t,
             (let '(R, s2) := strip_prefix (t +:+ String c rest) in
              digits R None s2)
             = (let '(R, s2) := strip_prefix t in digits R None s2)).
  { intros t. rewrite Hprefix. destruct (strip_prefix t) as [R s2] eqn:Hp.
    cbn [fst snd]. apply digits_app.
    assert (HR : R = 10%N \/ R = 16%N).
    { destruct t as [| a1 [| b1 t']].
      - injection Hp as <- _. left. reflexivity.
      - rewrite strip_prefix_1 in Hp. injection Hp as <- _. left. reflexivity.
      - rewrite strip_prefix_2 in Hp.
        destruct (_ && _)%bool; injection Hp as <- _; auto. }
    destruct HR as [-> | ->]; [apply digit_value_16_10 |]; exact Hc. }
  destruct (Ascii.eqb a "-");
    [| destruct (Ascii.eqb a "+")].
  - specialize (Hdigits r). destruct (strip_prefix (r +:+ String c rest)),
      (strip_prefix r). rewrite Hdigits. reflexivity.
  - specialize (Hdigits r). destruct (strip_prefix (r +:+ String c rest)),
      (strip_prefix r). rewrite Hdigits. reflexivity.
  - specialize (Hdigits (String a r)). rewrite append_cons in Hdigits.
    destruct (strip_prefix (String a (r +:+ String c rest))),
      (strip_prefix (String a r)). rewrite Hdigits. reflexivity.
Qed.

(** X7: vote.js looks at its support argument through [parseInt] only,
    and characters after the number do not count: when the argument
    holds a number, the run is the same with anything appended that
    starts with a character that is neither a hexadecimal digit nor x or
    X ("1", "1.9", "1 " and "1votes" all vote For). *)
Theorem vote_support_tail_ignored (e : Vote.Env) (support : string)
    (c : ascii) (rest : string) :
  Vote.argv e !! 3%nat = Some support ->
  parseInt support <> NaN ->
  digit_value 16 c = None -> c <> "x"%char -> c <> "X"%char ->
  Vote.main (with_support e (support +:+ String c rest)) = Vote.main e.
Proof.
  intros Hsup Hnum Hc Hx HX.
  assert (Hlen : (3 < length (Vote.argv e))%nat)
    by (apply lookup_lt_is_Some; eexists; exact Hsup).
  unfold Vote.main, with_support.
  cbn [Vote.argv Vote.PRIVATE_KEY Vote.Wallet].
  rewrite list_lookup_insert_eq by exact Hlen.
  rewrite !list_lookup_insert_ne by lia.
  rewrite Hsup. cbn [default from_option id is_undefined].
  rewrite (parseInt_ignores_tail support c rest Hnum Hc Hx HX).
  reflexivity.
Qed.

Lemma vote_support_tail_ignored_witness :
  Vote.main
    (with_support (Samples.voter "1" 2 Samples.address_1 1 false 90)
       ("1" +:+ String "v" "otes"))
  = Vote.main (Samples.voter "1" 2 Samples.address_1 1 false 90).
Proof.
  apply (vote_support_tail_ignored
           (Samples.voter "1" 2 Samples.address_1 1 false 90) "1");
    [reflexivity | discriminate | reflexivity | discriminate | discriminate].
Defined.

(** ** check-proposals.js: the count of proposals comes first *)

(** X8: the count of proposals decides before any proposal is fetched.
    When its read fails, the message is printed after "Error:" and the
    exit code is 1; when it is 0, "No proposals yet." is printed and the
    exit code is 0.  In both cases no proposal is displayed, whatever
    the fetches and the block number would answer. *)
Theorem listing_count_first (e : CheckProposals.Env) :
  let r := run (CheckProposals.main e) in
  (forall message,
     CheckProposals.contract_proposalCount e = Throw message ->
     r.2 = Some 1
     /\ errors r.1 = [[Str "❌ Error:"; Str message]]
     /\ displayed r.1 = [])
  /\ (CheckProposals.contract_proposalCount e = Ok 0 ->
      r.2 = Some 0
      /\ last r.1 = Some (Log [Str "No proposals yet."])
      /\ errors r.1 = []
      /\ displayed r.1 = []).
Proof.
  intros r. subst r. unfold CheckProposals.main, CheckProposals.main_try.
  rewrite !await_catch_default. split.
  - intros message Hcount. rewrite Hcount.
    destruct (0 <? _); cbn; split_and!; reflexivity.
  - intros Hcount. rewrite Hcount.
    destruct (0 <? _); cbn; split_and!; reflexivity.
Qed.

Lemma listing_count_first_witness :
  let r :=
    run (CheckProposals.main
           (MoreSamples.governor_with ["node"; "check-proposals.js"]
              (Ok 86400) (Ok 0) (fun _ => Throw "no block"))) in
  r.2 = Some 0
  /\ last r.1 = Some (Log [Str "No proposals yet."])
  /\ errors r.1 = []
  /\ displayed r.1 = [].
Proof.
  apply (listing_count_first
           (MoreSamples.governor_with ["node"; "check-proposals.js"]
              (Ok 86400) (Ok 0) (fun _ => Throw "no block"))).
  reflexivity.
Defined.

(** ** check-proposals.js: the governance parameters *)

Lemma bind_ext {A B} (m : M A) (k k' : A -> M B) :
  (forall a, k a = k' a) -> bind m k = bind m k'.
Proof. intros H. destruct m as [t [a | c | x |]]; cbn; rewrite ?H; reflexivity. Qed.

Lemma fetch_loop_with_params (e : CheckProposals.Env) (d p t : Result Z)
    (showAll : bool) (n : nat) :
  forall i acc,
    CheckProposals.fetch_loop (with_params e d p t) showAll i n acc
    = CheckProposals.fetch_loop e showAll i n acc.
Proof.
  induction n as [| n IH]; intros i acc; [reflexivity |].
  cbn [CheckProposals.fetch_loop].
  change (CheckProposals.fetch_one (with_params e d p t) showAll i acc)
    with (CheckProposals.fetch_one e showAll i acc).
  apply bind_ext. intros acc'. apply IH.
Qed.

Lemma display_loop_with_params (e : CheckProposals.Env) (d p t : Result Z)
    (proposals : list CheckProposals.Entry) :
  forall k,
    CheckProposals.display_loop (with_params e d p t) k proposals
    = CheckProposals.display_loop e k proposals.
Proof.
  induction proposals as [| prop rest IH]; intros k; [reflexivity |].
  cbn [CheckProposals.display_loop].
  change (CheckProposals.display_one (with_params e d p t) k prop)
    with (CheckProposals.display_one e k prop).
  apply bind_ext. intros _. apply IH.
Qed.

Lemma main_try_with_params (e : CheckProposals.Env) (d p t : Result Z)
    (showAll : bool) :
  or_zero d = or_zero (CheckProposals.contract_votingDelay e) ->
  (0 < or_zero d ->
   or_zero p = or_zero (CheckProposals.contract_votingPeriod e)
   /\ or_zero t = or_zero (CheckProposals.contract_proposalThreshold e)) ->
  CheckProposals.main_try (with_params e d p t) showAll
  = CheckProposals.main_try e showAll.
Proof.
  intros Hd Hpt. unfold CheckProposals.main_try.
  cbn [with_params CheckProposals.contract_votingDelay
       CheckProposals.contract_votingPeriod
       CheckProposals.contract_proposalThreshold
       CheckProposals.contract_proposalCount].
  rewrite !await_catch_default. fold (or_zero d) (or_zero p) (or_zero t).
  fold (or_zero (CheckProposals.contract_votingDelay e))
       (or_zero (CheckProposals.contract_votingPeriod e))
       (or_zero (CheckProposals.contract_proposalThreshold e)).
  rewrite <- Hd.
  assert (Hblock : forall A (k1 k2 : unit -> M A),
             (forall u, k1 u = k2 u) ->
             bind (if 0 <? or_zero d then
                     console_log [Str "📊 Governance Parameters:"];;
                     console_log [Template [Str "Voting Delay: ";
                                            Quot (Number (or_zero d)) 86400;
                                            Str " days"]];;
                     console_log [Template [Str "Voting Period: ";
                                            Quot (Number (or_zero p)) 86400;
                                            Str " days"]];;
                     console_log [Template [Str "Proposal Threshold: ";
                                            Num (or_zero t);
                                            Str (" votes" +:+ nl)]]
                   else ret tt) k1
             = bind (if 0 <? or_zero d then
                       console_log [Str "📊 Governance Parameters:"];;
                       console_log [Template [Str "Voting Delay: ";
                                              Quot (Number (or_zero d)) 86400;
                                              Str " days"]];;
                       console_log
                         [Template
                            [Str "Voting Period: ";
                             Quot (Number (or_zero
                               (CheckProposals.contract_votingPeriod e))) 86400;
                             Str " days"]];;
                       console_log
                         [Template
                            [Str "Proposal Threshold: ";
                             Num (or_zero
                               (CheckProposals.contract_proposalThreshold e));
                             Str (" votes" +:+ nl)]]
                     else ret tt) k2).
  { intros A k1 k2 Hk.
    destruct (Z.ltb_spec 0 (or_zero d)) as [Hpos | _].
    - destruct (Hpt Hpos) as [-> ->]. apply bind_ext, Hk.
    - apply bind_ext, Hk. }
  apply Hblock. intros _.
  apply bind_ext. intros count. apply bind_ext. intros _.
  destruct (count =? 0); [reflexivity |].
  rewrite fetch_loop_with_params.
  apply bind_ext. intros proposals.
  destruct (length proposals =? 0)%nat; [reflexivity |].
  rewrite display_loop_with_params. reflexivity.
Qed.

(** X9: the reads of the governance parameters never fail the command: a
    read that fails counts as 0.  The parameters are printed only when
    the voting delay is positive: when its read fails or gives 0, the
    voting period and the threshold are not shown, the run is the same
    whatever they are. *)
Theorem listing_parameter_reads (e : CheckProposals.Env) :
  CheckProposals.main
    (with_params e
       (Ok (or_zero (CheckProposals.contract_votingDelay e)))
       (Ok (or_zero (CheckProposals.contract_votingPeriod e)))
       (Ok (or_zero (CheckProposals.contract_proposalThreshold e))))
  = CheckProposals.main e
  /\ (or_zero (CheckProposals.contract_votingDelay e) <= 0 ->
      forall votingPeriod proposalThreshold,
        CheckProposals.main
          (with_params e (CheckProposals.contract_votingDelay e)
             votingPeriod proposalThreshold)
        = CheckProposals.main e).
Proof.
  unfold CheckProposals.main. cbn [with_params CheckProposals.argv]. split.
  - rewrite main_try_with_params; [reflexivity | reflexivity |].
    intros _. split; reflexivity.
  - intros Hdelay votingPeriod proposalThreshold.
    rewrite main_try_with_params; [reflexivity | reflexivity |]. lia.
Qed.

Lemma listing_parameter_reads_witness :
  CheckProposals.main
    (with_params
       (MoreSamples.governor_with ["node"; "check-proposals.js"; "--all"]
          (Throw "timeout") (Ok 3) (fun _ => Ok 105))
       (Throw "timeout") (Throw "timeout") (Ok 1000))
  = CheckProposals.main
      (MoreSamples.governor_with ["node"; "check-proposals.js"; "--all"]
         (Throw "timeout") (Ok 3) (fun _ => Ok 105)).
Proof.
  apply (listing_parameter_reads
           (MoreSamples.governor_with ["node"; "check-proposals.js"; "--all"]
              (Throw "timeout") (Ok 3) (fun _ => Ok 105))).
  cbn. lia.
Defined.

(** ** check-proposals.js: which proposals are displayed *)

Lemma fetched_listed (e : CheckProposals.Env) (showAll : bool) (i : Z) :
  map CheckProposals.id (fetched e showAll i)
  = if listed e showAll i then [i] else [].
Proof.
  unfold fetched, listed, CheckProposals.fetch_one.
  destruct (CheckProposals.contract_proposals e i) as [p | m],
           (CheckProposals.contract_state e i) as [c | m'];
    cbn; try reflexivity.
  rewrite Number_eqb_1.
  destruct showAll, (c =? 1); reflexivity.
Qed.

Lemma fetched_all_listed (e : CheckProposals.Env) (showAll : bool)
    (l : list Z) :
  map CheckProposals.id (concat (map (fetched e showAll) l))
  = List.filter (listed e showAll) l.
Proof.
  induction l as [| i l IH]; [reflexivity |].
  cbn [map concat List.filter]. rewrite map_app, fetched_listed, IH.
  destruct (listed e showAll i); reflexivity.
Qed.

(** X10: the proposals displayed are, in increasing order, the indices
    from 1 to the count whose fetch succeeds and, without --all, whose
    state is 1: no other, none twice. *)
Theorem listing_displays_filter (e : CheckProposals.Env) (count : Z) :
  CheckProposals.contract_proposalCount e = Ok count ->
  0 < count < 2 ^ 53 ->
  (forall k, exists cur, CheckProposals.provider_getBlockNumber e k = Ok cur) ->
  displayed (run (CheckProposals.main e)).1
  = List.filter (listed e (bool_decide ("--all" ∈ CheckProposals.argv e)))
      (indices 1 (Z.to_nat count)).
Proof.
  intros Hcount Hrange Hblocks.
  set (showAll := bool_decide ("--all" ∈ CheckProposals.argv e)).
  pose proof (fetch_loop_fetched e showAll (Z.to_nat (Number count)) 1 [])
    as Hloop.
  cbn [app] in Hloop.
  destruct (main_listing e count _ Hcount Hrange Hloop Hblocks)
    as (_ & _ & Hd & _).
  rewrite Hd, fetched_all_listed, Number_safe by lia. reflexivity.
Qed.

Lemma listing_displays_filter_witness :
  displayed (run (CheckProposals.main Samples.governor_3)).1 = [1; 3].
Proof.
  rewrite (listing_displays_filter Samples.governor_3 3 eq_refl).
  - reflexivity.
  - split; reflexivity.
  - intros k. exists 105. reflexivity.
Defined.

(** ** check-proposals.js: the summary *)

Lemma count_state_bound (proposals : list CheckProposals.Entry) :
  0 <= CheckProposals.count_state 1 proposals
  /\ 0 <= CheckProposals.count_state 4 proposals
  /\ 0 <= CheckProposals.count_state 7 proposals
  /\ CheckProposals.count_state 1 proposals
     + CheckProposals.count_state 4 proposals
     + CheckProposals.count_state 7 proposals
     <= Z.of_nat (length proposals).
Proof.
  unfold CheckProposals.count_state.
  induction proposals as [| x l IH]; [cbn; lia |].
  rewrite !filter_cons. cbn [length].
  repeat case_decide; cbn [length]; lia.
Qed.

Lemma fetched_active (e : CheckProposals.Env) (i : Z) :
  Forall (fun x => CheckProposals.stateNum x = 1) (fetched e false i).
Proof.
  unfold fetched, CheckProposals.fetch_one.
  destruct (CheckProposals.contract_proposals e i) as [p | m],
           (CheckProposals.contract_state e i) as [c | m'];
    cbn; try constructor.
  destruct (Z.eqb_spec (Number c) 1) as [H1 | _]; cbn; repeat constructor.
  exact H1.
Qed.

Lemma count_state_active (proposals : list CheckProposals.Entry) :
  Forall (fun x => CheckProposals.stateNum x = 1) proposals ->
  CheckProposals.count_state 1 proposals = Z.of_nat (length proposals)
  /\ CheckProposals.count_state 4 proposals = 0
  /\ CheckProposals.count_state 7 proposals = 0.
Proof.
  unfold CheckProposals.count_state.
  induction 1 as [| x l Hx Hl IH]; [cbn; auto |].
  rewrite !filter_cons. cbn [length].
  repeat case_decide; cbn [length]; lia.
Qed.

(** X11: when proposals are displayed, the summary prints three counts
    that are not negative and whose sum is at most the number of
    proposals displayed (the proposals in other states are in none of
    them).  Without --all only Active proposals are displayed: then
    Active is the number displayed and Succeeded and Executed are 0. *)
Theorem listing_summary (e : CheckProposals.Env) (count : Z) :
  CheckProposals.contract_proposalCount e = Ok count ->
  0 < count < 2 ^ 53 ->
  (forall k, exists cur, CheckProposals.provider_getBlockNumber e k = Ok cur) ->
  let r := run (CheckProposals.main e) in
  displayed r.1 <> [] ->
  exists active succeeded executed,
    omap (labelled "Active: ") r.1 = [active]
    /\ omap (labelled "Succeeded: ") r.1 = [succeeded]
    /\ omap (labelled "Executed: ") r.1 = [executed]
    /\ 0 <= active /\ 0 <= succeeded /\ 0 <= executed
    /\ active + succeeded + executed <= Z.of_nat (length (displayed r.1))
    /\ ("--all" ∉ CheckProposals.argv e ->
        active = Z.of_nat (length (displayed r.1))
        /\ succeeded = 0 /\ executed = 0).
Proof.
  intros Hcount Hrange Hblocks r Hshown.
  set (showAll := bool_decide ("--all" ∈ CheckProposals.argv e)).
  pose proof (fetch_loop_fetched e showAll (Z.to_nat (Number count)) 1 [])
    as Hloop.
  cbn [app] in Hloop.
  set (proposals := concat (map (fetched e showAll)
                              (indices 1 (Z.to_nat (Number count))))) in *.
  destruct (main_listing e count proposals Hcount Hrange Hloop Hblocks)
    as (_ & _ & Hd & Hsum).
  fold r in Hd, Hsum.
  assert (Hne : proposals <> []).
  { intros Hnil. apply Hshown. rewrite Hd, Hnil. reflexivity. }
  destruct (Hsum Hne) as (Ha & Hs & Hx).
  destruct (count_state_bound proposals) as (B1 & B4 & B7 & Bsum).
  exists (CheckProposals.count_state 1 proposals),
         (CheckProposals.count_state 4 proposals),
         (CheckProposals.count_state 7 proposals).
  rewrite Hd, length_map. split_and!; try assumption.
  intros Hnot.
  apply count_state_active. subst proposals.
  assert (Hfalse : showAll = false).
  { subst showAll. apply bool_decide_eq_false. exact Hnot. }
  rewrite Hfalse. apply Forall_concat, Forall_forall.
  intros l Hl. apply list_elem_of_fmap in Hl as (i & -> & _).
  apply fetched_active.
Qed.

Lemma listing_summary_witness :
  exists active succeeded executed,
    omap (labelled "Active: ") (run (CheckProposals.main Samples.governor_3)).1
      = [active]
    /\ omap (labelled "Succeeded: ") (run (CheckProposals.main Samples.governor_3)).1
       = [succeeded]
    /\ omap (labelled "Executed: ") (run (CheckProposals.main Samples.governor_3)).1
       = [executed]
    /\ active + succeeded + executed
       <= Z.of_nat (length (displayed (run (CheckProposals.main Samples.governor_3)).1)).
Proof.
  destruct (listing_summary Samples.governor_3 3 eq_refl)
    as (a & s & x & Ha & Hs & Hx & _ & _ & _ & Hsum & _).
  - split; reflexivity.
  - intros k. exists 105. reflexivity.
  - discriminate.
  - exists a, s, x. split_and!; assumption.
Defined.

(** ** check-proposals.js: the block number, proposal by proposal *)

Section ListingRuns.

Import CheckProposals.

Variable e : Env.
Variable count : Z.
Variable proposals : list Entry.
Hypothesis Hcount : contract_proposalCount e = Ok count.
Hypothesis Hrange : 0 < count < 2 ^ 53.
Hypothesis Hloop :
  fetch_loop e (bool_decide ("--all" ∈ argv e)) 1 (Z.to_nat (Number count)) []
  = ret proposals.

(** What is printed before the first proposal and after the last. *)
Let header : list Event :=
  [Log [Str ("🏛️  BASED DAO Proposals" +:+ nl)]]
  ++ (if 0 <? or_zero (contract_votingDelay e) then
        [Log [Str "📊 Governance Parameters:"];
         Log [Template [Str "Voting Delay: ";
                        Quot (Number (or_zero (contract_votingDelay e))) 86400;
                        Str " days"]];
         Log [Template [Str "Voting Period: ";
                        Quot (Number (or_zero (contract_votingPeriod e))) 86400;
                        Str " days"]];
         Log [Template [Str "Proposal Threshold: ";
                        Num (or_zero (contract_proposalThreshold e));
                        Str (" votes" +:+ nl)]]]
      else [])
  ++ [Log [Template [Str "Total Proposals: "; Num count; Str nl]]].

Let summary : list Event :=
  [Log [Template [Str (nl +:+ "📈 Summary:")]];
   Log [Template [Str "Active: "; Num (count_state 1 proposals)]];
   Log [Template [Str "Succeeded: "; Num (count_state 4 proposals)]];
   Log [Template [Str "Executed: "; Num (count_state 7 proposals)]]].

Lemma main_listing_trace :
  main e =
  match proposals with
  | [] =>
    (header
     ++ [Log [Str (if bool_decide ("--all" ∈ argv e) then "No proposals found."
                   else "No active proposals. Use --all to see all proposals.")]],
     Return tt)
  | _ :: _ =>
    (header ++ (display_loop e 0 proposals).1
     ++ match (display_loop e 0 proposals).2 with
        | Return _ => summary
        | Threw message => [Error [Str "❌ Error:"; Str message]]
        | _ => []
        end,
     match (display_loop e 0 proposals).2 with
     | Return _ => Return tt
     | Threw _ => Exited 1
     | o => o
     end)
  end.
Proof.
  unfold main, main_try. rewrite !await_catch_default, Hcount.
  subst header summary. unfold or_zero.
  set (votingDelay := match contract_votingDelay e with Ok a => a | _ => 0 end).
  set (showAll := bool_decide ("--all" ∈ argv e)) in *.
  destruct (0 <? votingDelay);
    cbn -[fetch_loop display_loop Z.pow Z.eqb Z.leb Number count_state].
  all: rewrite Number_safe in * by lia.
  all: destruct (Z.eqb_spec count 0) as [| _]; [lia |].
  all: destruct (Z.leb_spec (2 ^ 53) count) as [| _]; [lia |].
  all: rewrite Hloop.
  all: destruct proposals as [| prop rest] eqn:Hps; [reflexivity |].
  all: rewrite <- Hps.
  all: cbn -[display_loop count_state].
  all: rewrite Hps; cbn -[display_loop count_state]; rewrite <- Hps.
  all: destruct (display_loop e 0 proposals) as [t [[] | c | x |]];
    cbn -[count_state]; rewrite ?app_nil_r; reflexivity.
Qed.

Lemma observe_header {X} (g : Event -> option X) :
  (forall s args, g (Log (Str s :: args)) = None) ->
  (forall a b c, g (Log [Template [a; b; c]]) = None) ->
  omap g header = [].
Proof.
  intros H1 H3. subst header.
  destruct (0 <? _); cbn; rewrite ?H1, ?H3; reflexivity.
Qed.

End ListingRuns.

Section DisplayBlocks.

Import CheckProposals.

Variable e : Env.

Lemma display_loop_blocks (currentBlock : nat -> Z) :
  (forall k, provider_getBlockNumber e k = Ok (currentBlock k)) ->
  forall proposals k,
    (display_loop e k proposals).2 = Return tt
    /\ time_left (display_loop e k proposals).1
       = concat (imap (fun j => time_left_at currentBlock (k + j)) proposals).
Proof.
  intros Hblocks proposals.
  induction proposals as [| prop rest IH]; intros k; [split; reflexivity |].
  destruct (display_one_ok e k prop (currentBlock k) (Hblocks k))
    as (H2 & _ & _ & Ht & _).
  destruct (IH (S k)) as (I2 & It).
  cbn [display_loop]. rewrite (bind_returns _ _ tt H2). cbn [fst snd].
  split; [exact I2 |].
  unfold time_left in *. rewrite omap_app, Ht, It.
  cbn [imap concat]. unfold time_left_at at 2. rewrite Nat.add_0_r.
  f_equal. f_equal. apply imap_ext. intros j x _. cbn.
  f_equal. lia.
Qed.

Lemma display_one_fails (k : nat) (prop : Entry) (message : string) :
  provider_getBlockNumber e k = Throw message ->
  let r := display_one e k prop in
  r.2 = Threw message
  /\ errors r.1 = []
  /\ displayed r.1 = [id prop]
  /\ omap (labelled "Active: ") r.1 = [].
Proof.
  intros H. unfold display_one. rewrite H. cbn. split_and!; reflexivity.
Qed.

Lemma display_loop_fails (message : string) :
  forall proposals k j,
    (forall i, (i < j)%nat -> exists cur, provider_getBlockNumber e (k + i) = Ok cur) ->
    provider_getBlockNumber e (k + j) = Throw message ->
    (j < length proposals)%nat ->
    let r := display_loop e k proposals in
    r.2 = Threw message
    /\ errors r.1 = []
    /\ displayed r.1 = take (S j) (map id proposals)
    /\ omap (labelled "Active: ") r.1 = [].
Proof.
  induction proposals as [| prop rest IH]; intros k j Hok Hfail Hlen;
    [cbn in Hlen; lia |].
  cbn [display_loop]. cbv zeta.
  destruct j as [| j].
  - rewrite Nat.add_0_r in Hfail.
    destruct (display_one_fails k prop message Hfail) as (H2 & He & Hd & Ha).
    destruct (display_one e k prop) as [t o]. cbn [fst snd] in *. subst o.
    cbn [bind fst snd]. split_and!; try assumption; reflexivity.
  - destruct (Hok 0%nat ltac:(lia)) as [cur Hcur].
    rewrite Nat.add_0_r in Hcur.
    destruct (display_one_ok e k prop cur Hcur)
      as (H2 & He & Hd & _ & Ha & _).
    destruct (IH (S k) j) as (I2 & Ie & Id & Ia).
    + intros i Hi. destruct (Hok (S i) ltac:(lia)) as [c Hc].
      exists c. rewrite <- Hc. f_equal. lia.
    + rewrite <- Hfail. f_equal. lia.
    + cbn [length] in Hlen. lia.
    + rewrite (bind_returns _ _ tt H2). cbn [fst snd].
      unfold errors, displayed in *. rewrite !omap_app.
      rewrite He, Hd, Ha, Ie, Id, Ia. split_and!; try reflexivity.
      exact I2.
Qed.

End DisplayBlocks.

(** X12: the block number is read anew for each proposal displayed: the
    time left of the proposal displayed at position j (from 0) is
    computed with the j-th answer, so two Active proposals of one listing
    may be measured against different blocks. *)
Theorem listing_block_per_proposal (e : CheckProposals.Env) (count : Z)
    (currentBlock : nat -> Z) :
  CheckProposals.contract_proposalCount e = Ok count ->
  0 < count < 2 ^ 53 ->
  (forall k, CheckProposals.provider_getBlockNumber e k = Ok (currentBlock k)) ->
  exists proposals,
    CheckProposals.fetch_loop e (bool_decide ("--all" ∈ CheckProposals.argv e))
      1 (Z.to_nat (Number count)) [] = ret proposals
    /\ displayed (run (CheckProposals.main e)).1
       = map CheckProposals.id proposals
    /\ time_left (run (CheckProposals.main e)).1
       = concat (imap (time_left_at currentBlock) proposals).
Proof.
  intros Hcount Hrange Hblocks.
  set (showAll := bool_decide ("--all" ∈ CheckProposals.argv e)).
  pose proof (fetch_loop_fetched e showAll (Z.to_nat (Number count)) 1 [])
    as Hloop.
  cbn [app] in Hloop.
  set (proposals := concat (map (fetched e showAll)
                              (indices 1 (Z.to_nat (Number count))))) in *.
  exists proposals. split; [exact Hloop |].
  assert (Hsome : forall k, exists cur,
             CheckProposals.provider_getBlockNumber e k = Ok cur)
    by (intros k; eexists; apply Hblocks).
  destruct (main_listing e count proposals Hcount Hrange Hloop Hsome)
    as (_ & _ & Hd & _).
  split; [exact Hd |].
  rewrite (main_listing_trace e count proposals Hcount Hrange Hloop).
  destruct proposals as [| prop rest] eqn:Hps.
  - cbn [run fst snd]. unfold time_left. rewrite omap_app.
    rewrite observe_header
      by (intros; repeat match goal with p : Piece |- _ => destruct p end;
          reflexivity).
    reflexivity.
  - rewrite <- Hps.
    destruct (display_loop_blocks e currentBlock Hblocks proposals 0)
      as (H2 & Ht).
    rewrite H2. cbn [run fst snd]. unfold time_left in *.
    rewrite omap_app.
    rewrite observe_header
      by (intros; repeat match goal with p : Piece |- _ => destruct p end;
          reflexivity).
    rewrite omap_app, Ht.
    cbn [app omap]. cbn. rewrite app_nil_r. rewrite Hps. reflexivity.
Qed.

Lemma listing_block_per_proposal_witness :
  let e := MoreSamples.governor_same 2 1
             (fun k => Ok (1000 + 1800 * Z.of_nat k)) in
  displayed (run (CheckProposals.main e)).1 = [1; 2]
  /\ time_left (run (CheckProposals.main e)).1 = [(5, 9000); (4, 7200)].
Proof.
  destruct (listing_block_per_proposal
              (MoreSamples.governor_same 2 1
                 (fun k => Ok (1000 + 1800 * Z.of_nat k)))
              2 (fun k => 1000 + 1800 * Z.of_nat k) eq_refl)
    as (proposals & Hloop & Hd & Ht).
  - split; reflexivity.
  - intros k. reflexivity.
  - cbv zeta. rewrite Hd, Ht. injection Hloop as <-. split; reflexivity.
Defined.

(** X13: a read of the block number that fails stops the listing, also
    at a proposal that is not Active (the read comes before the test of
    the state): the proposals up to that one have been displayed, the
    message is printed after "Error:", no summary is printed and the
    exit code is 1. *)
Theorem listing_block_read_fails (e : CheckProposals.Env) (count : Z)
    (j : nat) (message : string) :
  CheckProposals.contract_proposalCount e = Ok count ->
  0 < count < 2 ^ 53 ->
  (forall i, (i < j)%nat ->
             exists cur, CheckProposals.provider_getBlockNumber e i = Ok cur) ->
  CheckProposals.provider_getBlockNumber e j = Throw message ->
  let shown :=
    List.filter (listed e (bool_decide ("--all" ∈ CheckProposals.argv e)))
      (indices 1 (Z.to_nat count)) in
  (j < length shown)%nat ->
  let r := run (CheckProposals.main e) in
  r.2 = Some 1
  /\ errors r.1 = [[Str "❌ Error:"; Str message]]
  /\ displayed r.1 = take (S j) shown
  /\ omap (labelled "Active: ") r.1 = [].
Proof.
  intros Hcount Hrange Hok Hfail shown Hj r.
  set (showAll := bool_decide ("--all" ∈ CheckProposals.argv e)) in *.
  pose proof (fetch_loop_fetched e showAll (Z.to_nat (Number count)) 1 [])
    as Hloop.
  cbn [app] in Hloop.
  set (proposals := concat (map (fetched e showAll)
                              (indices 1 (Z.to_nat (Number count))))) in *.
  assert (Hids : map CheckProposals.id proposals = shown).
  { subst proposals shown. rewrite fetched_all_listed, Number_safe by lia.
    reflexivity. }
  assert (Hlen : (j < length proposals)%nat)
    by (rewrite <- (length_map CheckProposals.id), Hids; exact Hj).
  assert (Hne : proposals <> [])
    by (intros Hnil; rewrite Hnil in Hlen; cbn in Hlen; lia).
  destruct (display_loop_fails e message proposals 0 j)
    as (D2 & De & Dd & Da); try assumption.
  subst r.
  rewrite (main_listing_trace e count proposals Hcount Hrange Hloop).
  destruct proposals as [| prop rest] eqn:Hps; [contradiction |].
  rewrite <- Hps in *. rewrite D2.
  cbn [run fst snd]. unfold errors, displayed in *.
  rewrite 3!(omap_app _ (_ ++ _ ++ _)).
  rewrite !observe_header
    by (intros; repeat match goal with p : Piece |- _ => destruct p end;
        reflexivity).
  rewrite !omap_app, De, Dd, Da, Hids.
  cbn. rewrite app_nil_r. split_and!; reflexivity.
Qed.

Lemma listing_block_read_fails_witness :
  let r :=
    run (CheckProposals.main
           (MoreSamples.governor_with ["node"; "check-proposals.js"; "--all"]
              (Ok 86400) (Ok 3)
              (fun k => match k with O => Ok 105 | _ => Throw "timeout" end))) in
  r.2 = Some 1
  /\ errors r.1 = [[Str "❌ Error:"; Str "timeout"]]
  /\ displayed r.1 = [1; 3]
  /\ omap (labelled "Active: ") r.1 = [].
Proof.
  apply (listing_block_read_fails
           (MoreSamples.governor_with ["node"; "check-proposals.js"; "--all"]
              (Ok 86400) (Ok 3)
              (fun k => match k with O => Ok 105 | _ => Throw "timeout" end))
           3 1 "timeout" eq_refl).
  - split; reflexivity.
  - intros i Hi. exists 105. destruct i; [reflexivity | lia].
  - reflexivity.
  - apply Nat.ltb_lt. reflexivity.
Defined.

(** ** vote.js: the vote that is announced is the vote that is sent *)

Lemma vote_label_accepted (x : number) :
  includes_012 x = true ->
  exists label,
    Vote.SUPPORT !! uint_arg x = Some label
    /\ from_option Str Undefined (k ← key_of x; Vote.SUPPORT !! k) = Str label.
Proof.
  destruct x as [| sign [| p]]; cbn [includes_012]; [discriminate | |].
  - intros _. exists "Against". destruct sign; split; reflexivity.
  - destruct sign; [discriminate |].
    intros H. apply orb_true_iff in H as [H | H]; apply N.eqb_eq in H;
      injection H as ->; [exists "For" | exists "Abstain"]; split; reflexivity.
Qed.

Lemma elem_of_run (t : list Event) (o : Outcome unit) (x : Event) :
  x ∈ t -> x ∈ (run (t, o)).1.
Proof.
  intros Hx. destruct o; cbn [run fst]; try assumption.
  apply elem_of_app. left. assumption.
Qed.

(** X14: when a vote is sent, the line "Vote:" printed at the start
    of the run names the support code that the transaction carries:
    Against for 0, For for 1, Abstain for 2. *)
Theorem vote_label_matches (e : Vote.Env) (c : Call) :
  c ∈ sent (run (Vote.main e)).1 ->
  exists label,
    Vote.SUPPORT !! call_support c = Some label
    /\ Log [Str "Vote:"; Str label] ∈ (run (Vote.main e)).1.
Proof.
  intros Hc.
  destruct (vote_sent_passing e c Hc)
    as (proposalId & support & key & address & balance & delegate & proposal
        & currentBlock & Hid & Hne & Hsup & Hacc & Hkey & Hkne & Hwallet & Hb
        & Hpower & Hd & Hs & Hp & Hv & Hblock & _ & ->).
  destruct (vote_label_accepted (parseInt support) Hacc) as (label & Hl & Hline).
  exists label. split.
  - unfold Vote.vote_call. destruct (negb _); exact Hl.
  - rewrite (main_passing e proposalId support key address delegate balance
               proposal currentBlock Hid Hne Hsup Hacc Hkey Hkne Hwallet Hb
               Hpower Hd Hs Hp Hv Hblock).
    rewrite Hline. apply elem_of_run.
    apply elem_of_app. left. apply elem_of_app. left.
    rewrite !elem_of_cons. tauto.
Qed.

Lemma vote_label_matches_witness :
  exists label,
    Vote.SUPPORT !! 0 = Some label
    /\ Log [Str "Vote:"; Str label]
       ∈ (run (Vote.main (Samples.voter "-0" 2 Samples.address_1 1 false 90))).1.
Proof.
  apply (vote_label_matches
           (Samples.voter "-0" 2 Samples.address_1 1 false 90)
           (castVote "5" 0 250000)).
  apply elem_of_cons. left. reflexivity.
Defined.

(** ** The labels of the phases *)

(** vote.js prints the label of the code the chain reports, whatever
    comes after. *)
Lemma vote_state_logged (e : Vote.Env)
    (proposalId support key address delegate : string) (balance state : Z)
    (proposal : Governor.Proposal) :
  Vote.argv e !! 2%nat = Some proposalId -> proposalId <> "" ->
  Vote.argv e !! 3%nat = Some support ->
  includes_012 (parseInt support) = true ->
  Vote.PRIVATE_KEY e = Some key -> key <> "" ->
  Vote.Wallet e key = Ok address ->
  Vote.tokenContract_balanceOf e address = Ok balance -> balance <> 0 ->
  Vote.tokenContract_delegates e address = Ok delegate ->
  Vote.governorContract_state e proposalId = Ok state ->
  Vote.governorContract_proposals e proposalId = Ok proposal ->
  Log [Str "State:"; Str (Vote.stateName (Number state))]
    ∈ (run (Vote.main e)).1.
Proof.
  intros Hid Hne Hsup Hacc Hkey Hkne Hwallet Hbalance Hpower Hdelegate
    Hstate Hproposal.
  rewrite (main_with_wallet e proposalId support Hid Hne Hsup key address
             Hacc Hkey Hkne Hwallet).
  apply elem_of_run, elem_of_app. right.
  unfold Vote.main_try.
  await_ok Hbalance. apply Z.eqb_neq in Hpower. rewrite Hpower.
  await_ok Hdelegate.
  destruct (String.eqb delegate Vote.ZeroAddress);
    [| destruct (negb (String.eqb (toLowerCase delegate) (toLowerCase address)))];
    run_checks; rewrite Hstate, Hproposal; run_checks.
  all: destruct (Number state =? 1); run_checks.
  all: try destruct (Vote.governorContract_hasVoted e proposalId address)
         as [[|] | m]; run_checks.
  all: try destruct (Vote.provider_getBlockNumber e) as [cur | m']; run_checks.
  all: try destruct (Vote.governorContract_send e _) as [tx | m'']; run_checks.
  all: try destruct (Governor.wait tx) as [receipt | m3]; run_checks.
  all: split_includes; run_checks.
  all: repeat (apply elem_of_cons; first [left; reflexivity | right]).
Qed.

(** check-proposals.js displays a pushed entry under its [state]. *)
Lemma display_one_opening (e : CheckProposals.Env) (k : nat)
    (prop : CheckProposals.Entry) :
  exists after,
    (CheckProposals.display_one e k prop).1
    = [Log [Template [Str "Proposal #"; Num (CheckProposals.id prop)]];
       Log [Template [Str "State: "; Str (CheckProposals.state prop)]]]
      ++ after.
Proof.
  unfold CheckProposals.display_one.
  destruct (CheckProposals.provider_getBlockNumber e k) as [cur | m];
    [destruct (CheckProposals.stateNum prop =? 1) |];
    cbn; eexists; reflexivity.
Qed.

Lemma display_loop_opening (e : CheckProposals.Env) :
  (forall k, exists cur, CheckProposals.provider_getBlockNumber e k = Ok cur) ->
  forall (l1 : list CheckProposals.Entry) prop l2 k,
  exists before after,
    (CheckProposals.display_loop e k (l1 ++ prop :: l2)).1
    = before
      ++ [Log [Template [Str "Proposal #"; Num (CheckProposals.id prop)]];
          Log [Template [Str "State: "; Str (CheckProposals.state prop)]]]
      ++ after.
Proof.
  intros Hblocks l1 prop l2.
  induction l1 as [| y l1 IH]; intros k; destruct (Hblocks k) as [cur Hcur].
  - destruct (display_one_ok e k prop cur Hcur) as (H2 & _).
    destruct (display_one_opening e k prop) as [after Ha].
    cbn [app CheckProposals.display_loop].
    rewrite (bind_returns _ _ tt H2). cbn [fst]. rewrite Ha.
    exists [], (after ++ (CheckProposals.display_loop e (S k) l2).1).
    cbn [app]. reflexivity.
  - destruct (display_one_ok e k y cur Hcur) as (H2 & _).
    destruct (IH (S k)) as (before & after & Hl).
    cbn [app CheckProposals.display_loop].
    rewrite (bind_returns _ _ tt H2). cbn [fst]. rewrite Hl.
    exists ((CheckProposals.display_one e k y).1 ++ before), after.
    rewrite <- app_assoc. reflexivity.
Qed.

Lemma within_app {A} (h before lines after s : list A) :
  exists before' after',
    h ++ (before ++ lines ++ after) ++ s = before' ++ lines ++ after'.
Proof.
  exists (h ++ before), (after ++ s). rewrite <- !app_assoc. reflexivity.
Qed.

Lemma listing_displays_state (e : CheckProposals.Env) (count i : Z)
    (prop : CheckProposals.Entry) :
  CheckProposals.contract_proposalCount e = Ok count ->
  0 < count < 2 ^ 53 ->
  (forall k, exists cur, CheckProposals.provider_getBlockNumber e k = Ok cur) ->
  1 <= i <= count ->
  fetched e (bool_decide ("--all" ∈ CheckProposals.argv e)) i = [prop] ->
  exists before after,
    (run (CheckProposals.main e)).1
    = before
      ++ [Log [Template [Str "Proposal #"; Num (CheckProposals.id prop)]];
          Log [Template [Str "State: "; Str (CheckProposals.state prop)]]]
      ++ after.
Proof.
  intros Hcount Hrange Hblocks Hi Hfetched.
  set (showAll := bool_decide ("--all" ∈ CheckProposals.argv e)) in *.
  pose proof (fetch_loop_fetched e showAll (Z.to_nat (Number count)) 1 [])
    as Hloop.
  cbn [app] in Hloop.
  assert (Hin : i ∈ indices 1 (Z.to_nat (Number count)))
    by (apply elem_of_indices; rewrite Number_safe by lia; lia).
  apply list_elem_of_split in Hin as (a & b & Hab).
  rewrite Hab, map_app, concat_app in Hloop. cbn [map concat] in Hloop.
  rewrite Hfetched in Hloop. cbn [app] in Hloop.
  set (l1 := concat (map (fetched e showAll) a)) in *.
  set (l2 := concat (map (fetched e showAll) b)) in *.
  destruct (display_loop_opening e Hblocks l1 prop l2 0%nat)
    as (before & after & Hl).
  destruct (display_loop_ok e Hblocks (l1 ++ prop :: l2) 0%nat) as (D2 & _).
  rewrite (main_listing_trace e count (l1 ++ prop :: l2) Hcount Hrange Hloop).
  destruct (l1 ++ prop :: l2) as [| y rest] eqn:Hps;
    [destruct l1; discriminate |].
  rewrite D2, Hl. cbn [run fst].
  apply within_app.
Qed.

(** C6: the codes 0 to 7 that the chain reports are labelled Pending,
    Active, Canceled, Defeated, Succeeded, Queued, Expired, Executed, in
    this order, and nothing else decides the label.  For every snapshot
    of the proposal, whatever its tallies: check-proposals.js pushes the
    proposal with the code the chain reports and the label of that code,
    the tallies copied, and displays it under that label; vote.js prints
    that label and, unless the code is 1, rejects the vote naming it. *)
Theorem phase_labels (code : Z) (label : string) :
  0 <= code <= 7 ->
  ["Pending"; "Active"; "Canceled"; "Defeated"; "Succeeded"; "Queued";
   "Expired"; "Executed"] !! Z.to_nat code = Some label ->
  Vote.STATES !! code = Some label
  /\ CheckProposals.STATES !! code = Some label
  /\ (forall e i p acc,
        CheckProposals.contract_proposals e i = Ok p ->
        CheckProposals.contract_state e i = Ok code ->
        let x :=
          {| CheckProposals.id := i;
             CheckProposals.state := label;
             CheckProposals.stateNum := code;
             CheckProposals.forVotes := Governor.forVotes p;
             CheckProposals.againstVotes := Governor.againstVotes p;
             CheckProposals.abstainVotes := Governor.abstainVotes p;
             CheckProposals.startBlock := Governor.startBlock p;
             CheckProposals.endBlock := Governor.endBlock p;
             CheckProposals.executed := Governor.executed p;
             CheckProposals.canceled := Governor.canceled p |} in
        CheckProposals.fetch_one e true i acc = ret (acc ++ [x])
        /\ CheckProposals.fetch_one e false i acc
           = ret (if code =? 1 then acc ++ [x] else acc))
  /\ (forall e count i p,
        CheckProposals.contract_proposalCount e = Ok count ->
        0 < count < 2 ^ 53 ->
        (forall k, exists cur,
            CheckProposals.provider_getBlockNumber e k = Ok cur) ->
        1 <= i <= count ->
        CheckProposals.contract_proposals e i = Ok p ->
        CheckProposals.contract_state e i = Ok code ->
        "--all" ∈ CheckProposals.argv e \/ code = 1 ->
        exists before after,
          (run (CheckProposals.main e)).1
          = before
            ++ [Log [Template [Str "Proposal #"; Num i]];
                Log [Template [Str "State: "; Str label]]]
            ++ after)
  /\ (forall e proposalId support key address balance delegate proposal,
        Vote.argv e !! 2%nat = Some proposalId -> proposalId <> "" ->
        Vote.argv e !! 3%nat = Some support ->
        includes_012 (parseInt support) = true ->
        Vote.PRIVATE_KEY e = Some key -> key <> "" ->
        Vote.Wallet e key = Ok address ->
        Vote.tokenContract_balanceOf e address = Ok balance -> balance <> 0 ->
        Vote.tokenContract_delegates e address = Ok delegate ->
        Vote.governorContract_state e proposalId = Ok code ->
        Vote.governorContract_proposals e proposalId = Ok proposal ->
        Log [Str "State:"; Str label] ∈ (run (Vote.main e)).1
        /\ (code <> 1 ->
            rejected_with (ProposalNotActive label) (run (Vote.main e)))).
Proof.
  intros Hrange Hlabel.
  assert (Hn : Number code = code)
    by (apply Number_safe; change (2 ^ 53) with 9007199254740992; lia).
  assert (Htables : Vote.STATES !! code = Some label
                    /\ CheckProposals.STATES !! code = Some label
                    /\ Vote.stateName code = label
                    /\ CheckProposals.stateName code = label).
  { assert (Hcases : code = 0 \/ code = 1 \/ code = 2 \/ code = 3
                     \/ code = 4 \/ code = 5 \/ code = 6 \/ code = 7) by lia.
    destruct Hcases as [-> | [-> | [-> | [-> | [-> | [-> | [-> | ->]]]]]]];
      injection Hlabel as <-; split_and!; reflexivity. }
  destruct Htables as (Hv & Hc & Hvn & Hcn).
  split_and!; try assumption.
  - intros e i p acc Hp Hs x. rewrite !fetch_one_fetched.
    rewrite !(fetched_ok e _ i p code Hp Hs), Hn, Hcn.
    cbn [negb andb]. split; [reflexivity |].
    destruct (code =? 1); cbn [negb]; [| rewrite app_nil_r]; reflexivity.
  - intros e count i p Hcount Hcr Hblocks Hi Hp Hs Hall.
    set (showAll := bool_decide ("--all" ∈ CheckProposals.argv e)).
    pose proof (fetched_ok e showAll i p code Hp Hs) as Hf.
    assert (Hshow : negb showAll && negb (code =? 1) = false).
    { destruct Hall as [Hall | ->].
      - subst showAll. rewrite bool_decide_eq_true_2 by exact Hall. reflexivity.
      - apply andb_false_r. }
    rewrite Hshow, Hn, Hcn in Hf.
    destruct (listing_displays_state e count i _ Hcount Hcr Hblocks Hi Hf)
      as (before & after & Ht).
    exists before, after. exact Ht.
  - intros e proposalId support key address balance delegate proposal
      Hid Hne Hsup Hacc Hkey Hkne Hwallet Hb Hpower Hd Hs Hp.
    split.
    + rewrite <- Hvn, <- Hn.
      eapply vote_state_logged; eassumption.
    + intros H1. rewrite <- Hvn, <- Hn.
      eapply vote_not_active; eassumption.
Qed.

Lemma phase_labels_witness :
  CheckProposals.fetch_one
    (MoreSamples.governor_same 2 3 (fun _ => Ok 105)) true 2 []
  = ret [{| CheckProposals.id := 2;
            CheckProposals.state := "Defeated";
            CheckProposals.stateNum := 3;
            CheckProposals.forVotes := 3;
            CheckProposals.againstVotes := 1;
            CheckProposals.abstainVotes := 0;
            CheckProposals.startBlock := 10;
            CheckProposals.endBlock := 10000;
            CheckProposals.executed := false;
            CheckProposals.canceled := false |}]
  /\ (exists before after,
        (run (CheckProposals.main
                (MoreSamples.governor_same 2 3 (fun _ => Ok 105)))).1
        = before
          ++ [Log [Template [Str "Proposal #"; Num 2]];
              Log [Template [Str "State: "; Str "Defeated"]]]
          ++ after)
  /\ Log [Str "State:"; Str "Defeated"]
       ∈ (run (Vote.main (Samples.voter "1" 2 Samples.address_1 3 false 90))).1
  /\ rejected_with (ProposalNotActive "Defeated")
       (run (Vote.main (Samples.voter "1" 2 Samples.address_1 3 false 90))).
Proof.
  destruct (phase_labels 3 "Defeated" ltac:(lia) eq_refl)
    as (_ & _ & Hfetch & Hlisting & Hvote).
  split_and!.
  - apply (Hfetch (MoreSamples.governor_same 2 3 (fun _ => Ok 105)) 2
             MoreSamples.proposal_10000 [] eq_refl eq_refl).
  - apply (Hlisting (MoreSamples.governor_same 2 3 (fun _ => Ok 105)) 2 2
             MoreSamples.proposal_10000 eq_refl).
    + split; reflexivity.
    + intros k. exists 105. reflexivity.
    + lia.
    + reflexivity.
    + reflexivity.
    + left. repeat (apply elem_of_cons; first [left; reflexivity | right]).
  - apply (Hvote (Samples.voter "1" 2 Samples.address_1 3 false 90)
             "5" "1" Samples.key_1 Samples.address_1 2 Samples.address_1
             Samples.proposal_100);
      first [reflexivity | discriminate | lia].
  - apply (Hvote (Samples.voter "1" 2 Samples.address_1 3 false 90)
             "5" "1" Samples.key_1 Samples.address_1 2 Samples.address_1
             Samples.proposal_100);
      first [reflexivity | discriminate | lia].
Defined.
